(** * census_feature_vecs.py: the cache directory, the completion scan,
      the fetch loop and the two merges.

    The script keeps one feather file per ACS variable in a cache directory
    ([TEMP_DIR]), named [<variable>--<year>.feather].  The embedding follows
    the source function by function; calls into Python's built-ins, pandas
    and pyarrow are given by the small executable models of the first
    sections, and everything that can raise returns an [outcome]. *)

From Stdlib Require Import ZArith String Ascii DecimalString DecimalZ.
From stdpp Require Import gmap strings list.

Local Open Scope Z_scope.

#[local] Arguments String.append !_ _ / : simpl nomatch.

(** ** Exceptions and results *)

Inductive exn : Type :=
  | ValueError
  | KeyError
  | OSError
  | ArrowInvalid
  | MergeError
  | InvalidIndexError
  | TypeError
  | OverflowError
  | CensusException.

Inductive outcome (A : Type) : Type :=
  | Ok (a : A)
  | Raise (e : exn).

Arguments Ok {A} a.
Arguments Raise {A} e.

Definition obind {A B} (m : outcome A) (k : A -> outcome B) : outcome B :=
  match m with
  | Ok a => k a
  | Raise e => Raise e
  end.

Notation "'try' x := m 'in' k" := (obind m (fun x => k))
  (at level 10, x pattern, m at level 100, k at level 200).

Definition raises {A} (m : outcome A) : Prop := exists e, m = Raise e.

(** ** Python strings: [str.split], [int], [str] *)

Module Py.

(** [s.split(sep)] for a non-empty [sep]: the occurrences of [sep] are found
    from the left and do not overlap.  [skip] counts the characters of the
    occurrence just found that are still to be passed over, [cur] is the
    piece read so far. *)
Fixpoint split_go (sep : string) (skip : nat) (cur s : string) : list string :=
  match s with
  | EmptyString => [cur]
  | String c s' =>
      match skip with
      | S k => split_go sep k cur s'
      | O =>
          if String.prefix sep s
          then cur :: split_go sep (String.length sep - 1) EmptyString s'
          else split_go sep 0 (cur +:+ String c EmptyString) s'
      end
  end.

Definition split (sep s : string) : list string := split_go sep 0 EmptyString s.

(** [sep in s] *)
Fixpoint contains (sep s : string) : bool :=
  match s with
  | EmptyString => String.prefix sep EmptyString
  | String _ s' => String.prefix sep s || contains sep s'
  end.

(** The characters [Py_ISSPACE] accepts. *)
Definition is_space (c : ascii) : bool :=
  let n := nat_of_ascii c in
  (Nat.eqb n 32 || (Nat.leb 9 n && Nat.leb n 13))%bool.

Definition digit_val (c : ascii) : option Z :=
  let n := nat_of_ascii c in
  if (Nat.leb 48 n && Nat.leb n 57)%bool then Some (Z.of_nat (n - 48)) else None.

Fixpoint lstrip (s : string) : string :=
  match s with
  | String c s' => if is_space c then lstrip s' else s
  | EmptyString => EmptyString
  end.

Fixpoint all_space (s : string) : bool :=
  match s with
  | String c s' => is_space c && all_space s'
  | EmptyString => true
  end.

(** The digits of a base-10 literal after the first one: single underscores
    may separate digits, white space may follow the last digit. *)
Fixpoint int_body (acc : Z) (after_underscore : bool) (s : string) : option Z :=
  match s with
  | EmptyString => if after_underscore then None else Some acc
  | String c s' =>
      match digit_val c with
      | Some d => int_body (10 * acc + d) false s'
      | None =>
          if after_underscore then None
          else if Ascii.eqb c "_" then int_body acc true s'
          else if all_space s then Some acc else None
      end
  end.

Definition int_unsigned (s : string) : option Z :=
  match s with
  | String c s' =>
      match digit_val c with
      | Some d => int_body d false s'
      | None => None
      end
  | EmptyString => None
  end.

Definition int_signed (s : string) : option Z :=
  match s with
  | String "+" s' => int_unsigned s'
  | String "-" s' => Z.opp <$> int_unsigned s'
  | _ => int_unsigned s
  end.

(** [int(s)], base 10; [ValueError] when [s] is not a literal. *)
Definition int (s : string) : outcome Z :=
  match int_signed (lstrip s) with
  | Some z => Ok z
  | None => Raise ValueError
  end.

(** [str(z)], also what an f-string prints for an integer. *)
Definition str (z : Z) : string := NilZero.string_of_int (Z.to_int z).

(** *** [float(z)] and its [repr]

    The conversion of an integer to a double rounds to 53 significant bits,
    to the nearest double and to the even one of two that are equally near;
    the double of an integer is an integer again, and is kept as such. *)

(** The multiple of [p] nearest to [a]. *)
Definition round_half_even (a p : Z) : Z :=
  let q := a / p in
  let r := a mod p in
  if (p <? 2 * r) || ((2 * r =? p) && Z.odd q) then (q + 1) * p else q * p.

Definition nearest_double (a : Z) : Z :=
  if a <? 2 ^ 53 then a else round_half_even a (2 ^ (Z.log2 a - 52)).

(** [float(z)] raises [OverflowError] when the nearest double would be
    [2 ** 1024] or more. *)
Definition float_fits (z : Z) : bool := nearest_double (Z.abs z) <? 2 ^ 1024.

(** [repr] prints the shortest decimal that reads back as the same double:
    [v], which has [digits] digits, is rounded to 1, 2, ... 17 significant
    digits until the rounded number converts to [v] again. *)
Fixpoint shortest (v digits : Z) (n : nat) : Z :=
  match n with
  | O => v
  | S n' =>
      let c := round_half_even v (10 ^ (digits - 18 + Z.of_nat n)) in
      if nearest_double c =? v then c else shortest v digits n'
  end.

Fixpoint strip_zeros_rev (s : list ascii) : list ascii :=
  match s with
  | "0"%char :: s' => strip_zeros_rev s'
  | _ => s
  end.

Definition strip_zeros (s : string) : string :=
  string_of_list_ascii (rev (strip_zeros_rev (rev (list_ascii_of_string s)))).

(** [d.ddde+XX], the form [repr] takes from [1e16] on. *)
Definition exponent_form (c : Z) : string :=
  let s := str c in
  let e := str (Z.of_nat (String.length s) - 1) in
  match strip_zeros s with
  | String d EmptyString => String d ("e+" +:+ e)
  | String d frac => String d ("." +:+ frac +:+ "e+" +:+ e)
  | EmptyString => s
  end.

(** [repr(float(z))]: [7] gives ["7.0"], [2 ** 53 + 1] gives
    ["9007199254740992.0"], [2 ** 63] gives ["9.223372036854776e+18"]. *)
Definition float_repr (z : Z) : string :=
  let v := nearest_double (Z.abs z) in
  let body :=
    if v <? 10 ^ 16 then str v +:+ ".0"
    else if 2 ^ 1024 <=? v then "inf"
    else exponent_form (shortest v (Z.of_nat (String.length (str v))) 17) in
  if z <? 0 then "-" +:+ body else body.

End Py.

(** ** Data frames

    A frame is a list of column labels and a list of rows.  Cells hold what
    the census client returns and what pandas fills in: text, integers,
    floats (kept as their [repr], which [astype(str)] prints) and [None].

    The dtype of a column is the one its cells show: a column of integers
    is [int64], a column of floats is [float64], any other column is
    [object].  A column without rows shows no dtype and weighs on no
    result. *)

Inductive cell : Type :=
  | CStr (s : string)
  | CInt (z : Z)
  | CFloat (repr : string)
  | CNone.

#[global] Instance cell_eq_dec : EqDecision cell.
Proof. solve_decision. Defined.

Record DataFrame : Type := mkFrame {
  columns : list string;
  rows : list (list cell)
}.

Module Pd.

(** The missing value a join or a concatenation fills in. *)
Definition NaN : cell := CFloat "nan".

(** [pd.isna] *)
Definition isna (c : cell) : bool :=
  match c with
  | CNone => true
  | _ => bool_decide (c = NaN)
  end.

Inductive dtype : Type := int64 | float64 | object.

#[global] Instance dtype_eq_dec : EqDecision dtype.
Proof. solve_decision. Defined.

Definition is_int (c : cell) : bool :=
  match c with
  | CInt _ => true
  | _ => false
  end.

Definition is_float (c : cell) : bool :=
  match c with
  | CFloat _ => true
  | _ => false
  end.

Definition dtype_of (cells : list cell) : dtype :=
  match cells with
  | [] => object
  | _ =>
      if forallb is_int cells then int64
      else if forallb is_float cells then float64
      else object
  end.

(** What a cell becomes when its column is cast to [float64]: an integer
    becomes the nearest double, [None] becomes [NaN]. *)
Definition to_float64 (c : cell) : cell :=
  match c with
  | CInt z => CFloat (Py.float_repr z)
  | CNone => NaN
  | _ => c
  end.

(** The cast of a cell to the dtype its column takes in a result; a cast to
    [int64] or to [object] leaves the cells of this embedding as they are. *)
Definition astype (t : dtype) (c : cell) : cell :=
  match t with
  | float64 => to_float64 c
  | _ => c
  end.

(** [np.result_type] on these three dtypes. *)
Definition common_type (ts : list dtype) : dtype :=
  if forallb (λ t, bool_decide (t = int64)) ts then int64
  else if forallb (λ t, bool_decide (t ≠ object)) ts then float64
  else object.

Definition all_equal (ts : list dtype) : bool :=
  forallb (λ t, forallb (λ t', bool_decide (t = t')) ts) ts.

(** Column [j] of a list of rows. *)
Definition column_at (j : nat) (rws : list (list cell)) : list cell :=
  map (λ r, nth j r NaN) rws.

(** [str(x)] of one cell, as [Series.astype(str)] applies it. *)
Definition cell_str (c : cell) : string :=
  match c with
  | CStr s => s
  | CInt z => Py.str z
  | CFloat r => r
  | CNone => "None"
  end.

Definition count (l : string) (cols : list string) : nat :=
  length (filter (λ c, c = l) cols).

(** The cell of row [r] under the first column labelled [l]. *)
Fixpoint row_get (cols : list string) (l : string) (r : list cell) : option cell :=
  match cols, r with
  | c :: cols', v :: r' => if decide (c = l) then Some v else row_get cols' l r'
  | _, _ => None
  end.

(** Every cell of row [r] under a column labelled [l] becomes [v]. *)
Fixpoint row_set (cols : list string) (l : string) (v : cell) (r : list cell) : list cell :=
  match cols, r with
  | c :: cols', x :: r' => (if decide (c = l) then v else x) :: row_set cols' l v r'
  | _, _ => r
  end.

(** The cells of row [r] whose column label satisfies [keep]. *)
Fixpoint row_filter (keep : string → bool) (cols : list string) (r : list cell) : list cell :=
  match cols, r with
  | c :: cols', x :: r' =>
      if keep c then x :: row_filter keep cols' r' else row_filter keep cols' r'
  | _, _ => []
  end.

(** [d[l]] for a single label: the column as a series.  A label carried by
    several columns selects a frame, which the arithmetic that follows in
    this program rejects; the embedding raises at the selection. *)
Definition getitem (d : DataFrame) (l : string) : outcome (list cell) :=
  match count l (columns d) with
  | O => Raise KeyError
  | S O => Ok (map (λ r, default NaN (row_get (columns d) l r)) (rows d))
  | _ => Raise ValueError
  end.

(** [a.astype(str) + b.astype(str)] *)
Definition str_add (a b : list cell) : list cell :=
  zip_with (λ x y, CStr (cell_str x +:+ cell_str y)) a b.

(** [d[l] = series]: an existing column is overwritten in place, a new one
    is appended on the right. *)
Definition setitem (d : DataFrame) (l : string) (vals : list cell) : DataFrame :=
  if decide (l ∈ columns d)
  then mkFrame (columns d) (zip_with (λ r v, row_set (columns d) l v r) (rows d) vals)
  else mkFrame (columns d ++ [l]) (zip_with (λ r v, r ++ [v]) (rows d) vals).

(** [d[l] = scalar] *)
Definition setitem_scalar (d : DataFrame) (l : string) (v : cell) : DataFrame :=
  setitem d l (replicate (length (rows d)) v).

(** [d.drop(labels, axis=1)]: [KeyError] when a label names no column. *)
Definition drop (d : DataFrame) (labels : list string) : outcome DataFrame :=
  if forallb (λ l, bool_decide (l ∈ columns d)) labels
  then
    let keep c := bool_decide (c ∉ labels) in
    Ok (mkFrame (filter (λ c, c ∉ labels) (columns d))
                (map (row_filter keep (columns d)) (rows d)))
  else Raise KeyError.

(** [d.rename(columns={old : new})]; a missing [old] is not an error. *)
Definition rename (d : DataFrame) (old new : string) : DataFrame :=
  mkFrame (map (λ c, if decide (c = old) then new else c) (columns d)) (rows d).

(** [d[[l1, l2, ...]]] *)
Definition select (d : DataFrame) (labels : list string) : outcome DataFrame :=
  if forallb (λ l, bool_decide (l ∈ columns d)) labels
  then
    Ok (mkFrame (flat_map (λ l, filter (λ c, c = l) (columns d)) labels)
                (map (λ r, flat_map (λ l, row_filter (λ c, bool_decide (c = l)) (columns d) r)
                                    labels) (rows d)))
  else Raise KeyError.

(** Labels in the order of their first appearance. *)
Fixpoint union_go (seen l : list string) : list string :=
  match l with
  | [] => seen
  | x :: l' => union_go (if decide (x ∈ seen) then seen else seen ++ [x]) l'
  end.

Definition reindex (cols new_cols : list string) (r : list cell) : list cell :=
  map (λ l, default NaN (row_get cols l r)) new_cols.

(** The dtype of one column of [pd.concat(frames)], from the cells each
    frame brings to it ([pieces]); [missing] says that some frame has no such
    column.  Pieces of one dtype keep it.  Otherwise the dtype is the common
    type of the pieces that are not all missing values (pandas 2 leaves the
    others out), of all the pieces when there is no such piece.  An integer
    column that has to take missing values becomes [float64] where a frame
    lacks the column; where the missing values come as pieces of their own,
    the pieces are stacked as they are and take their common type. *)
Definition concat_dtype (missing : bool) (pieces : list (list cell)) : dtype :=
  let pieces := filter (λ p, p ≠ []) pieces in
  let ts := map dtype_of pieces in
  let present := filter (λ p, forallb isna p = false) pieces in
  let target :=
    if all_equal ts then common_type ts
    else common_type (map dtype_of (if forallb (forallb isna) pieces then pieces else present)) in
  match target with
  | int64 => if missing then float64 else common_type ts
  | t => t
  end.

(** The rows of several tables with [ncols] columns one after the other,
    each column cast to its dtype. *)
Definition stack (missing : list bool) (ncols : nat) (tables : list (list (list cell)))
  : list (list cell) :=
  let ts :=
    map (λ j, concat_dtype (nth j missing false) (map (column_at j) tables)) (seq 0 ncols) in
  flat_map (map (zip_with astype ts)) tables.

(** [pd.concat(frames, axis=0)] *)
Definition concat (frames : list DataFrame) : outcome DataFrame :=
  match frames with
  | [] => Raise ValueError
  | f :: _ =>
      if forallb (λ g, bool_decide (columns g = columns f)) frames
      then Ok (mkFrame (columns f) (stack [] (length (columns f)) (map rows frames)))
      else if forallb (λ g, bool_decide (NoDup (columns g))) frames
      then
        let u := union_go [] (flat_map columns frames) in
        let missing := map (λ l, existsb (λ g, bool_decide (l ∉ columns g)) frames) u in
        Ok (mkFrame u (stack missing (length u)
                         (map (λ g, map (reindex (columns g) u) (rows g)) frames)))
      else Raise InvalidIndexError
  end.

(** [Index.duplicated()]: marks every occurrence of a label but the first. *)
Fixpoint duplicated_go (seen l : list string) : list bool :=
  match l with
  | [] => []
  | x :: l' => bool_decide (x ∈ seen) :: duplicated_go (x :: seen) l'
  end.

Definition duplicated : list string → list bool := duplicated_go [].

(** Duplicates among [new] that were not duplicates in [orig]. *)
Definition suffix_dups (orig new : list string) : bool :=
  existsb (λ p, p.2 && negb p.1) (zip (duplicated orig) (duplicated new)).

(** The rows of [right] a row of [left] is joined to. *)
Definition matches (left right : DataFrame) (key : string) (lr : list cell)
  : list (list cell) :=
  filter (λ rr, default NaN (row_get (columns right) key rr)
                = default NaN (row_get (columns left) key lr)) (rows right).

(** The dtypes the columns of [right] take in a left join: an [int64]
    column becomes [float64] as soon as one row of [left] finds no row of
    [right] and a missing value has to be filled in; without such a row every
    column keeps its dtype. *)
Definition join_dtypes (unmatched : bool) (ncols : nat) (rrows : list (list cell))
  : list dtype :=
  map (λ j, if unmatched && bool_decide (dtype_of (column_at j rrows) = int64)
            then float64 else object) (seq 0 ncols).

(** [left.merge(right, how="left", on=key)].  The key column of [right] is
    dropped; a label the two sides share gets the suffixes [_x] and [_y], and
    a duplicate label that the suffixes create is a [MergeError].  Every row
    of [left] is kept, in order: once per row of [right] with the same key,
    or once with [NaN] in the columns of [right] when there is none. *)
Definition merge_left (left right : DataFrame) (key : string) : outcome DataFrame :=
  match count key (columns left), count key (columns right) with
  | O, _ | _, O => Raise KeyError
  | S O, S O =>
      let rcols := filter (λ c, c ≠ key) (columns right) in
      let llabels :=
        map (λ c, if decide (c ∈ rcols) then c +:+ "_x" else c) (columns left) in
      let rlabels :=
        map (λ c, if decide (c ∈ columns left) then c +:+ "_y" else c) rcols in
      if suffix_dups (columns left) llabels || suffix_dups rcols rlabels
      then Raise MergeError
      else
        let rest r := row_filter (λ c, bool_decide (c ≠ key)) (columns right) r in
        let unmatched :=
          existsb (λ lr, bool_decide (matches left right key lr = [])) (rows left) in
        let ts := join_dtypes unmatched (length rcols) (map rest (rows right)) in
        Ok (mkFrame (llabels ++ rlabels)
              (flat_map (λ lr,
                 match matches left right key lr with
                 | [] => [lr ++ replicate (length rcols) NaN]
                 | ms => map (λ rr, lr ++ zip_with astype ts (rest rr)) ms
                 end) (rows left)))
  | _, _ => Raise ValueError
  end.

(** *** [pd.DataFrame] on a dict of lists

    Each list is typed by [lib.maybe_convert_objects], which reads it from
    the left and notes what it has seen. *)

Definition INT64_MIN : Z := - 2 ^ 63.
Definition INT64_MAX : Z := 2 ^ 63 - 1.
Definition UINT64_MAX : Z := 2 ^ 64 - 1.

Record seen : Type := mkSeen {
  null_ : bool;
  nan_ : bool;
  float_ : bool;
  int_ : bool;
  uint_ : bool;
  sint_ : bool
}.

Inductive converted : Type := Objects | Floats | Ints.

(** Text ends the reading: the list stays a list of objects.  So does an
    integer out of the range of [int64] and [uint64], or one of each range,
    unless a [None] came before it.  Every integer that is read is also
    converted to a double, which can overflow. *)
Fixpoint maybe_convert_objects (cells : list cell) (s : seen) : outcome converted :=
  match cells with
  | [] =>
      Ok (if null_ s || nan_ s
          then (if float_ s || int_ s || nan_ s then Floats else Objects)
          else if float_ s then Floats
          else if int_ s then Ints
          else Objects)
  | CNone :: cells' =>
      maybe_convert_objects cells'
        (mkSeen true (nan_ s) (float_ s) (int_ s) (uint_ s) (sint_ s))
  | CFloat r :: cells' =>
      if bool_decide (CFloat r = NaN)
      then maybe_convert_objects cells'
             (mkSeen (null_ s) true (float_ s) (int_ s) (uint_ s) (sint_ s))
      else maybe_convert_objects cells'
             (mkSeen (null_ s) (nan_ s) true (int_ s) (uint_ s) (sint_ s))
  | CInt z :: cells' =>
      if negb (Py.float_fits z) then Raise OverflowError
      else if null_ s
      then maybe_convert_objects cells'
             (mkSeen (null_ s) (nan_ s) (float_ s) true (uint_ s) (sint_ s))
      else
        let u := uint_ s || (INT64_MAX <? z) in
        let g := sint_ s || (z <? 0) in
        if (u && g) || (UINT64_MAX <? z) || (z <? INT64_MIN) then Ok Objects
        else maybe_convert_objects cells'
               (mkSeen (null_ s) (nan_ s) (float_ s) true u g)
  | CStr _ :: _ => Ok Objects
  end.

(** One list of the dict as the column it makes. *)
Definition sanitize_array (cells : list cell) : outcome (list cell) :=
  try c := maybe_convert_objects cells (mkSeen false false false false false false) in
  Ok (match c with
      | Floats => map to_float64 cells
      | _ => cells
      end).

Fixpoint homogenize (arrays : list (list cell)) : outcome (list (list cell)) :=
  match arrays with
  | [] => Ok []
  | a :: arrays' =>
      try a := sanitize_array a in
      try arrays' := homogenize arrays' in
      Ok (a :: arrays')
  end.

(** [pd.DataFrame(out)]: lists of unequal lengths are a [ValueError]. *)
Definition from_columns (out : list (string * list cell)) : outcome DataFrame :=
  let n := length (hd [] (map snd out)) in
  if forallb (λ c, Nat.eqb (length c.2) n) out
  then
    try arrays := homogenize (map snd out) in
    Ok (mkFrame (map fst out) (map (λ i, map (λ a, nth i a NaN) arrays) (seq 0 n)))
  else Raise ValueError.

End Pd.

(** ** The cache directory

    A directory is listed as its entries, in the order [os.listdir] yields
    them.  An entry that [feather.read_feather] cannot load (a damaged or
    truncated file, a file of another format, a subdirectory) is
    [Unreadable].  [None] is a directory that cannot be listed at all. *)

Inductive file : Type :=
  | Feather (d : DataFrame)
  | Unreadable.

Abbreviation directory := (list (string * file)).

Definition os_listdir (dir : option directory) : outcome directory :=
  match dir with
  | Some entries => Ok entries
  | None => Raise OSError
  end.

Definition read_feather (f : file) : outcome DataFrame :=
  match f with
  | Feather d => Ok d
  | Unreadable => Raise ArrowInvalid
  end.

(** The content stored under a name. *)
Fixpoint file_at (name : string) (entries : directory) : option file :=
  match entries with
  | [] => None
  | (n, f) :: entries' => if decide (n = name) then Some f else file_at name entries'
  end.

(** A successful [feather.write_feather(d, dir / name)]: the file of that
    name is replaced where it stands, or a new entry appears. *)
Fixpoint put_file (name : string) (d : DataFrame) (entries : directory) : directory :=
  match entries with
  | [] => [(name, Feather d)]
  | (n, f) :: entries' =>
      if decide (n = name) then (n, Feather d) :: entries'
      else (n, f) :: put_file name d entries'
  end.

(** A write that fails once its file is open: the file is created, or cut
    to nothing if it was there, and holds what was written before the
    failure.  [write_feather] removes such a file only when its destination
    is given as a [str]; the script gives a [Path] (line 181), so the file
    stays, and [read_feather] cannot load it. *)
Fixpoint truncate_file (name : string) (entries : directory) : directory :=
  match entries with
  | [] => [(name, Unreadable)]
  | (n, f) :: entries' =>
      if decide (n = name) then (n, Unreadable) :: entries'
      else (n, f) :: truncate_file name entries'
  end.

(** ** Configuration (source lines 28-29) *)

Definition YEAR : Z := 2021.
Definition GEOGRAPHY : string := "tract".

(** ** get_completed_vars *)

(** One turn of the loop of [get_completed_vars], up to the test on the year:
    [filename.split(".")[0]], the unpacking of [split("--")] into exactly two
    names, and [int(yr)]. *)
Definition parse_cache_name (filename : string) : outcome (string * Z) :=
  let filename := hd EmptyString (Py.split "." filename) in
  match Py.split "--" filename with
  | [var; yr] => try y := Py.int yr in Ok (var, y)
  | _ => Raise ValueError
  end.

Fixpoint completed_loop (year : Z) (entries : directory) (completed_vars : gset string)
  : outcome (gset string) :=
  match entries with
  | [] => Ok completed_vars
  | (filename, _) :: entries' =>
      try (var, yr) := parse_cache_name filename in
      if decide (yr ≠ year) then completed_loop year entries' completed_vars
      else completed_loop year entries' (completed_vars ∪ {[var]})
  end.

Definition get_completed_vars (dir : option directory) (year : Z) : outcome (gset string) :=
  try entries := os_listdir dir in
  completed_loop year entries ∅.

(** ** concatenate_variables_long

    The progress lines the two merges print are left out: they change
    nothing that is returned. *)

Definition variable_of (filename : string) : string :=
  hd EmptyString (Py.split "--" filename).

Definition redundant : list string := ["state"; GEOGRAPHY; "year"; "descr"].

(** The body of the loop after [read_feather]: the frame that is appended
    to [total]. *)
Definition long_table (variable_name : string) (d : DataFrame) : outcome DataFrame :=
  try st := Pd.getitem d "state" in
  try geo := Pd.getitem d GEOGRAPHY in
  let d := Pd.setitem d "unique_id" (Pd.str_add st geo) in
  try d := Pd.drop d redundant in
  Ok (Pd.setitem_scalar d "variable" (CStr variable_name)).

Fixpoint long_loop (entries : directory) (total : list DataFrame) (variables : list string)
  : outcome (list DataFrame * list string) :=
  match entries with
  | [] => Ok (total, variables)
  | (filename, f) :: entries' =>
      let variable_name := variable_of filename in
      let variables := variables ++ [variable_name] in
      try d := read_feather f in
      try d := long_table variable_name d in
      long_loop entries' (total ++ [d]) variables
  end.

Definition concatenate_variables_long (dir : option directory)
  : outcome (DataFrame * list string) :=
  try entries := os_listdir dir in
  try (total, variables) := long_loop entries [] [] in
  try total := Pd.concat total in
  Ok (total, variables).

(** ** concatenate_variables_wide *)

Definition wide_table (variable_name : string) (d : DataFrame) : outcome DataFrame :=
  let d := Pd.rename d "value" variable_name in
  try st := Pd.getitem d "state" in
  try geo := Pd.getitem d GEOGRAPHY in
  let d := Pd.setitem d "unique_id" (Pd.str_add st geo) in
  Pd.drop d redundant.

Fixpoint wide_loop (entries : directory) (total : option DataFrame) (variables : list string)
  : outcome (option DataFrame * list string) :=
  match entries with
  | [] => Ok (total, variables)
  | (filename, f) :: entries' =>
      let variable_name := variable_of filename in
      let variables := variables ++ [variable_name] in
      try d := read_feather f in
      try d := wide_table variable_name d in
      try total :=
        match total with
        | None => Pd.select d ["unique_id"; variable_name]
        | Some total => Pd.merge_left total d "unique_id"
        end in
      wide_loop entries' (Some total) variables
  end.

Definition concatenate_variables_wide (dir : option directory)
  : outcome (option DataFrame * list string) :=
  try entries := os_listdir dir in
  wide_loop entries None [].

(** ** get_acs_variable *)

(** A row of the reply of the census client: a Python dict. *)
Definition dict : Type := list (string * cell).

Fixpoint dict_get (k : string) (row : dict) : outcome cell :=
  match row with
  | [] => Raise KeyError
  | (k', v) :: row' => if decide (k' = k) then Ok v else dict_get k row'
  end.

(** The three lists the loop over [req] appends to. *)
Fixpoint acs_columns (var_id : string) (req : list dict)
  : outcome (list cell * list cell * list cell) :=
  match req with
  | [] => Ok ([], [], [])
  | row :: req' =>
      try s := dict_get "state" row in
      try g := dict_get GEOGRAPHY row in
      try v := dict_get var_id row in
      try (sg, vs) := acs_columns var_id req' in
      Ok (s :: sg.1, g :: sg.2, v :: vs)
  end.

(** [acs5_get var_id year] is the reply of [CensusObj.acs5.get] for the
    fixed geography query, or the exception it raises. *)
Definition get_acs_variable (acs5_get : string → Z → outcome (list dict))
    (var_id : string) (year : Z) (descr : cell) : outcome (list (string * list cell)) :=
  try req := acs5_get var_id year in
  try (sg, vs) := acs_columns var_id req in
  Ok [("state", sg.1);
      (GEOGRAPHY, sg.2);
      ("year", replicate (length req) (CInt year));
      ("descr", replicate (length req) descr);
      ("value", vs)].

(** ** The fetch phase of the script (source lines 163-189) *)

Record acs_var : Type := mkVar {
  Name : string;
  Predicate_Type : string;
  Label : cell
}.

(** The names that [acs_vars.loc[...isin(["int", "float"])].Name] selects;
    [var_names] is this list without repetitions, in the order of a set. *)
Definition numeric_names (acs_vars : list acs_var) : list string :=
  map Name (filter (λ r, Predicate_Type r ∈ ["int"; "float"]) acs_vars).

(** [acs_vars.loc[acs_vars.Name == var, "Label"].item()] *)
Definition label_item (acs_vars : list acs_var) (var : string) : outcome cell :=
  match filter (λ r, Name r = var) acs_vars with
  | [r] => Ok (Label r)
  | _ => Raise ValueError
  end.

(** What the fetch loop prints. *)
Inductive message : Type :=
  | VariableFailed (var : string)
  | Error (e : exn)
  | Progress (done : nat).

(** The state the loop runs in: the cache directory, the console, and the
    variables a remote query was issued for. *)
Record world : Type := mkWorld {
  temp_dir : directory;
  stdout : list message;
  queried : list string
}.

(** [f"{var}--{YEAR}.feather"] *)
Definition cache_name (var : string) (year : Z) : string :=
  var +:+ "--" +:+ Py.str year +:+ ".feather".

(** How a write of the cache fails: before the file is opened (the frame
    cannot be turned into an Arrow table, the path cannot be opened), or
    after. *)
Inductive fault : Type :=
  | BeforeOpen (e : exn)
  | AfterOpen (e : exn).

Section Scrape.

(** The remote source and the disk.  [write_fault name d] is the way the
    write of the frame [d] under [name] fails, if it does; [var_names] bears
    no name twice (line 164), so a run writes under a name at most once.
    A name without a path separator is an entry of the cache directory.
    With a separator in the variable the path leads elsewhere:
    [lands name] is the entry of the cache directory it designates, if it is
    one, and [None] when the path leaves the directory. *)
Context (acs5_get : string → Z → outcome (list dict)).
Context (write_fault : string → DataFrame → option fault).
Context (lands : string → option string).
Context (acs_vars : list acs_var).
Context (year : Z).
Context (completed_vars : gset string).

(** The entry of the cache directory that [Path(TEMP_DIR) / Path(name)]
    designates. *)
Definition entry_of (name : string) : option string :=
  if Py.contains "/" name then lands name else Some name.

(** [feather.write_feather(d, Path(TEMP_DIR) / Path(name))]: the directory
    after the call, and the exception it raised. *)
Definition write_feather (d : DataFrame) (name : string) (entries : directory)
  : directory * option exn :=
  match write_fault name d, entry_of name with
  | None, Some n => (put_file n d entries, None)
  | None, None => (entries, None)
  | Some (BeforeOpen e), _ => (entries, Some e)
  | Some (AfterOpen e), Some n => (truncate_file n entries, Some e)
  | Some (AfterOpen e), None => (entries, Some e)
  end.

(** The [try] block of the loop: the directory it leaves, and the exception
    that ended it. *)
Definition fetch_and_cache (var : string) (var_descr : cell) (entries : directory)
  : directory * option exn :=
  match (try out := get_acs_variable acs5_get var year var_descr in
         Pd.from_columns out) with
  | Ok d => write_feather d (cache_name var year) entries
  | Raise e => (entries, Some e)
  end.

Fixpoint scrape_loop (i : nat) (var_names : list string) (w : world)
  : world * option exn :=
  match var_names with
  | [] => (w, None)
  | var :: var_names' =>
      if decide (var ∈ completed_vars) then scrape_loop (S i) var_names' w
      else
        match label_item acs_vars var with
        | Raise e => (w, Some e)
        | Ok var_descr =>
            let w := mkWorld (temp_dir w) (stdout w) (queried w ++ [var]) in
            let w :=
              match fetch_and_cache var var_descr (temp_dir w) with
              | (entries, None) => mkWorld entries (stdout w) (queried w)
              | (entries, Some e) =>
                  mkWorld entries (stdout w ++ [VariableFailed var; Error e]) (queried w)
              end in
            let w :=
              if decide ((S i) `mod` 100 = 0)%nat
              then mkWorld (temp_dir w) (stdout w ++ [Progress (S i)]) (queried w)
              else w in
            scrape_loop (S i) var_names' w
        end
  end.

End Scrape.

(** Lines 165-189 for [SCRAPE_VARS = True]: the scan of the cache, then the
    loop.  [var_names] is the list the script builds from the catalog. *)
Definition fetch_phase (acs5_get : string → Z → outcome (list dict))
    (write_fault : string → DataFrame → option fault) (lands : string → option string)
    (acs_vars : list acs_var) (var_names : list string) (year : Z) (entries : directory)
  : outcome (world * option exn) :=
  try completed_vars := get_completed_vars (Some entries) year in
  Ok (scrape_loop acs5_get write_fault lands acs_vars year completed_vars 0 var_names
        (mkWorld entries [] [])).

(** ** The merge phase of the script (source lines 193-206)

    [long] is [CONCAT_TYPE.lower().startswith("l")].  The result is what the
    run writes: the data set and the lines of the manifest.  [data_fault] and
    [manifest_fault] are the exceptions the two writes raise, if any. *)
Definition merge_phase (long : bool) (data_fault manifest_fault : option exn)
    (dir : option directory) : outcome (DataFrame * list string) :=
  try (final, variables) :=
    (if long
     then try (total, variables) := concatenate_variables_long dir in
          Ok (Some total, variables)
     else concatenate_variables_wide dir) in
  match final, data_fault, manifest_fault with
  | None, _, _ => Raise TypeError
  | Some _, Some e, _ => Raise e
  | Some _, None, Some e => Raise e
  | Some final, None, None => Ok (final, variables)
  end.

(** * Facts about the string model *)

Module PyFacts.
Import Py.

Lemma str_app_empty_r (s : string) : s +:+ EmptyString = s.
Proof. induction s as [|c s IH]; simpl; [done | by rewrite IH]. Qed.

Lemma str_app_assoc (a b c : string) : (a +:+ b) +:+ c = a +:+ b +:+ c.
Proof. induction a as [|x a IH]; simpl; [done | by rewrite IH]. Qed.

Lemma str_app_length (a b : string) :
  String.length (a +:+ b) = (String.length a + String.length b)%nat.
Proof. induction a as [|x a IH]; simpl; [done | by rewrite IH]. Qed.

Lemma str_app_inv_tail (a b t : string) : a +:+ t = b +:+ t → a = b.
Proof.
  revert b. induction a as [|x a IH]; intros [|y b] H; simpl in *.
  - done.
  - apply (f_equal String.length) in H. simpl in H. rewrite str_app_length in H. lia.
  - apply (f_equal String.length) in H. simpl in H. rewrite str_app_length in H. lia.
  - injection H as -> H. f_equal. by apply IH.
Qed.

Lemma prefix_empty (t : string) : String.prefix EmptyString t = true.
Proof. by destruct t. Qed.

(** A piece without the separator is returned whole. *)
Lemma split_go_none (sep cur t : string) :
  contains sep t = false → split_go sep 0 cur t = [cur +:+ t].
Proof.
  revert cur. induction t as [|c t IH]; intros cur H; cbn [contains split_go] in *.
  - by rewrite str_app_empty_r.
  - apply orb_false_iff in H as [Hp Hc].
    rewrite Hp, IH by done. by rewrite str_app_assoc.
Qed.

Lemma prefix_cons (a b : ascii) (s t : string) :
  String.prefix (String a s) (String b t) = if ascii_dec a b then String.prefix s t else false.
Proof. done. Qed.

Lemma split_go_cons (sep cur s : string) (c : ascii) :
  split_go sep 0 cur (String c s) =
  if String.prefix sep (String c s)
  then cur :: split_go sep (String.length sep - 1) EmptyString s
  else split_go sep 0 (cur +:+ String c EmptyString) s.
Proof. done. Qed.

Lemma str_app_cons (c : ascii) (a b : string) : String c a +:+ b = String c (a +:+ b).
Proof. done. Qed.

(** The first ["."] ends the first piece. *)
Lemma split_go_dot (a cur t : string) :
  contains "." a = false →
  split_go "." 0 cur (a +:+ String "." t) = (cur +:+ a) :: split_go "." 0 EmptyString t.
Proof.
  revert cur. induction a as [|c a IH]; intros cur H.
  - change (EmptyString +:+ String "." t) with (String "." t).
    rewrite split_go_cons, prefix_cons, prefix_empty, str_app_empty_r.
    by destruct (ascii_dec "." ".").
  - cbn [contains] in H. apply orb_false_iff in H as [Hp Hc].
    rewrite str_app_cons, split_go_cons, prefix_cons.
    rewrite prefix_cons, prefix_empty in Hp.
    destruct (ascii_dec "." c) as [|Hne]; [done|].
    rewrite IH by done. by rewrite str_app_assoc.
Qed.

Fixpoint ends_with_dash (s : string) : bool :=
  match s with
  | EmptyString => false
  | String c EmptyString => bool_decide (c = "-"%char)
  | String _ s' => ends_with_dash s'
  end.

(** The first ["--"] of [a--t] is the one written after [a], unless [a]
    brings a dash of its own next to it. *)
Lemma split_go_dashes (a cur t : string) :
  contains "--" a = false → ends_with_dash a = false →
  split_go "--" 0 cur (a +:+ "--" +:+ t) = (cur +:+ a) :: split_go "--" 0 EmptyString t.
Proof.
  revert cur. induction a as [|c a IH]; intros cur H He.
  - change (EmptyString +:+ "--" +:+ t) with (String "-" (String "-" t)).
    rewrite split_go_cons, !prefix_cons, prefix_empty, str_app_empty_r.
    destruct (ascii_dec "-" "-"); [|done]. by destruct t.
  - cbn [contains] in H. apply orb_false_iff in H as [Hp Hc].
    rewrite str_app_cons, split_go_cons.
    assert (Hpre : String.prefix "--" (String c (a +:+ "--" +:+ t)) = false).
    { rewrite prefix_cons. destruct (ascii_dec "-" c) as [<-|]; [|done].
      destruct a as [|c' a]; [done|].
      rewrite str_app_cons, prefix_cons. rewrite !prefix_cons, prefix_empty in Hp.
      by destruct (ascii_dec "-" c'). }
    rewrite Hpre, IH; [by rewrite str_app_assoc | done |].
    destruct a; [done | exact He].
Qed.

(** *** Decimal numerals *)

Fixpoint uint_val (acc : Z) (d : Decimal.uint) : Z :=
  match d with
  | Decimal.Nil => acc
  | Decimal.D0 d => uint_val (10 * acc + 0) d
  | Decimal.D1 d => uint_val (10 * acc + 1) d
  | Decimal.D2 d => uint_val (10 * acc + 2) d
  | Decimal.D3 d => uint_val (10 * acc + 3) d
  | Decimal.D4 d => uint_val (10 * acc + 4) d
  | Decimal.D5 d => uint_val (10 * acc + 5) d
  | Decimal.D6 d => uint_val (10 * acc + 6) d
  | Decimal.D7 d => uint_val (10 * acc + 7) d
  | Decimal.D8 d => uint_val (10 * acc + 8) d
  | Decimal.D9 d => uint_val (10 * acc + 9) d
  end.

Lemma int_body_digits (d : Decimal.uint) (acc : Z) :
  int_body acc false (NilEmpty.string_of_uint d) = Some (uint_val acc d).
Proof. revert acc. induction d; intros acc; simpl; auto. Qed.

Lemma uint_val_pos (d : Decimal.uint) (p : positive) :
  uint_val (Z.pos p) d = Z.pos (Pos.of_uint_acc d p).
Proof.
  revert p. induction d; intros p; cbn [uint_val Pos.of_uint_acc]; [done|..];
    match goal with
    | |- uint_val ?a _ = Z.pos (Pos.of_uint_acc _ ?q) =>
        replace a with (Z.pos q) by lia; apply IHd
    end.
Qed.

Lemma uint_val_0 (d : Decimal.uint) : uint_val 0 d = Z.of_N (Pos.of_uint d).
Proof.
  induction d; cbn [uint_val Pos.of_uint]; [done | exact IHd |..];
    match goal with
    | |- uint_val ?a _ = Z.of_N (N.pos (Pos.of_uint_acc _ ?q)) =>
        replace a with (Z.pos q) by lia; apply uint_val_pos
    end.
Qed.

Lemma int_unsigned_numeral (d : Decimal.uint) :
  int_unsigned (NilZero.string_of_uint d) = Some (Z.of_uint d).
Proof.
  unfold Z.of_uint. rewrite <- uint_val_0.
  destruct d; cbn [NilZero.string_of_uint NilEmpty.string_of_uint int_unsigned uint_val];
    [done|..]; apply int_body_digits.
Qed.

(** [int(str(z)) == z] *)
Lemma int_str (z : Z) : int (str z) = Ok z.
Proof.
  unfold int, str.
  assert (H : int_signed (lstrip (NilZero.string_of_int (Z.to_int z)))
              = Some (Z.of_int (Z.to_int z))).
  { destruct (Z.to_int z) as [d|d]; cbn [NilZero.string_of_int Z.of_int].
    - pose proof (int_unsigned_numeral d) as H.
      destruct d; cbn [NilZero.string_of_uint NilEmpty.string_of_uint] in H |- *; exact H.
    - cbn [lstrip is_space]. simpl. by rewrite int_unsigned_numeral. }
  rewrite H. by rewrite DecimalZ.of_to.
Qed.

Lemma numeral_no_dot (d : Decimal.uint) :
  contains "." (NilEmpty.string_of_uint d) = false.
Proof. induction d; simpl; auto. Qed.

Lemma numeral_no_dashes (d : Decimal.uint) :
  contains "--" (NilEmpty.string_of_uint d) = false.
Proof. induction d; simpl; auto. Qed.

Lemma str_no_dot (z : Z) : contains "." (str z) = false.
Proof.
  unfold str. destruct (Z.to_int z) as [d|d]; cbn [NilZero.string_of_int].
  - destruct d; try apply numeral_no_dot. done.
  - pose proof (numeral_no_dot d). destruct d; simpl in *; auto.
Qed.

Lemma numeral_no_slash (d : Decimal.uint) :
  contains "/" (NilEmpty.string_of_uint d) = false.
Proof. induction d; simpl; auto. Qed.

Lemma str_no_slash (z : Z) : contains "/" (str z) = false.
Proof.
  unfold str. destruct (Z.to_int z) as [d|d]; cbn [NilZero.string_of_int].
  - destruct d; try apply numeral_no_slash. done.
  - pose proof (numeral_no_slash d). destruct d; simpl in *; auto.
Qed.

Lemma str_no_dashes (z : Z) : contains "--" (str z) = false.
Proof.
  unfold str. destruct (Z.to_int z) as [d|d]; cbn [NilZero.string_of_int].
  - destruct d; try apply numeral_no_dashes. done.
  - pose proof (numeral_no_dashes d). destruct d; simpl in *; auto.
Qed.

(** A separator of one character occurs in [a ++ b] only inside [a] or
    inside [b]. *)
Lemma contains_char_app (x : ascii) (a b : string) :
  contains (String x EmptyString) a = false →
  contains (String x EmptyString) b = false →
  contains (String x EmptyString) (a +:+ b) = false.
Proof.
  intros Ha Hb. induction a as [|c a IH]; [done|].
  rewrite str_app_cons. cbn [contains] in Ha |- *. apply orb_false_iff in Ha as [Hp Hc].
  rewrite IH by done. rewrite prefix_cons, prefix_empty in Hp |- *.
  by rewrite Hp.
Qed.

End PyFacts.

(** * The completion scan *)

(** The file names the scan accepts: one ["--"] before the first ["."], and
    a base-10 literal after it. *)
Definition is_cache_name (filename : string) : bool :=
  match parse_cache_name filename with
  | Ok _ => true
  | Raise _ => false
  end.

Lemma int_raises (s : string) (e : exn) : Py.int s = Raise e → e = ValueError.
Proof. unfold Py.int. destruct (Py.int_signed _); congruence. Qed.

Lemma parse_cache_name_raises (filename : string) (e : exn) :
  parse_cache_name filename = Raise e → e = ValueError.
Proof.
  unfold parse_cache_name.
  destruct (Py.split "--" _) as [|var [|yr [|]]]; try congruence.
  destruct (Py.int yr) eqn:Hy; simpl; [congruence|].
  apply int_raises in Hy. congruence.
Qed.

Lemma is_cache_name_false (filename : string) :
  is_cache_name filename = false → parse_cache_name filename = Raise ValueError.
Proof.
  unfold is_cache_name. destruct (parse_cache_name filename) eqn:H; [done|].
  apply parse_cache_name_raises in H. by subst.
Qed.

Lemma is_cache_name_true (filename : string) :
  is_cache_name filename = true → ∃ var yr, parse_cache_name filename = Ok (var, yr).
Proof.
  unfold is_cache_name. destruct (parse_cache_name filename) as [[var yr]|]; [eauto | done].
Qed.

(** The scan stops at the first name it cannot parse, whatever it has
    collected before. *)
Lemma completed_loop_malformed (year : Z) (entries : directory) (acc : gset string) :
  Exists (λ e, is_cache_name e.1 = false) entries →
  completed_loop year entries acc = Raise ValueError.
Proof.
  intros H. revert acc. induction H as [[n f] l H|[n f] l H IH]; intros acc; simpl in *.
  - by rewrite (is_cache_name_false _ H).
  - destruct (parse_cache_name n) as [[var yr]|e] eqn:Hp; simpl.
    + destruct (decide (yr ≠ year)); apply IH.
    + apply parse_cache_name_raises in Hp. by subst.
Qed.

(** On names that all parse, the scan returns, and adds to [acc] the
    variables whose year is the target year. *)
Lemma completed_loop_spec (year : Z) (entries : directory) (acc : gset string) :
  Forall (λ e, is_cache_name e.1 = true) entries →
  ∃ cs, completed_loop year entries acc = Ok cs ∧
       ∀ v, v ∈ cs ↔ v ∈ acc ∨ ∃ e, e ∈ entries ∧ parse_cache_name e.1 = Ok (v, year).
Proof.
  intros H. revert acc. induction H as [|[n f] l H _ IH]; intros acc; simpl.
  - exists acc. split; [done|]. intros v. split; [auto|].
    intros [?|(e & He & _)]; [done|]. by apply elem_of_nil in He.
  - apply is_cache_name_true in H as (var & yr & Hp). simpl in Hp. rewrite Hp. simpl.
    destruct (decide (yr ≠ year)) as [Hne|Heq].
    + destruct (IH acc) as (cs & -> & HS). exists cs. split; [done|].
      intros v. rewrite HS. split.
      * intros [?|(e & He & Hv)]; [by left|]. right. exists e. split; [by right | done].
      * intros [?|(e & He & Hv)]; [by left|].
        apply elem_of_cons in He as [->|He]; [|right; eauto].
        simpl in Hv. congruence.
    + assert (yr = year) as -> by (destruct (decide (yr = year)); [done | contradiction]).
      destruct (IH (acc ∪ {[var]})) as (cs & -> & HS). exists cs. split; [done|].
      intros v. rewrite HS. split.
      * intros [Hv|(e & He & Hv)].
        -- apply elem_of_union in Hv as [?|Hv]; [by left|].
           apply elem_of_singleton in Hv as ->. right. exists (n, f). split; [by left | done].
        -- right. exists e. split; [by right | done].
      * intros [?|(e & He & Hv)]; [left; apply elem_of_union; by left|].
        apply elem_of_cons in He as [->|He]; [|right; eauto].
        simpl in Hv. rewrite Hp in Hv. injection Hv as ->.
        left. apply elem_of_union. right. by apply elem_of_singleton.
Qed.

Lemma get_completed_vars_spec (year : Z) (entries : directory) :
  Forall (λ e, is_cache_name e.1 = true) entries →
  ∃ cs, get_completed_vars (Some entries) year = Ok cs ∧
       ∀ v, v ∈ cs ↔ ∃ e, e ∈ entries ∧ parse_cache_name e.1 = Ok (v, year).
Proof.
  intros H. destruct (completed_loop_spec year entries ∅ H) as (cs & HS & Hin).
  exists cs. split; [exact HS|]. intros v. rewrite Hin. split; [|by right].
  intros [Hv|?]; [by apply elem_of_empty in Hv | done].
Qed.

(** When the scan returns, every name in the directory parsed. *)
Lemma get_completed_vars_ok (year : Z) (entries : directory) (cs : gset string) :
  get_completed_vars (Some entries) year = Ok cs →
  Forall (λ e, is_cache_name e.1 = true) entries.
Proof.
  intros H. apply Forall_forall. intros e He.
  destruct (is_cache_name e.1) eqn:Hn; [done|].
  unfold get_completed_vars in H. simpl in H.
  rewrite completed_loop_malformed in H; [done|].
  apply Exists_exists. eauto.
Qed.

(** ** C1 *)

(** C1, as the claim states it, fails: with one name outside the convention
    in the directory the scan raises [ValueError], although the two other
    files follow the convention. *)
Lemma scan_aborts_on_malformed_name :
  get_completed_vars
    (Some [("B--2020.feather", Unreadable); ("notes.txt", Unreadable);
           ("A--2020.feather", Unreadable)]) 2020
  = Raise ValueError.
Proof. reflexivity. Qed.

(** C1 (amended): a file name that does not follow the
    [<variable_id>--<year>] convention is not skipped.  Whenever the cache
    directory holds such a name, the scan raises [ValueError] and returns
    no set at all. *)
Theorem malformed_name_aborts_scan (entries : directory) (year : Z) :
  Exists (λ e, is_cache_name e.1 = false) entries →
  get_completed_vars (Some entries) year = Raise ValueError.
Proof. intros H. unfold get_completed_vars. simpl. by apply completed_loop_malformed. Qed.

Lemma malformed_name_aborts_scan_witness :
  get_completed_vars (Some [("A--2021.feather", Unreadable); ("README", Unreadable)]) 2021
  = Raise ValueError.
Proof.
  apply (malformed_name_aborts_scan
           [("A--2021.feather", Unreadable); ("README", Unreadable)] 2021).
  apply Exists_cons_tl, Exists_cons_hd. reflexivity.
Defined.

(** ** C4 *)

(** C4: when every file name follows the convention the scan returns, and
    its result holds exactly the variables of the files whose parsed year is
    the target year.  For the three files of the example the result is
    [{A, B}] for 2020 and [{A}] for 2021. *)
Theorem completed_is_target_year_only :
  (∀ (entries : directory) (year : Z),
     Forall (λ e, is_cache_name e.1 = true) entries →
     ∃ cs, get_completed_vars (Some entries) year = Ok cs ∧
          ∀ v, v ∈ cs ↔ ∃ e, e ∈ entries ∧ parse_cache_name e.1 = Ok (v, year)) ∧
  (∀ f1 f2 f3 : file,
     let dir := Some [("A--2021.ext", f1); ("B--2020.ext", f2); ("A--2020.ext", f3)] in
     get_completed_vars dir 2020 = Ok {["A"; "B"]} ∧
     get_completed_vars dir 2021 = Ok {["A"]}).
Proof.
  split; [exact (λ entries year, get_completed_vars_spec year entries)|].
  intros f1 f2 f3. split; vm_compute; reflexivity.
Qed.

Lemma completed_is_target_year_only_witness :
  ∃ cs, get_completed_vars (Some [("A--2021.ext", Unreadable); ("B--2020.ext", Unreadable)]) 2020
       = Ok cs ∧ ("B" ∈ cs ∧ "A" ∉ cs).
Proof.
  destruct (proj1 completed_is_target_year_only
              [("A--2021.ext", Unreadable); ("B--2020.ext", Unreadable)] 2020)
    as (cs & HS & Hin).
  - repeat constructor.
  - exists cs. split; [exact HS|]. split.
    + apply Hin. exists ("B--2020.ext", Unreadable). split; [|reflexivity].
      apply elem_of_cons. right. apply elem_of_cons. by left.
    + intros HA. apply Hin in HA as (e & He & Hp).
      apply elem_of_cons in He as [->|He]; [discriminate Hp|].
      apply elem_of_cons in He as [->|He]; [discriminate Hp|].
      by apply elem_of_nil in He.
Defined.

(** * The two merges *)

Definition is_readable (f : file) : bool :=
  match f with
  | Feather _ => true
  | Unreadable => false
  end.

Lemma filter_all {A} (P : A → Prop) `{!∀ x, Decision (P x)} (l : list A) :
  Forall P l → filter P l = l.
Proof.
  induction 1 as [|x l Hx _ IH]; [done|]. by rewrite filter_cons_True, IH.
Qed.

Lemma raises_bind {A B} (m : outcome A) (k : A → outcome B) :
  raises m → raises (obind m k).
Proof. intros [e ->]. by exists e. Qed.

(** Both loops stop at the first file they cannot load. *)
Lemma long_loop_unreadable (entries : directory) (total : list DataFrame)
    (variables : list string) :
  Exists (λ e, is_readable e.2 = false) entries →
  raises (long_loop entries total variables).
Proof.
  intros H. revert total variables.
  induction H as [[n f] l H|[n f] l H IH]; intros total variables; simpl in *.
  - destruct f; [done|]. by exists ArrowInvalid.
  - destruct (read_feather f) as [d|e]; simpl; [|by exists e].
    destruct (long_table (variable_of n) d) as [d'|e]; simpl; [apply IH | by exists e].
Qed.

Lemma wide_loop_unreadable (entries : directory) (total : option DataFrame)
    (variables : list string) :
  Exists (λ e, is_readable e.2 = false) entries →
  raises (wide_loop entries total variables).
Proof.
  intros H. revert total variables.
  induction H as [[n f] l H|[n f] l H IH]; intros total variables; simpl in *.
  - destruct f; [done|]. by exists ArrowInvalid.
  - destruct (read_feather f) as [d|e]; simpl; [|by exists e].
    destruct (wide_table (variable_of n) d) as [d'|e]; simpl; [|by exists e].
    destruct (match total with
              | Some t => Pd.merge_left t d' "unique_id"
              | None => Pd.select d' ["unique_id"; variable_of n]
              end) as [t'|e]; simpl; [apply IH | by exists e].
Qed.

(** When a loop runs to its end it has loaded every file, and has listed the
    variable of each, in the order of the directory. *)
Lemma long_loop_variables (entries : directory) (total total' : list DataFrame)
    (variables variables' : list string) :
  long_loop entries total variables = Ok (total', variables') →
  variables' = variables ++ map (λ e, variable_of e.1) entries ∧
  Forall (λ e, is_readable e.2 = true) entries.
Proof.
  revert total variables. induction entries as [|[n f] l IH]; intros total variables H;
    simpl in *.
  - injection H as <- <-. by rewrite app_nil_r.
  - destruct f as [d|]; simpl in H; [|done].
    destruct (long_table (variable_of n) d) as [d'|e]; simpl in H; [|done].
    apply IH in H as [-> Hl]. split; [by rewrite <- app_assoc | by constructor].
Qed.

Lemma wide_loop_variables (entries : directory) (total total' : option DataFrame)
    (variables variables' : list string) :
  wide_loop entries total variables = Ok (total', variables') →
  variables' = variables ++ map (λ e, variable_of e.1) entries ∧
  Forall (λ e, is_readable e.2 = true) entries.
Proof.
  revert total variables. induction entries as [|[n f] l IH]; intros total variables H;
    simpl in *.
  - injection H as <- <-. by rewrite app_nil_r.
  - destruct f as [d|]; simpl in H; [|done].
    destruct (wide_table (variable_of n) d) as [d'|e]; simpl in H; [|done].
    destruct (match total with
              | Some t => Pd.merge_left t d' "unique_id"
              | None => Pd.select d' ["unique_id"; variable_of n]
              end) as [t'|e]; simpl in H; [|done].
    apply IH in H as [-> Hl]. split; [by rewrite <- app_assoc | by constructor].
Qed.

(** A record set as [get_acs_variable] builds it, for the examples: one row
    per sub-geography code, all in state ["1"]. *)
Definition record_set (codes : list string) (descr : string) (value : Z) : DataFrame :=
  mkFrame ["state"; GEOGRAPHY; "year"; "descr"; "value"]
          (map (λ k, [CStr "1"; CStr k; CInt YEAR; CStr descr; CInt value]) codes).

(** ** C10 *)

(** C10: on an empty cache directory the wide merge returns [None] with an
    empty list of variables, and the long merge raises ([pd.concat] of no
    frame is a [ValueError]). *)
Theorem merges_of_empty_directory :
  concatenate_variables_wide (Some []) = Ok (None, []) ∧
  concatenate_variables_long (Some []) = Raise ValueError.
Proof. split; reflexivity. Qed.

(** ** C2 *)

(** C2, as the claim states it, fails: with one readable and one unreadable
    file in the directory, neither merge returns a data set. *)
Lemma merges_abort_on_unreadable_file :
  let dir := Some [("V1--2021.feather", Feather (record_set ["01"; "02"] "total" 5));
                   ("V2--2021.feather", Unreadable)] in
  concatenate_variables_long dir = Raise ArrowInvalid ∧
  concatenate_variables_wide dir = Raise ArrowInvalid.
Proof. split; reflexivity. Qed.

(** C2 (amended): an unreadable file is not skipped.  Whenever the cache
    directory holds a file that [read_feather] cannot load, the long merge
    and the wide merge both raise and return no data set. *)
Theorem unreadable_file_aborts_merges (entries : directory) :
  Exists (λ e, is_readable e.2 = false) entries →
  raises (concatenate_variables_long (Some entries)) ∧
  raises (concatenate_variables_wide (Some entries)).
Proof.
  intros H. split.
  - unfold concatenate_variables_long. simpl. apply raises_bind.
    by apply long_loop_unreadable.
  - unfold concatenate_variables_wide. simpl. by apply wide_loop_unreadable.
Qed.

Lemma unreadable_file_aborts_merges_witness :
  raises (concatenate_variables_long
            (Some [("V1--2021.feather", Feather (record_set ["01"] "total" 5));
                   ("V2--2021.feather", Unreadable)])) ∧
  raises (concatenate_variables_wide
            (Some [("V1--2021.feather", Feather (record_set ["01"] "total" 5));
                   ("V2--2021.feather", Unreadable)])).
Proof.
  apply (unreadable_file_aborts_merges
           [("V1--2021.feather", Feather (record_set ["01"] "total" 5));
            ("V2--2021.feather", Unreadable)]).
  apply Exists_cons_tl, Exists_cons_hd. reflexivity.
Defined.

(** * The cache writer *)

Import PyFacts.

(** A variable identifier the file naming can carry: no ["--"], no ["."],
    and no dash at its end, which would run into the delimiter. *)
Definition delimiter_free (var : string) : bool :=
  negb (Py.contains "--" var) && negb (Py.contains "." var) && negb (ends_with_dash var).

Lemma delimiter_free_spec (var : string) :
  delimiter_free var = true ↔
  Py.contains "--" var = false ∧ Py.contains "." var = false ∧ ends_with_dash var = false.
Proof.
  unfold delimiter_free. rewrite !andb_true_iff, !negb_true_iff. tauto.
Qed.

(** The scan reads back the name the cache writer gives. *)
Lemma parse_cache_name_cache_name (var : string) (year : Z) :
  delimiter_free var = true →
  parse_cache_name (cache_name var year) = Ok (var, year).
Proof.
  intros (Hdd & Hdot & Hend)%delimiter_free_spec.
  unfold parse_cache_name, cache_name, Py.split.
  replace (var +:+ "--" +:+ Py.str year +:+ ".feather")
    with ((var +:+ "--" +:+ Py.str year) +:+ String "." "feather")
    by (by rewrite !str_app_assoc).
  rewrite split_go_dot.
  - cbn [hd]. change (EmptyString +:+ ?x) with x.
    rewrite split_go_dashes by done.
    rewrite split_go_none by apply str_no_dashes.
    change (EmptyString +:+ ?x) with x. by rewrite int_str.
  - apply contains_char_app; [done|].
    apply (contains_char_app "." "--"); [done | apply str_no_dot].
Qed.

Lemma cache_name_inj (var var' : string) (year : Z) :
  cache_name var year = cache_name var' year → var = var'.
Proof. apply str_app_inv_tail. Qed.

Lemma cache_name_no_slash (var : string) (year : Z) :
  Py.contains "/" var = false → Py.contains "/" (cache_name var year) = false.
Proof.
  intros H. unfold cache_name. apply contains_char_app; [done|].
  apply (contains_char_app "/" "--"); [done|].
  apply contains_char_app; [apply str_no_slash | done].
Qed.

(** *** The directory after a write *)

Lemma put_file_elem (name : string) (d : DataFrame) (entries : directory) (e : string * file) :
  e ∈ put_file name d entries → e = (name, Feather d) ∨ e ∈ entries.
Proof.
  induction entries as [|[n f] l IH]; simpl.
  - intros ->%list_elem_of_singleton. by left.
  - destruct (decide (n = name)) as [->|Hne].
    + intros [->|He]%elem_of_cons; [by left | right; by right].
    + intros [->|He]%elem_of_cons; [right; by left|].
      destruct (IH He) as [->|?]; [by left | right; by right].
Qed.

Lemma put_file_in (name : string) (d : DataFrame) (entries : directory) :
  (name, Feather d) ∈ put_file name d entries.
Proof.
  induction entries as [|[n f] l IH]; simpl.
  - by left.
  - destruct (decide (n = name)) as [->|Hne]; [by left | by right].
Qed.

Lemma file_at_put_ne (name n : string) (d : DataFrame) (entries : directory) :
  n ≠ name → file_at n (put_file name d entries) = file_at n entries.
Proof.
  intros Hne. induction entries as [|[m f] l IH]; simpl.
  - by destruct (decide (name = n)) as [->|].
  - destruct (decide (m = name)) as [->|Hm]; simpl.
    + by destruct (decide (name = n)) as [->|].
    + by rewrite IH.
Qed.

Lemma file_at_elem (name : string) (f : file) (entries : directory) :
  file_at name entries = Some f → (name, f) ∈ entries.
Proof.
  induction entries as [|[m g] l IH]; simpl; [done|].
  destruct (decide (m = name)) as [->|Hm].
  - intros [= ->]. by left.
  - intros H. right. by apply IH.
Qed.

Lemma truncate_file_elem (name : string) (entries : directory) (e : string * file) :
  e ∈ truncate_file name entries → e = (name, Unreadable) ∨ e ∈ entries.
Proof.
  induction entries as [|[n f] l IH]; simpl.
  - intros ->%list_elem_of_singleton. by left.
  - destruct (decide (n = name)) as [->|Hne].
    + intros [->|He]%elem_of_cons; [by left | right; by right].
    + intros [->|He]%elem_of_cons; [right; by left|].
      destruct (IH He) as [->|?]; [by left | right; by right].
Qed.

Lemma file_at_truncate_ne (name n : string) (entries : directory) :
  n ≠ name → file_at n (truncate_file name entries) = file_at n entries.
Proof.
  intros Hne. induction entries as [|[m f] l IH]; simpl.
  - by destruct (decide (name = n)) as [->|].
  - destruct (decide (m = name)) as [->|Hm]; simpl.
    + by destruct (decide (name = n)) as [->|].
    + by rewrite IH.
Qed.

Lemma file_at_truncate_eq (name : string) (entries : directory) :
  file_at name (truncate_file name entries) = Some Unreadable.
Proof.
  induction entries as [|[n f] l IH]; cbn [truncate_file file_at].
  - by rewrite decide_True.
  - destruct (decide (n = name)) as [->|Hne]; cbn [file_at].
    + by rewrite decide_True.
    + by rewrite decide_False.
Qed.

Lemma file_at_put_eq (name : string) (d : DataFrame) (entries : directory) :
  file_at name (put_file name d entries) = Some (Feather d).
Proof.
  induction entries as [|[n f] l IH]; cbn [put_file file_at].
  - by rewrite decide_True.
  - destruct (decide (n = name)) as [->|Hne]; cbn [file_at].
    + by rewrite decide_True.
    + by rewrite decide_False.
Qed.

(** A write touches no name that was not in the directory, but its own. *)
Lemma put_file_names (name : string) (d : DataFrame) (entries : directory) (n : string) :
  n ∈ map fst (put_file name d entries) → n = name ∨ n ∈ map fst entries.
Proof.
  intros (e & -> & [->|He]%put_file_elem)%list_elem_of_fmap; [by left|].
  right. by apply list_elem_of_fmap_2.
Qed.

Lemma truncate_file_names (name : string) (entries : directory) (n : string) :
  n ∈ map fst (truncate_file name entries) → n = name ∨ n ∈ map fst entries.
Proof.
  intros (e & -> & [->|He]%truncate_file_elem)%list_elem_of_fmap; [by left|].
  right. by apply list_elem_of_fmap_2.
Qed.

(** A name without a path separator is an entry of the cache directory. *)
Lemma entry_of_plain (lands : string → option string) (name : string) :
  Py.contains "/" name = false → entry_of lands name = Some name.
Proof. intros H. unfold entry_of. by rewrite H. Qed.

(** A disk that takes every write, and paths that leave the cache
    directory as soon as they hold a separator, for the examples. *)
Definition no_fault (name : string) (d : DataFrame) : option fault := None.
Definition outside (name : string) : option string := None.

(** ** C9 *)

(** C9, as the claim states it, fails: ["A-"] holds neither ["--"] nor
    ["."], its file is written as ["A---2020.feather"], and the scan of that
    directory for 2020 reads the name as variable ["A"] of year [-2020]: the
    result does not hold ["A-"]. *)
Lemma trailing_dash_is_not_read_back :
  Py.contains "--" "A-" = false ∧ Py.contains "." "A-" = false ∧
  ∃ entries cs,
    write_feather no_fault outside (record_set ["01"] "total" 5) (cache_name "A-" 2020) []
      = (entries, None) ∧
    get_completed_vars (Some entries) 2020 = Ok cs ∧
    "A-" ∉ cs.
Proof.
  split; [reflexivity|]. split; [reflexivity|].
  exists [("A---2020.feather", Feather (record_set ["01"] "total" 5))], ∅.
  split; [reflexivity|]. split; [reflexivity|]. apply not_elem_of_empty.
Qed.

(** C9 (amended): for a variable identifier that holds neither ["--"] nor
    ["."] nor a path separator and does not end in a dash, and for every
    year: once the cache writer has written the variable's file into a
    directory whose other file names follow the convention, the scan of that
    directory for the same year returns a set that holds the variable. *)
Theorem written_variable_is_read_back (write_fault : string → DataFrame → option fault)
    (lands : string → option string)
    (var : string) (year : Z) (d : DataFrame) (entries : directory) :
  delimiter_free var = true →
  Py.contains "/" var = false →
  write_fault (cache_name var year) d = None →
  Forall (λ e, e.1 = cache_name var year ∨ is_cache_name e.1 = true) entries →
  ∃ entries' cs,
    write_feather write_fault lands d (cache_name var year) entries = (entries', None) ∧
    get_completed_vars (Some entries') year = Ok cs ∧
    var ∈ cs.
Proof.
  intros Hfree Hslash Hw Hnames.
  pose proof (parse_cache_name_cache_name var year Hfree) as Hparse.
  exists (put_file (cache_name var year) d entries).
  destruct (get_completed_vars_spec year (put_file (cache_name var year) d entries))
    as (cs & Hcs & Hin).
  - apply Forall_forall. intros e [->|He]%put_file_elem.
    + unfold is_cache_name. simpl. by rewrite Hparse.
    + rewrite Forall_forall in Hnames. destruct (Hnames e He) as [Heq|?]; [|done].
      unfold is_cache_name. by rewrite Heq, Hparse.
  - exists cs. split; [|split; [exact Hcs|]].
    + unfold write_feather. rewrite Hw, entry_of_plain; [done|].
      by apply cache_name_no_slash.
    + apply Hin. exists (cache_name var year, Feather d). split; [apply put_file_in | done].
Qed.

Lemma written_variable_is_read_back_witness :
  ∃ entries' cs,
    write_feather no_fault outside (record_set ["01"] "total" 5)
      (cache_name "B01001_001E" 2021)
      [("B01001_002E--2021.feather", Unreadable)] = (entries', None) ∧
    get_completed_vars (Some entries') 2021 = Ok cs ∧
    "B01001_001E" ∈ cs.
Proof.
  apply (written_variable_is_read_back no_fault outside "B01001_001E" 2021
           (record_set ["01"] "total" 5) [("B01001_002E--2021.feather", Unreadable)]).
  - reflexivity.
  - reflexivity.
  - reflexivity.
  - constructor; [right; reflexivity | constructor].
Defined.

(** * Record sets in the cache *)

(** The columns of a file the cache writer wrote (the keys of [out] in
    [get_acs_variable]). *)
Definition record_columns : list string := ["state"; GEOGRAPHY; "year"; "descr"; "value"].

Definition is_record_set (d : DataFrame) : bool :=
  bool_decide (columns d = record_columns) && forallb (λ r, Nat.eqb (length r) 5) (rows d).

Definition is_cached (f : file) : bool :=
  match f with
  | Feather d => is_record_set d
  | Unreadable => false
  end.

Definition nrows (f : file) : nat :=
  match f with
  | Feather d => length (rows d)
  | Unreadable => 0
  end.

(** The key and the value of one row of a record set. *)
Definition row_uid (r : list cell) : cell :=
  match r with
  | st :: geo :: _ => CStr (Pd.cell_str st +:+ Pd.cell_str geo)
  | _ => Pd.NaN
  end.

Definition row_value (r : list cell) : cell :=
  match r with
  | [_; _; _; _; value] => value
  | _ => Pd.NaN
  end.

(** A value as it stands in a result of pandas: the cell itself, or the
    [float64] it was cast to with its column. *)
Definition same_value (a b : cell) : Prop := b = a ∨ b = Pd.to_float64 a.

Lemma same_value_refl (a : cell) : same_value a a.
Proof. by left. Qed.

Lemma same_value_astype (t : Pd.dtype) (a : cell) : same_value a (Pd.astype t a).
Proof. destruct t; [by left | by right | by left]. Qed.

Lemma same_value_str (s : string) (b : cell) : same_value (CStr s) b → b = CStr s.
Proof. by intros [->| ->]. Qed.

Lemma is_record_set_inv (d : DataFrame) :
  is_record_set d = true →
  ∃ rws, d = mkFrame record_columns rws ∧ Forall (λ r, length r = 5%nat) rws.
Proof.
  destruct d as [cols rws]. unfold is_record_set. simpl.
  intros [Hc Hr]%andb_true_iff. apply bool_decide_eq_true in Hc as ->.
  exists rws. split; [done|]. apply Forall_forall. intros r Hr'.
  rewrite forallb_forall in Hr. apply Nat.eqb_eq, Hr. by apply list_elem_of_In.
Qed.

(** * get_acs_variable and the frame made of its result *)

Lemma dict_get_raises (k : string) (row : dict) (e : exn) :
  dict_get k row = Raise e → e = KeyError.
Proof.
  induction row as [|[k' v] row IH]; cbn [dict_get]; [congruence|].
  destruct (decide (k' = k)); [done | exact IH].
Qed.

Lemma dict_get_missing (k : string) (row : dict) :
  k ∉ map fst row → dict_get k row = Raise KeyError.
Proof.
  induction row as [|[k' v] row IH]; cbn [dict_get map fst]; [done|].
  intros [Hne Hnin]%not_elem_of_cons. rewrite decide_False by done. by apply IH.
Qed.

Lemma acs_columns_raises (var_id : string) (req : list dict) (e : exn) :
  acs_columns var_id req = Raise e → e = KeyError.
Proof.
  induction req as [|row req IH]; cbn [acs_columns]; [done|].
  destruct (dict_get "state" row) eqn:H1; cbn [obind];
    [|intros [= <-]; by apply dict_get_raises in H1].
  destruct (dict_get GEOGRAPHY row) eqn:H2; cbn [obind];
    [|intros [= <-]; by apply dict_get_raises in H2].
  destruct (dict_get var_id row) eqn:H3; cbn [obind];
    [|intros [= <-]; by apply dict_get_raises in H3].
  destruct (acs_columns var_id req) as [[[ss gs] vs]|e']; cbn [obind]; [done|].
  intros [= <-]. by apply IH.
Qed.

(** The three lists hold, row by row, what the reply holds under the three
    keys. *)
Lemma acs_columns_spec (var_id : string) (req : list dict) (ss gs vs : list cell) :
  acs_columns var_id req = Ok (ss, gs, vs) →
  length ss = length req ∧ length gs = length req ∧ length vs = length req ∧
  ∀ i row, req !! i = Some row →
    dict_get "state" row = Ok (nth i ss Pd.NaN) ∧
    dict_get GEOGRAPHY row = Ok (nth i gs Pd.NaN) ∧
    dict_get var_id row = Ok (nth i vs Pd.NaN).
Proof.
  revert ss gs vs. induction req as [|row req IH]; intros ss gs vs; cbn [acs_columns].
  - intros [= <- <- <-]. repeat split; done.
  - destruct (dict_get "state" row) as [s|] eqn:H1; cbn [obind]; [|done].
    destruct (dict_get GEOGRAPHY row) as [g|] eqn:H2; cbn [obind]; [|done].
    destruct (dict_get var_id row) as [v|] eqn:H3; cbn [obind]; [|done].
    destruct (acs_columns var_id req) as [[[ss' gs'] vs']|]; cbn [obind fst snd]; [|done].
    intros [= <- <- <-]. destruct (IH ss' gs' vs' eq_refl) as (Hs & Hg & Hv & Hrows).
    cbn [length]. repeat split; try congruence.
    all: destruct i as [|i]; cbn [lookup list_lookup nth] in *;
      [by injection H as <- | by apply Hrows].
Qed.

Lemma nth_replicate {A} (n i : nat) (x d : A) : (i < n)%nat → nth i (replicate n x) d = x.
Proof.
  revert i. induction n as [|n IH]; intros [|i] Hi; cbn [replicate nth]; try lia; [done|].
  apply IH. lia.
Qed.

(** ** The typing of the lists *)

(** An integer [float] can take; any other cell. *)
Definition fits (c : cell) : bool :=
  match c with
  | CInt z => Py.float_fits z
  | _ => true
  end.

Lemma maybe_convert_objects_fits (cells : list cell) (s : Pd.seen) :
  Forall (λ c, fits c = true) cells → ∃ v, Pd.maybe_convert_objects cells s = Ok v.
Proof.
  intros H. revert s. induction H as [|c cells Hc _ IH]; intros s.
  - cbn [Pd.maybe_convert_objects]. eauto.
  - destruct c as [t|z|r|]; cbn [Pd.maybe_convert_objects].
    + eauto.
    + cbn [fits] in Hc. rewrite Hc. cbn [negb].
      destruct (Pd.null_ s); [apply IH|]. destruct (_ || _ || _); [eauto | apply IH].
    + destruct (bool_decide _); apply IH.
    + apply IH.
Qed.

(** A list is made a column of floats only when it holds a cell that is no
    integer, and a cell that is not [None]. *)
Lemma maybe_convert_objects_floats (cells : list cell) (s : Pd.seen) :
  Pd.maybe_convert_objects cells s = Ok Pd.Floats →
  (Pd.null_ s || Pd.nan_ s || Pd.float_ s = true ∨ Exists (λ c, Pd.is_int c = false) cells) ∧
  (Pd.float_ s || Pd.int_ s || Pd.nan_ s = true ∨ Exists (λ c, c ≠ CNone) cells).
Proof.
  revert s. induction cells as [|c cells IH]; intros s; cbn [Pd.maybe_convert_objects].
  - destruct s as [[] [] [] [] u g]; cbn; intros [=]; split; by left.
  - destruct c as [t|z|r|].
    + done.
    + destruct (negb _); [done|]. destruct (Pd.null_ s) eqn:Hnull.
      * intros _. split; [by left | right; by left].
      * destruct (_ || _ || _); [done|]. intros [H1 _]%IH. cbn in H1. split.
        -- destruct H1 as [H1|H1]; [by left | right; by right].
        -- right. by left.
    + intros _. split; right; by left.
    + intros [_ H2]%IH. cbn in H2. split; [right; by left|].
      destruct H2 as [H2|H2]; [by left | right; by right].
Qed.

Lemma sanitize_array_same (cells cells' : list cell) :
  Pd.sanitize_array cells = Ok cells' →
  cells' = cells ∨ cells' = map Pd.to_float64 cells.
Proof.
  unfold Pd.sanitize_array.
  destruct (Pd.maybe_convert_objects cells _) as [[]|]; cbn [obind]; intros [= <-]; auto.
Qed.

(** A list of integers is a column of these integers; a list of [None] stays
    one. *)
Lemma sanitize_array_ints (cells cells' : list cell) :
  Pd.sanitize_array cells = Ok cells' → Forall (λ c, Pd.is_int c = true) cells →
  cells' = cells.
Proof.
  unfold Pd.sanitize_array.
  destruct (Pd.maybe_convert_objects cells _) as [[]|] eqn:Hv; cbn [obind];
    intros [= <-] Hall; try done.
  apply maybe_convert_objects_floats in Hv as [[Hv|Hv] _]; [done|].
  apply Exists_exists in Hv as (c & Hc & Hint). rewrite Forall_forall in Hall.
  rewrite (Hall c Hc) in Hint. done.
Qed.

Lemma sanitize_array_nones (cells cells' : list cell) :
  Pd.sanitize_array cells = Ok cells' → Forall (λ c, c = CNone) cells → cells' = cells.
Proof.
  unfold Pd.sanitize_array.
  destruct (Pd.maybe_convert_objects cells _) as [[]|] eqn:Hv; cbn [obind];
    intros [= <-] Hall; try done.
  apply maybe_convert_objects_floats in Hv as [_ [Hv|Hv]]; [done|].
  apply Exists_exists in Hv as (c & Hc & Hne). rewrite Forall_forall in Hall.
  by destruct (Hne (Hall c Hc)).
Qed.

Lemma sanitize_array_replicate (n : nat) (c : cell) (cells' : list cell) :
  Pd.sanitize_array (replicate n c) = Ok cells' → cells' = replicate n c.
Proof.
  intros H. destruct c as [t|z|r|].
  - apply sanitize_array_same in H as [?| ->]; [done|]. by rewrite fmap_replicate.
  - apply (sanitize_array_ints _ _ H). by apply Forall_replicate.
  - apply sanitize_array_same in H as [?| ->]; [done|]. by rewrite fmap_replicate.
  - apply (sanitize_array_nones _ _ H). by apply Forall_replicate.
Qed.

Lemma sanitize_array_fits (cells : list cell) :
  Forall (λ c, fits c = true) cells → ∃ cells', Pd.sanitize_array cells = Ok cells'.
Proof.
  intros H. unfold Pd.sanitize_array.
  destruct (maybe_convert_objects_fits cells (Pd.mkSeen false false false false false false) H)
    as [v ->].
  cbn [obind]. eauto.
Qed.

Lemma sanitize_array_length (cells cells' : list cell) :
  Pd.sanitize_array cells = Ok cells' → length cells' = length cells.
Proof. intros [->| ->]%sanitize_array_same; [done | by rewrite length_map]. Qed.

Lemma sanitize_array_nth (cells cells' : list cell) (i : nat) :
  Pd.sanitize_array cells = Ok cells' → (i < length cells)%nat →
  same_value (nth i cells Pd.NaN) (nth i cells' Pd.NaN).
Proof.
  intros [->| ->]%sanitize_array_same Hi; [by left|]. right.
  change Pd.NaN with (Pd.to_float64 Pd.NaN) at 1. apply map_nth.
Qed.

(** The frame made of the five lists of [get_acs_variable]. *)
Lemma from_columns_record (ss gs ys ds vs : list cell) (d : DataFrame) :
  Pd.from_columns [("state", ss); (GEOGRAPHY, gs); ("year", ys); ("descr", ds); ("value", vs)]
  = Ok d →
  ∃ ss' gs' ys' ds' vs',
    Pd.sanitize_array ss = Ok ss' ∧ Pd.sanitize_array gs = Ok gs' ∧
    Pd.sanitize_array ys = Ok ys' ∧ Pd.sanitize_array ds = Ok ds' ∧
    Pd.sanitize_array vs = Ok vs' ∧
    d = mkFrame record_columns
          (map (λ i, [nth i ss' Pd.NaN; nth i gs' Pd.NaN; nth i ys' Pd.NaN;
                      nth i ds' Pd.NaN; nth i vs' Pd.NaN]) (seq 0 (length ss))).
Proof.
  unfold Pd.from_columns. destruct (forallb _ _); [|done].
  cbn [map snd fst Pd.homogenize hd].
  destruct (Pd.sanitize_array ss) as [ss'|]; cbn [obind]; [|done].
  destruct (Pd.sanitize_array gs) as [gs'|]; cbn [obind]; [|done].
  destruct (Pd.sanitize_array ys) as [ys'|]; cbn [obind]; [|done].
  destruct (Pd.sanitize_array ds) as [ds'|]; cbn [obind]; [|done].
  destruct (Pd.sanitize_array vs) as [vs'|]; cbn [obind]; [|done].
  intros [= <-]. by exists ss', gs', ys', ds', vs'.
Qed.

Lemma from_columns_fits (ss gs ys ds vs : list cell) :
  length gs = length ss → length ys = length ss → length ds = length ss →
  length vs = length ss →
  Forall (λ c, fits c = true) (ss ++ gs ++ ys ++ ds ++ vs) →
  ∃ d, Pd.from_columns
         [("state", ss); (GEOGRAPHY, gs); ("year", ys); ("descr", ds); ("value", vs)] = Ok d.
Proof.
  intros Hg Hy Hd Hv Hfit.
  apply Forall_app in Hfit as [Hs Hfit]. apply Forall_app in Hfit as [Hgf Hfit].
  apply Forall_app in Hfit as [Hyf Hfit]. apply Forall_app in Hfit as [Hdf Hvf].
  unfold Pd.from_columns. cbn [map snd fst hd forallb].
  rewrite Hg, Hy, Hd, Hv, !Nat.eqb_refl. cbn [andb Pd.homogenize].
  destruct (sanitize_array_fits ss Hs) as [ss' ->].
  destruct (sanitize_array_fits gs Hgf) as [gs' ->].
  destruct (sanitize_array_fits ys Hyf) as [ys' ->].
  destruct (sanitize_array_fits ds Hdf) as [ds' ->].
  destruct (sanitize_array_fits vs Hvf) as [vs' ->].
  cbn [obind]. eauto.
Qed.

(** What [get_acs_variable] returns makes, when it makes a frame, a record
    set: one row per row of the reply, in the order of the reply, with the
    year, the description and the three values looked up in the reply, each
    value as its column is typed. *)
Lemma get_acs_variable_frame (acs5_get : string → Z → outcome (list dict))
    (var_id : string) (year : Z) (descr : cell) (out : list (string * list cell))
    (d : DataFrame) :
  get_acs_variable acs5_get var_id year descr = Ok out →
  Pd.from_columns out = Ok d →
  ∃ req,
    acs5_get var_id year = Ok req ∧
    is_record_set d = true ∧
    Forall2 (λ row r, ∃ st geo v st' geo' v',
               dict_get "state" row = Ok st ∧ dict_get GEOGRAPHY row = Ok geo ∧
               dict_get var_id row = Ok v ∧
               r = [st'; geo'; CInt year; descr; v'] ∧
               same_value st st' ∧ same_value geo geo' ∧ same_value v v')
            req (rows d) ∧
    ((∀ row, row ∈ req → ∃ z, dict_get var_id row = Ok (CInt z)) →
     Forall2 (λ row r, dict_get var_id row = Ok (row_value r)) req (rows d)).
Proof.
  unfold get_acs_variable. destruct (acs5_get var_id year) as [req|]; cbn [obind]; [|done].
  destruct (acs_columns var_id req) as [[[ss gs] vs]|] eqn:Hcols; cbn [obind fst snd]; [|done].
  intros [= <-] Hd. apply acs_columns_spec in Hcols as (Hs & Hg & Hv & Hrows).
  apply from_columns_record in Hd as (ss' & gs' & ys' & ds' & vs' & Hss & Hgs & Hys & Hds & Hvs & ->).
  apply sanitize_array_replicate in Hys as ->. apply sanitize_array_replicate in Hds as ->.
  exists req. split; [done|]. split; [|split].
  - unfold is_record_set. cbn [columns rows]. rewrite bool_decide_eq_true_2 by done.
    cbn [andb]. apply forallb_forall. intros r (i & <- & _)%in_map_iff. done.
  - cbn [rows]. apply Forall2_same_length_lookup_2.
    + by rewrite length_map, length_seq.
    + intros i row r Hrow Hr. rewrite list_lookup_fmap in Hr.
      pose proof (lookup_lt_Some _ _ _ Hrow) as Hi.
      rewrite lookup_seq_lt in Hr by lia. cbn in Hr. injection Hr as <-.
      destruct (Hrows i row Hrow) as (H1 & H2 & H3).
      exists (nth i ss Pd.NaN), (nth i gs Pd.NaN), (nth i vs Pd.NaN),
             (nth i ss' Pd.NaN), (nth i gs' Pd.NaN), (nth i vs' Pd.NaN).
      rewrite !nth_replicate by done.
      repeat split; try done; apply sanitize_array_nth; try done; lia.
  - intros Hints. cbn [rows]. apply Forall2_same_length_lookup_2.
    + by rewrite length_map, length_seq.
    + intros i row r Hrow Hr. rewrite list_lookup_fmap in Hr.
      pose proof (lookup_lt_Some _ _ _ Hrow) as Hi.
      rewrite lookup_seq_lt in Hr by lia. cbn in Hr. injection Hr as <-.
      destruct (Hrows i row Hrow) as (_ & _ & H3). cbn [row_value].
      assert (vs' = vs) as ->; [|done].
      apply (sanitize_array_ints _ _ Hvs). apply Forall_forall. intros c Hc.
      apply list_elem_of_lookup in Hc as [j Hj].
      pose proof (lookup_lt_Some _ _ _ Hj) as Hlt. rewrite Hv in Hlt.
      destruct (lookup_lt_is_Some_2 req j Hlt) as [row' Hrow'].
      destruct (Hrows j row' Hrow') as (_ & _ & H3').
      destruct (Hints row') as [z Hz]; [by eapply list_elem_of_lookup_2|].
      rewrite Hz in H3'. injection H3' as H3'.
      rewrite (nth_lookup_Some _ _ _ _ Hj) in H3'. by subst.
Qed.

(** The [try] block hands only record sets to the cache writer. *)
Lemma fetched_frame_record_set (acs5_get : string → Z → outcome (list dict))
    (var_id : string) (year : Z) (descr : cell) (d : DataFrame) :
  (try out := get_acs_variable acs5_get var_id year descr in Pd.from_columns out) = Ok d →
  is_record_set d = true.
Proof.
  destruct (get_acs_variable acs5_get var_id year descr) as [out|] eqn:Hout; cbn [obind]; [|done].
  intros Hd. by destruct (get_acs_variable_frame _ _ _ _ _ _ Hout Hd) as (req & _ & ? & _).
Qed.

(** A catalog and a remote source whose query for the first variable fails,
    for the examples. *)
Definition example_catalog : list acs_var :=
  [mkVar "B01001_001E" "int" (CStr "Total");
   mkVar "B01001_002E" "int" (CStr "Male");
   mkVar "GEO_ID" "string" (CStr "Geography")].

Definition example_census (var : string) (year : Z) : outcome (list dict) :=
  if decide (var = "B01001_001E") then Raise CensusException
  else Ok [[("state", CStr "01"); (GEOGRAPHY, CStr "020100"); (var, CInt 7)]].

(** X5: when every integer the lists of [get_acs_variable] hold is one a
    double can take, [pd.DataFrame(out)] does not raise.  The frame is a
    record set with the five columns [state], [GEOGRAPHY], [year], [descr],
    [value]; it has one row per row of the reply, in the order of the
    reply, with the year, the description, and the three values looked up
    in the reply, each as pandas types its column: as it is, or cast to
    [float64] (an integer [7] beside a [None] is stored as [7.0] beside
    [NaN]).  A reply whose values are all integers is stored with these
    integers. *)
Theorem fetched_frame_is_record_set (acs5_get : string → Z → outcome (list dict))
    (var_id : string) (year : Z) (descr : cell) (out : list (string * list cell)) :
  get_acs_variable acs5_get var_id year descr = Ok out →
  Forall (λ col, Forall (λ c, fits c = true) col.2) out →
  ∃ req d,
    acs5_get var_id year = Ok req ∧
    Pd.from_columns out = Ok d ∧
    is_record_set d = true ∧
    Forall2 (λ row r, ∃ st geo v st' geo' v',
               dict_get "state" row = Ok st ∧ dict_get GEOGRAPHY row = Ok geo ∧
               dict_get var_id row = Ok v ∧
               r = [st'; geo'; CInt year; descr; v'] ∧
               same_value st st' ∧ same_value geo geo' ∧ same_value v v')
            req (rows d) ∧
    ((∀ row, row ∈ req → ∃ z, dict_get var_id row = Ok (CInt z)) →
     Forall2 (λ row r, dict_get var_id row = Ok (row_value r)) req (rows d)).
Proof.
  intros Hout Hfit.
  assert (∃ d, Pd.from_columns out = Ok d) as [d Hd].
  { revert Hout Hfit. unfold get_acs_variable.
    destruct (acs5_get var_id year) as [req|]; cbn [obind]; [|done].
    destruct (acs_columns var_id req) as [[[ss gs] vs]|] eqn:Hcols; cbn [obind fst snd]; [|done].
    intros [= <-] Hfit. apply acs_columns_spec in Hcols as (Hs & Hg & Hv & _).
    apply from_columns_fits; rewrite ?length_replicate; try congruence.
    rewrite !Forall_cons in Hfit. cbn [snd] in Hfit.
    destruct Hfit as (? & ? & ? & ? & ? & _). by rewrite !Forall_app. }
  destruct (get_acs_variable_frame _ _ _ _ _ _ Hout Hd) as (req & Hreq & Hrs & Hrows & Hints).
  by exists req, d.
Qed.

Lemma fetched_frame_is_record_set_witness :
  ∃ req d,
    (λ _ _, Ok [[("state", CStr "01"); (GEOGRAPHY, CStr "020100"); ("B01001_002E", CInt 7)];
                [("state", CStr "01"); (GEOGRAPHY, CStr "020200"); ("B01001_002E", CNone)]])
      "B01001_002E" 2021 = Ok req ∧
    Pd.from_columns
      [("state", [CStr "01"; CStr "01"]); (GEOGRAPHY, [CStr "020100"; CStr "020200"]);
       ("year", [CInt 2021; CInt 2021]); ("descr", [CStr "Male"; CStr "Male"]);
       ("value", [CInt 7; CNone])] = Ok d ∧
    is_record_set d = true ∧
    Forall2 (λ row r, ∃ st geo v st' geo' v',
               dict_get "state" row = Ok st ∧ dict_get GEOGRAPHY row = Ok geo ∧
               dict_get "B01001_002E" row = Ok v ∧
               r = [st'; geo'; CInt 2021; CStr "Male"; v'] ∧
               same_value st st' ∧ same_value geo geo' ∧ same_value v v')
            req (rows d) ∧
    ((∀ row, row ∈ req → ∃ z, dict_get "B01001_002E" row = Ok (CInt z)) →
     Forall2 (λ row r, dict_get "B01001_002E" row = Ok (row_value r)) req (rows d)).
Proof.
  apply (fetched_frame_is_record_set
           (λ _ _, Ok [[("state", CStr "01"); (GEOGRAPHY, CStr "020100"); ("B01001_002E", CInt 7)];
                       [("state", CStr "01"); (GEOGRAPHY, CStr "020200"); ("B01001_002E", CNone)]])
           "B01001_002E" 2021 (CStr "Male")).
  - reflexivity.
  - repeat constructor.
Defined.

(** X6: when a row of the reply lacks [state], the geography or the
    variable, the [try] block raises [KeyError] and writes nothing: no part
    of such a reply reaches the cache. *)
Theorem incomplete_reply_is_not_cached (acs5_get : string → Z → outcome (list dict))
    (write_fault : string → DataFrame → option fault) (lands : string → option string)
    (year : Z) (var : string) (descr : cell) (entries : directory) (req : list dict) :
  acs5_get var year = Ok req →
  Exists (λ row, ∃ k, k ∈ ["state"; GEOGRAPHY; var] ∧ k ∉ map fst row) req →
  fetch_and_cache acs5_get write_fault lands year var descr entries
  = (entries, Some KeyError).
Proof.
  intros Hreq Hex. unfold fetch_and_cache, get_acs_variable. rewrite Hreq. cbn [obind].
  assert (acs_columns var req = Raise KeyError) as ->; [|done].
  clear Hreq. induction Hex as [row l (k & Hk & Hmiss)|row l _ IH]; cbn [acs_columns].
  - apply dict_get_missing in Hmiss.
    apply list_elem_of_In in Hk. cbn [In] in Hk.
    destruct Hk as [<-|[<-|[<-|[]]]].
    + by rewrite Hmiss.
    + destruct (dict_get "state" row) as [s|e] eqn:H1; cbn [obind];
        [|by apply dict_get_raises in H1 as ->].
      by rewrite Hmiss.
    + destruct (dict_get "state" row) as [s|e] eqn:H1; cbn [obind];
        [|by apply dict_get_raises in H1 as ->].
      destruct (dict_get GEOGRAPHY row) as [g|e] eqn:H2; cbn [obind];
        [|by apply dict_get_raises in H2 as ->].
      by rewrite Hmiss.
  - destruct (dict_get "state" row) as [s|e] eqn:H1; cbn [obind];
      [|by apply dict_get_raises in H1 as ->].
    destruct (dict_get GEOGRAPHY row) as [g|e] eqn:H2; cbn [obind];
      [|by apply dict_get_raises in H2 as ->].
    destruct (dict_get var row) as [v|e] eqn:H3; cbn [obind];
      [|by apply dict_get_raises in H3 as ->].
    by rewrite IH.
Qed.

Lemma incomplete_reply_is_not_cached_witness :
  fetch_and_cache (λ _ _, Ok [[("state", CStr "01"); ("B01001_001E", CInt 7)]]) no_fault outside
    2021 "B01001_001E" (CStr "Total") []
  = ([], Some KeyError).
Proof.
  apply (incomplete_reply_is_not_cached
           (λ _ _, Ok [[("state", CStr "01"); ("B01001_001E", CInt 7)]]) no_fault outside
           2021 "B01001_001E" (CStr "Total") []
           [[("state", CStr "01"); ("B01001_001E", CInt 7)]]).
  - reflexivity.
  - apply Exists_cons_hd. exists GEOGRAPHY. split; compute_done.
Defined.

(** * The fetch loop *)

Section ScrapeFacts.

Context (acs5_get : string → Z → outcome (list dict)).
Context (write_fault : string → DataFrame → option fault).
Context (lands : string → option string).
Context (acs_vars : list acs_var).
Context (year : Z).
Context (completed_vars : gset string).

#[local] Abbreviation loop :=
  (scrape_loop acs5_get write_fault lands acs_vars year completed_vars).
#[local] Abbreviation attempt := (fetch_and_cache acs5_get write_fault lands year).

(** What the console shows after the variable at index [i], and for a
    [try] block that ended with [failure]. *)
Definition progress_line (i : nat) : list message :=
  if decide ((S i) `mod` 100 = 0)%nat then [Progress (S i)] else [].

Definition report (var : string) (failure : option exn) : list message :=
  match failure with
  | Some e => [VariableFailed var; Error e]
  | None => []
  end.

(** The number of rows of the catalog that bear a name. *)
Definition catalog_rows (var : string) : nat :=
  length (filter (λ r, Name r = var) acs_vars).

(** What one turn of the loop does to the state, for a variable that is
    not cached and has a description. *)
Definition turn (i : nat) (var : string) (descr : cell) (w : world) : world :=
  let r := attempt var descr (temp_dir w) in
  mkWorld r.1 (stdout w ++ report var r.2 ++ progress_line i) (queried w ++ [var]).

Lemma scrape_loop_turn (i : nat) (var : string) (rest : list string) (w : world)
    (descr : cell) :
  var ∉ completed_vars → label_item acs_vars var = Ok descr →
  loop i (var :: rest) w = loop (S i) rest (turn i var descr w).
Proof.
  intros Hnin Hl. cbn [scrape_loop]. rewrite decide_False by done. rewrite Hl.
  unfold turn, progress_line. cbn [temp_dir stdout queried].
  destruct (attempt var descr (temp_dir w)) as [entries [e|]]; cbn [fst snd report];
    destruct (decide _); cbn [temp_dir stdout queried];
    by rewrite <- ?app_assoc, ?app_nil_r.
Qed.

(** A variable the scan found is passed over: no query, no write, no
    line on the console. *)
Lemma scrape_loop_skip (i : nat) (var : string) (rest : list string) (w : world) :
  var ∈ completed_vars → loop i (var :: rest) w = loop (S i) rest w.
Proof. intros H. simpl. by rewrite decide_True. Qed.

Lemma label_item_duplicated (var : string) :
  (1 < catalog_rows var)%nat → label_item acs_vars var = Raise ValueError.
Proof.
  unfold catalog_rows, label_item.
  destruct (filter _ acs_vars) as [|r [|r' l]]; cbn [length]; [lia | lia | done].
Qed.

Lemma label_item_single (var : string) :
  catalog_rows var = 1%nat → ∃ descr, label_item acs_vars var = Ok descr.
Proof.
  unfold catalog_rows, label_item.
  destruct (filter _ acs_vars) as [|r [|r' l]]; cbn [length]; [done | eauto | done].
Qed.

(** ** What the [try] block does to the directory *)

(** It leaves the directory as it was, or it has written a record set under
    the name of the variable, or the write failed with the file open and has
    left the file cut short. *)
Lemma fetch_and_cache_cases (var : string) (descr : cell) (entries entries' : directory)
    (failure : option exn) :
  attempt var descr entries = (entries', failure) →
  (entries' = entries ∧
   (failure = None → entry_of lands (cache_name var year) = None)) ∨
  (∃ n d, entry_of lands (cache_name var year) = Some n ∧ is_record_set d = true ∧
          failure = None ∧ entries' = put_file n d entries) ∨
  (∃ n d e, entry_of lands (cache_name var year) = Some n ∧
            write_fault (cache_name var year) d = Some (AfterOpen e) ∧
            failure = Some e ∧ entries' = truncate_file n entries).
Proof.
  unfold fetch_and_cache.
  destruct (try out := get_acs_variable acs5_get var year descr in Pd.from_columns out)
    as [d|e] eqn:Hd.
  - apply fetched_frame_record_set in Hd. unfold write_feather.
    destruct (write_fault (cache_name var year) d) as [[e|e]|] eqn:Hw;
      destruct (entry_of lands (cache_name var year)) as [n|] eqn:Hn; intros [= <- <-].
    + left. by split.
    + left. by split.
    + right. right. by exists n, d, e.
    + left. by split.
    + right. left. by exists n, d.
    + left. by split.
  - intros [= <- <-]. left. by split.
Qed.

Lemma turn_queried (i : nat) (var : string) (descr : cell) (w : world) :
  queried (turn i var descr w) = queried w ++ [var].
Proof. done. Qed.

Lemma turn_stdout (i : nat) (var : string) (descr : cell) (w : world) (m : message) :
  m ∈ stdout w → m ∈ stdout (turn i var descr w).
Proof. intros Hm. unfold turn. cbn [stdout]. apply elem_of_app. by left. Qed.

Lemma turn_failed (i : nat) (var : string) (descr : cell) (w : world) (e : exn) :
  (attempt var descr (temp_dir w)).2 = Some e →
  VariableFailed var ∈ stdout (turn i var descr w).
Proof.
  intros H. unfold turn. cbn [stdout]. rewrite H. cbn [report].
  rewrite !elem_of_app, !elem_of_cons. auto.
Qed.

(** A turn changes no file but the one its variable designates. *)
Lemma turn_file (i : nat) (var : string) (descr : cell) (w : world) (name : string) :
  entry_of lands (cache_name var year) ≠ Some name →
  file_at name (temp_dir (turn i var descr w)) = file_at name (temp_dir w).
Proof.
  intros Hne. unfold turn. cbn [temp_dir].
  destruct (attempt var descr (temp_dir w)) as [entries' failure] eqn:Ha. cbn [fst].
  apply fetch_and_cache_cases in Ha
    as [[-> _]|[(n & d & Hn & _ & _ & ->)|(n & d & e & Hn & _ & _ & ->)]].
  - done.
  - apply file_at_put_ne. congruence.
  - apply file_at_truncate_ne. congruence.
Qed.

(** An induction principle for the loop: a property of the state that every
    turn for a variable of the list keeps holds at the end if it holds at the
    start. *)
Lemma scrape_loop_invariant (P : world → Prop) (var_names : list string) (i : nat)
    (w w' : world) (oe : option exn) :
  (∀ i var descr w, var ∈ var_names → var ∉ completed_vars →
     P w → P (turn i var descr w)) →
  loop i var_names w = (w', oe) → P w → P w'.
Proof.
  revert i w. induction var_names as [|var rest IH]; intros i w Hturn Hrun Hw.
  - cbn [scrape_loop] in Hrun. by injection Hrun as <- _.
  - assert (∀ i v descr w, v ∈ rest → v ∉ completed_vars → P w → P (turn i v descr w))
      as Hturn' by (intros; apply Hturn; [by right | done | done]).
    destruct (decide (var ∈ completed_vars)) as [Hin|Hnin].
    { rewrite scrape_loop_skip in Hrun by done. by eapply IH. }
    destruct (label_item acs_vars var) as [descr|e] eqn:Hl.
    + rewrite (scrape_loop_turn _ _ _ _ descr) in Hrun by done.
      eapply IH; [done | exact Hrun|]. apply Hturn; [by left | done | done].
    + cbn [scrape_loop] in Hrun. rewrite decide_False, Hl in Hrun by done.
      by injection Hrun as <- _.
Qed.

(** The loop queries only variables of its list that the scan did not
    find, and changes no file but those that such variables designate. *)
Lemma scrape_loop_frame (var_names : list string) (i : nat) (w w' : world)
    (oe : option exn) :
  loop i var_names w = (w', oe) →
  (∀ q, q ∈ queried w' → q ∈ queried w ∨ (q ∈ var_names ∧ q ∉ completed_vars)) ∧
  (∀ name,
     (∀ v, v ∈ var_names → v ∉ completed_vars →
        entry_of lands (cache_name v year) ≠ Some name) →
     file_at name (temp_dir w') = file_at name (temp_dir w)).
Proof.
  intros Hrun. split.
  - apply (scrape_loop_invariant
             (λ w', ∀ q, q ∈ queried w' → q ∈ queried w ∨ (q ∈ var_names ∧ q ∉ completed_vars))
             var_names i w w' oe); [|done|by left].
    intros j v descr w0 Hv Hnin Hw0 q. rewrite turn_queried.
    intros [?| ->%list_elem_of_singleton]%elem_of_app; [by apply Hw0 | by right].
  - intros name Hname.
    apply (scrape_loop_invariant
             (λ w', file_at name (temp_dir w') = file_at name (temp_dir w))
             var_names i w w' oe); [|done|done].
    intros j v descr w0 Hv Hnin <-. apply turn_file. by apply Hname.
Qed.

(** When every variable of the list that is not cached has exactly one row
    in the catalog, the loop runs to its end whatever fails inside the [try]
    blocks: it has issued one query for each variable that is not cached, in
    the order of the list, and has only added lines to the console. *)
Lemma scrape_loop_runs (var_names : list string) (i : nat) (w : world) :
  Forall (λ v, v ∈ completed_vars ∨ catalog_rows v = 1%nat) var_names →
  ∃ w' later,
    loop i var_names w = (w', None) ∧
    queried w' = queried w ++ filter (λ v, v ∉ completed_vars) var_names ∧
    stdout w' = stdout w ++ later.
Proof.
  intros H. revert i w. induction H as [|var rest Hv _ IH]; intros i w.
  - exists w, []. by rewrite filter_nil, !app_nil_r.
  - destruct (decide (var ∈ completed_vars)) as [Hin|Hnin].
    + destruct (IH (S i) w) as (w' & later & Hrun & Hq & Hout). exists w', later.
      rewrite scrape_loop_skip by done. split; [done|]. split; [|done].
      rewrite filter_cons_False by (intros ?; done). exact Hq.
    + destruct Hv as [?|Hone]; [done|].
      destruct (label_item_single var Hone) as [descr Hl].
      destruct (IH (S i) (turn i var descr w)) as (w' & later & Hrun & Hq & Hout).
      exists w', ((report var (attempt var descr (temp_dir w)).2 ++ progress_line i) ++ later).
      rewrite (scrape_loop_turn i var rest w descr) by done. split; [done|]. split.
      * rewrite Hq, turn_queried, filter_cons_True by done. by rewrite <- app_assoc.
      * rewrite Hout. unfold turn. cbn [stdout]. by rewrite <- !app_assoc.
Qed.

(** ** C6 *)

(** C6 (amended): when the [try] block of a variable raises, be it the
    remote query, the making of the frame or the write of the cache file,
    the batch is not stopped: the loop prints the variable and the error and
    goes on, so that every later variable that is not cached is queried in
    its turn.  The cache file of the variable is at the end of the loop what
    the failed [try] block left: what it was before (nothing, for a
    variable that was not cached), unless the write failed with the file
    open, which leaves a file cut short under the name of the variable. *)
Theorem failed_variable_does_not_stop_batch (i : nat) (var : string)
    (rest : list string) (w : world) (descr : cell) (e : exn) (entries' : directory) :
  var ∉ completed_vars →
  label_item acs_vars var = Ok descr →
  attempt var descr (temp_dir w) = (entries', Some e) →
  Forall (λ v, v ∈ completed_vars ∨ catalog_rows v = 1%nat) rest →
  Forall (λ v, Py.contains "/" v = false) (var :: rest) →
  var ∉ rest →
  ∃ w' later,
    loop i (var :: rest) w = (w', None) ∧
    stdout w' = stdout w ++ [VariableFailed var; Error e] ++ later ∧
    queried w' = queried w ++ var :: filter (λ v, v ∉ completed_vars) rest ∧
    file_at (cache_name var year) (temp_dir w') = file_at (cache_name var year) entries' ∧
    (entries' = temp_dir w ∨
     (∃ d, write_fault (cache_name var year) d = Some (AfterOpen e)) ∧
     entries' = truncate_file (cache_name var year) (temp_dir w)).
Proof.
  intros Hnin Hlabel Hraise Hrest [Hvar Hslash]%Forall_cons Hfresh.
  destruct (scrape_loop_runs rest (S i) (turn i var descr w) Hrest)
    as (w' & later & Hrun & Hq & Hout).
  exists w', (progress_line i ++ later).
  rewrite (scrape_loop_turn i var rest w descr) by done.
  split; [done|]. split; [|split; [|split]].
  - rewrite Hout. unfold turn. cbn [stdout]. rewrite Hraise. cbn [snd report].
    by rewrite <- !app_assoc.
  - rewrite Hq, turn_queried. by rewrite <- app_assoc.
  - destruct (scrape_loop_frame _ _ _ _ _ Hrun) as [_ Hfile].
    rewrite Hfile.
    + unfold turn. cbn [temp_dir]. by rewrite Hraise.
    + intros v Hv _. rewrite Forall_forall in Hslash.
      rewrite entry_of_plain by (apply cache_name_no_slash; by apply Hslash).
      intros [= Heq]. apply cache_name_inj in Heq. by subst.
  - apply fetch_and_cache_cases in Hraise
      as [[-> _]|[(n & d & _ & _ & [=] & _)|(n & d & e' & Hn & Hw & [= <-] & ->)]].
    + by left.
    + right. rewrite entry_of_plain in Hn by (by apply cache_name_no_slash).
      injection Hn as <-. split; [by exists d | done].
Qed.

End ScrapeFacts.

(** A remote source that replies to every query, and a disk that fails
    every write once the file is open. *)
Definition generous_census (var : string) (year : Z) : outcome (list dict) :=
  Ok [[("state", CStr "01"); (GEOGRAPHY, CStr "020100"); (var, CInt 7)]].

Definition full_disk (name : string) (d : DataFrame) : option fault :=
  Some (AfterOpen OSError).

(** C6, as the claim states it, fails for a write that fails with its file
    open: the error is caught and printed, but the variable does not remain
    absent from the cache.  Its file is there, cut short, and the scan of the
    next run counts the variable as done. *)
Lemma failed_write_leaves_file :
  let run :=
    scrape_loop generous_census full_disk outside example_catalog 2021 ∅ 0
      ["B01001_001E"] (mkWorld [] [] []) in
  run = (mkWorld [("B01001_001E--2021.feather", Unreadable)]
                 [VariableFailed "B01001_001E"; Error OSError] ["B01001_001E"], None) ∧
  file_at (cache_name "B01001_001E" 2021) (temp_dir run.1) ≠ None ∧
  get_completed_vars (Some (temp_dir run.1)) 2021 = Ok {["B01001_001E"]}.
Proof. split; [reflexivity|]. split; [discriminate | by vm_compute]. Qed.

Lemma failed_variable_does_not_stop_batch_witness :
  ∃ w' later,
    scrape_loop example_census no_fault outside example_catalog 2021 ∅ 0
      ["B01001_001E"; "B01001_002E"] (mkWorld [] [] []) = (w', None) ∧
    stdout w' = [] ++ [VariableFailed "B01001_001E"; Error CensusException] ++ later ∧
    queried w' = [] ++ "B01001_001E" :: filter (λ v, v ∉ (∅ : gset string)) ["B01001_002E"] ∧
    file_at (cache_name "B01001_001E" 2021) (temp_dir w') = None ∧
    (([] : directory) = [] ∨
     (∃ d, no_fault (cache_name "B01001_001E" 2021) d = Some (AfterOpen CensusException)) ∧
     ([] : directory) = truncate_file (cache_name "B01001_001E" 2021) []).
Proof.
  assert (H1 : "B01001_001E" ∉ (∅ : gset string)) by apply not_elem_of_empty.
  assert (H4 : Forall (λ v, v ∈ (∅ : gset string) ∨ catalog_rows example_catalog v = 1%nat)
                 ["B01001_002E"]).
  { apply Forall_cons. split; [right; reflexivity | constructor]. }
  assert (H5 : Forall (λ v, Py.contains "/" v = false) ["B01001_001E"; "B01001_002E"])
    by repeat constructor.
  assert (H6 : "B01001_001E" ∉ ["B01001_002E"]) by compute_done.
  exact (failed_variable_does_not_stop_batch example_census no_fault outside example_catalog
           2021 ∅ 0 "B01001_001E" ["B01001_002E"] (mkWorld [] [] []) (CStr "Total")
           CensusException [] H1 eq_refl eq_refl H4 H5 H6).
Defined.

(** * Resuming *)

(** An identifier the file naming can carry and that names a file of the
    cache directory. *)
Definition plain (var : string) : bool :=
  delimiter_free var && negb (Py.contains "/" var).

Lemma plain_spec (var : string) :
  plain var = true ↔ delimiter_free var = true ∧ Py.contains "/" var = false.
Proof. unfold plain. rewrite andb_true_iff, negb_true_iff. tauto. Qed.

Lemma entry_of_cache_name (lands : string → option string) (var : string) (year : Z) :
  plain var = true → entry_of lands (cache_name var year) = Some (cache_name var year).
Proof. intros [_ H]%plain_spec. by apply entry_of_plain, cache_name_no_slash. Qed.

(** The scan finds every plain variable whose file is in the directory. *)
Lemma scan_finds_file (entries : directory) (year : Z) (completed : gset string)
    (var : string) (f : file) :
  get_completed_vars (Some entries) year = Ok completed →
  delimiter_free var = true →
  file_at (cache_name var year) entries = Some f →
  var ∈ completed.
Proof.
  intros Hscan Hfree Hfile.
  destruct (get_completed_vars_spec year entries) as (cs & Hcs & Hin).
  { by eapply get_completed_vars_ok. }
  rewrite Hscan in Hcs. injection Hcs as <-.
  apply Hin. exists (cache_name var year, f). split; [by apply file_at_elem|].
  by apply parse_cache_name_cache_name.
Qed.

(** ** C7 *)

(** C7, as the claim states it, fails at an identifier that ends in a dash:
    the file of ["A-"] for 2021 is in the directory, yet the scan reads its
    name as variable ["A"] of year [-2021], the phase queries ["A-"] again
    and writes its file anew. *)
Lemma rerun_queries_cached_variable :
  let old := record_set ["01"] "Total" 3 in
  let entries := [(cache_name "A-" 2021, Feather old)] in
  ∃ w d,
    fetch_phase generous_census no_fault outside [mkVar "A-" "int" (CStr "Total")]
      ["A-"] 2021 entries = Ok (w, None) ∧
    queried w = ["A-"] ∧
    file_at (cache_name "A-" 2021) (temp_dir w) = Some (Feather d) ∧
    d ≠ old.
Proof.
  intros old entries. eexists _, _. split; [vm_compute; reflexivity|].
  split; [reflexivity|]. split; [reflexivity|]. discriminate.
Qed.

(** A fetch phase over a directory whose file names follow the convention,
    for plain identifiers: it runs, queries only variables that have no
    file, and changes no file that is there. *)
Lemma fetch_phase_frame (acs5_get : string → Z → outcome (list dict))
    (write_fault : string → DataFrame → option fault) (lands : string → option string)
    (acs_vars : list acs_var) (var_names : list string) (year : Z) (entries : directory) :
  Forall (λ v, plain v = true) var_names →
  Forall (λ e, is_cache_name e.1 = true) entries →
  ∃ w oe,
    fetch_phase acs5_get write_fault lands acs_vars var_names year entries = Ok (w, oe) ∧
    (∀ q, q ∈ queried w →
       q ∈ var_names ∧ file_at (cache_name q year) entries = None) ∧
    (∀ name f, file_at name entries = Some f → file_at name (temp_dir w) = Some f).
Proof.
  intros Hplain Hnames. rewrite Forall_forall in Hplain.
  destruct (get_completed_vars_spec year entries Hnames) as (completed & Hscan & _).
  unfold fetch_phase. rewrite Hscan. cbn [obind].
  destruct (scrape_loop acs5_get write_fault lands acs_vars year completed 0 var_names
              (mkWorld entries [] [])) as [w oe] eqn:Hloop.
  apply scrape_loop_frame in Hloop as [Hq Hf]. cbn [queried temp_dir] in Hq, Hf.
  assert (Hcached : ∀ v f, v ∈ var_names →
            file_at (cache_name v year) entries = Some f → v ∈ completed).
  { intros v f Hv Hfile. apply (scan_finds_file entries year completed v f); try done.
    by apply plain_spec, Hplain. }
  exists w, oe. split; [done|]. split.
  - intros q Hin. destruct (Hq q Hin) as [Hnil|[Hv Hnin]]; [by apply elem_of_nil in Hnil|].
    split; [done|].
    destruct (file_at (cache_name q year) entries) as [f|] eqn:Hfile; [|done].
    exfalso. apply Hnin. by eapply Hcached.
  - intros name f Hfile. rewrite Hf; [done|].
    intros v Hv Hnin. rewrite entry_of_cache_name by by apply Hplain.
    intros [= <-]. apply Hnin. by eapply Hcached.
Qed.

(** C7 (amended): let the eligible identifiers be ones the file naming can
    carry (no ["--"], no ["."], no path separator, no dash at the end), and
    let S be the eligible variables whose file for the year is in the cache
    directory.  When a file name of the directory does not follow the
    convention, the scan stops the phase with [ValueError] before any query.
    Otherwise the phase runs, issues remote queries only for eligible
    variables outside S, and leaves every file that was in the directory
    with the content it had. *)
Theorem rerun_fetches_only_missing (acs5_get : string → Z → outcome (list dict))
    (write_fault : string → DataFrame → option fault) (lands : string → option string)
    (acs_vars : list acs_var) (var_names : list string) (year : Z) (entries : directory) :
  Forall (λ v, plain v = true) var_names →
  (Exists (λ e, is_cache_name e.1 = false) entries →
   fetch_phase acs5_get write_fault lands acs_vars var_names year entries
   = Raise ValueError) ∧
  (Forall (λ e, is_cache_name e.1 = true) entries →
   ∃ w oe,
     fetch_phase acs5_get write_fault lands acs_vars var_names year entries = Ok (w, oe) ∧
     (∀ q, q ∈ queried w →
        q ∈ var_names ∧ file_at (cache_name q year) entries = None) ∧
     (∀ name f, file_at name entries = Some f → file_at name (temp_dir w) = Some f)).
Proof.
  intros Hplain. split.
  - intros Hbad. unfold fetch_phase, get_completed_vars. cbn [os_listdir obind].
    by rewrite completed_loop_malformed.
  - by apply fetch_phase_frame.
Qed.

Lemma rerun_fetches_only_missing_witness :
  let entries := [("B01001_002E--2021.feather", Feather (record_set ["01"] "Male" 3))] in
  ∃ w oe,
    fetch_phase example_census no_fault outside example_catalog
      ["B01001_001E"; "B01001_002E"] 2021 entries = Ok (w, oe) ∧
    (∀ q, q ∈ queried w →
       q ∈ ["B01001_001E"; "B01001_002E"] ∧ file_at (cache_name q 2021) entries = None) ∧
    (∀ name f, file_at name entries = Some f → file_at name (temp_dir w) = Some f).
Proof.
  intros entries.
  apply (rerun_fetches_only_missing example_census no_fault outside example_catalog
           ["B01001_001E"; "B01001_002E"] 2021 entries).
  - repeat constructor.
  - repeat constructor.
Defined.

(** * Further properties of the fetch loop *)

Section LoopFacts.

Context (acs5_get : string → Z → outcome (list dict)).
Context (write_fault : string → DataFrame → option fault).
Context (lands : string → option string).
Context (acs_vars : list acs_var).
Context (year : Z).
Context (completed_vars : gset string).

#[local] Abbreviation run :=
  (scrape_loop acs5_get write_fault lands acs_vars year completed_vars).
#[local] Abbreviation try_block := (fetch_and_cache acs5_get write_fault lands year).
#[local] Abbreviation step := (turn acs5_get write_fault lands year).

(** X7: the look-up of the description is outside the [try] block.  At a
    variable that is not cached and whose name two rows of the catalog
    bear, the loop ends with [ValueError]: nothing is printed or written for
    it, and no variable after it is queried. *)
Theorem duplicated_catalog_name_stops_batch (i : nat) (var : string)
    (rest : list string) (w : world) :
  var ∉ completed_vars →
  (1 < catalog_rows acs_vars var)%nat →
  run i (var :: rest) w = (w, Some ValueError).
Proof.
  intros Hnin Hdup. cbn [scrape_loop]. rewrite decide_False by done.
  by rewrite label_item_duplicated.
Qed.

(** X8: when every variable of the list that is not cached has exactly one
    row in the catalog, the loop runs to its end whatever fails inside the
    [try] blocks, and has issued one query for each variable that is not
    cached, in the order of the list. *)
Theorem batch_queries_every_missing_variable (var_names : list string) (i : nat)
    (w : world) :
  Forall (λ v, v ∈ completed_vars ∨ catalog_rows acs_vars v = 1%nat) var_names →
  ∃ w',
    run i var_names w = (w', None) ∧
    queried w' = queried w ++ filter (λ v, v ∉ completed_vars) var_names.
Proof.
  intros H.
  destruct (scrape_loop_runs acs5_get write_fault lands acs_vars year completed_vars
              var_names i w H) as (w' & later & Hrun & Hq & _).
  by exists w'.
Qed.

(** After a turn for a variable that names a file of the directory, the
    variable is reported as failed, or its file holds a record set. *)
Lemma turn_outcome (i : nat) (var : string) (descr : cell) (w : world) :
  Py.contains "/" var = false →
  VariableFailed var ∈ stdout (step i var descr w) ∨
  ∃ d, temp_dir (step i var descr w) = put_file (cache_name var year) d (temp_dir w) ∧
       is_record_set d = true.
Proof.
  intros Hslash.
  destruct (try_block var descr (temp_dir w)) as [entries' [e|]] eqn:Ha.
  - left. apply (turn_failed _ _ _ _ _ _ _ _ e). by rewrite Ha.
  - right. unfold turn. cbn [temp_dir]. rewrite Ha. cbn [fst].
    apply fetch_and_cache_cases in Ha
      as [[_ Hn]|[(n & d & Hn & Hrs & _ & ->)|(n & d & e & _ & _ & [=] & _)]].
    + rewrite entry_of_plain in Hn by (by apply cache_name_no_slash).
      by specialize (Hn eq_refl).
    + rewrite entry_of_plain in Hn by (by apply cache_name_no_slash).
      injection Hn as <-. by exists d.
Qed.

(** What a turn does to the directory, for such a variable. *)
Lemma turn_temp_dir (i : nat) (var : string) (descr : cell) (w : world) :
  Py.contains "/" var = false →
  temp_dir (step i var descr w) = temp_dir w ∨
  (∃ d, temp_dir (step i var descr w) = put_file (cache_name var year) d (temp_dir w) ∧
        is_record_set d = true) ∨
  (temp_dir (step i var descr w) = truncate_file (cache_name var year) (temp_dir w) ∧
   VariableFailed var ∈ stdout (step i var descr w)).
Proof.
  intros Hslash.
  destruct (try_block var descr (temp_dir w)) as [entries' failure] eqn:Ha.
  pose proof Ha as Hcases.
  apply fetch_and_cache_cases in Hcases
    as [[-> _]|[(n & d & Hn & Hrs & _ & ->)|(n & d & e & Hn & _ & -> & ->)]].
  - left. unfold turn. cbn [temp_dir]. by rewrite Ha.
  - rewrite entry_of_plain in Hn by (by apply cache_name_no_slash). injection Hn as <-.
    right. left. exists d. unfold turn. cbn [temp_dir]. by rewrite Ha.
  - rewrite entry_of_plain in Hn by (by apply cache_name_no_slash). injection Hn as <-.
    right. right. split.
    + unfold turn. cbn [temp_dir]. by rewrite Ha.
    + apply (turn_failed _ _ _ _ _ _ _ _ e). by rewrite Ha.
Qed.

(** X9: let no variable of the list hold a path separator.  At the end of
    the loop, however it ends, every variable a query was issued for during
    the loop is reported as failed on the console, or has its file in the
    cache, and that file holds a record set. *)
Theorem queried_is_failed_or_cached (var_names : list string) (i : nat)
    (w w' : world) (oe : option exn) :
  run i var_names w = (w', oe) →
  Forall (λ v, Py.contains "/" v = false) var_names →
  ∀ q, q ∈ queried w' →
    q ∈ queried w ∨
    VariableFailed q ∈ stdout w' ∨
    ∃ d, file_at (cache_name q year) (temp_dir w') = Some (Feather d) ∧
         is_record_set d = true.
Proof.
  intros Hrun Hslash q. rewrite Forall_forall in Hslash.
  apply (scrape_loop_invariant acs5_get write_fault lands acs_vars year completed_vars
           (λ w', q ∈ queried w' →
                  q ∈ queried w ∨ VariableFailed q ∈ stdout w' ∨
                  ∃ d, file_at (cache_name q year) (temp_dir w') = Some (Feather d) ∧
                       is_record_set d = true)
           var_names i w w' oe); [|done|by left].
  intros j v descr w0 Hv Hnin Hw0. rewrite turn_queried.
  intros [Hq|Hq]%elem_of_app.
  - destruct (Hw0 Hq) as [?|[Hfail|(d & Hd & Hrs)]]; [by left|right; left|right].
    { by apply turn_stdout. }
    destruct (turn_temp_dir j v descr w0 (Hslash v Hv))
      as [->|[(d' & -> & Hrs')|[-> Hfail]]].
    + right. by exists d.
    + right. destruct (decide (cache_name q year = cache_name v year)) as [<-|Hne].
      * exists d'. by rewrite file_at_put_eq.
      * exists d. by rewrite file_at_put_ne.
    + destruct (decide (cache_name q year = cache_name v year)) as [Heq|Hne].
      * apply cache_name_inj in Heq as ->. by left.
      * right. exists d. by rewrite file_at_truncate_ne.
  - apply list_elem_of_singleton in Hq as ->. right.
    destruct (turn_outcome j v descr w0 (Hslash v Hv)) as [?|(d & -> & Hrs)]; [by left|].
    right. exists d. by rewrite file_at_put_eq.
Qed.

(** The loop writes record sets only; the files that are none are the ones a
    failed write has left, each reported on the console. *)
Lemma scrape_loop_record_sets (var_names : list string) (i : nat)
    (w w' : world) (oe : option exn) :
  run i var_names w = (w', oe) →
  Forall (λ v, Py.contains "/" v = false) var_names →
  Forall (λ e, is_cached e.2 = true) (temp_dir w) →
  Forall (λ e, is_cached e.2 = true ∨
               (e.2 = Unreadable ∧
                ∃ v, v ∈ var_names ∧ e.1 = cache_name v year ∧
                     VariableFailed v ∈ stdout w')) (temp_dir w').
Proof.
  intros Hrun Hslash Hall. rewrite Forall_forall in Hslash.
  apply (scrape_loop_invariant acs5_get write_fault lands acs_vars year completed_vars
           (λ w', Forall (λ e, is_cached e.2 = true ∨
                               (e.2 = Unreadable ∧
                                ∃ v, v ∈ var_names ∧ e.1 = cache_name v year ∧
                                     VariableFailed v ∈ stdout w')) (temp_dir w'))
           var_names i w w' oe); [|done|].
  - intros j v descr w0 Hv Hnin Hw0. rewrite Forall_forall in Hw0.
    assert (Hold : ∀ e, e ∈ temp_dir w0 →
              is_cached e.2 = true ∨
              (e.2 = Unreadable ∧
               ∃ v', v' ∈ var_names ∧ e.1 = cache_name v' year ∧
                     VariableFailed v' ∈ stdout (step j v descr w0))).
    { intros e He. destruct (Hw0 e He) as [?|(Hu & v' & Hv' & Hn & Hf)]; [by left|].
      right. split; [done|]. exists v'. repeat split; try done. by apply turn_stdout. }
    apply Forall_forall. intros e.
    destruct (turn_temp_dir j v descr w0 (Hslash v Hv))
      as [->|[(d & -> & Hrs)|[-> Hfail]]].
    + apply Hold.
    + intros [->|He]%put_file_elem; [by left | by apply Hold].
    + intros [->|He]%truncate_file_elem; [|by apply Hold].
      right. split; [done|]. by exists v.
  - eapply Forall_impl; [exact Hall|]. intros e He. by left.
Qed.

(** X10: let no variable of the list hold a path separator, and let every
    file of the directory hold a record set before the loop.  After the
    loop every file holds a record set, but for the files a failed write has
    left cut short, and each of these bears the name of a variable of the
    list that the console reports as failed. *)
Theorem loop_keeps_record_sets (var_names : list string) (i : nat)
    (w w' : world) (oe : option exn) :
  run i var_names w = (w', oe) →
  Forall (λ v, Py.contains "/" v = false) var_names →
  Forall (λ e, is_cached e.2 = true) (temp_dir w) →
  Forall (λ e, is_cached e.2 = true ∨
               (e.2 = Unreadable ∧
                ∃ v, v ∈ var_names ∧ e.1 = cache_name v year ∧
                     VariableFailed v ∈ stdout w')) (temp_dir w').
Proof. apply scrape_loop_record_sets. Qed.

(** Every file of the directory after the loop was there before it, or
    bears the name the cache writer gives to a variable of the list. *)
Lemma loop_file_names (var_names : list string) (i : nat) (w w' : world) (oe : option exn) :
  run i var_names w = (w', oe) →
  Forall (λ v, Py.contains "/" v = false) var_names →
  ∀ n, n ∈ map fst (temp_dir w') →
    n ∈ map fst (temp_dir w) ∨ ∃ v, v ∈ var_names ∧ n = cache_name v year.
Proof.
  intros Hrun Hslash n. rewrite Forall_forall in Hslash.
  apply (scrape_loop_invariant acs5_get write_fault lands acs_vars year completed_vars
           (λ w', n ∈ map fst (temp_dir w') →
                  n ∈ map fst (temp_dir w) ∨ ∃ v, v ∈ var_names ∧ n = cache_name v year)
           var_names i w w' oe); [|done|by left].
  intros j v descr w0 Hv Hnin Hw0.
  destruct (turn_temp_dir j v descr w0 (Hslash v Hv)) as [->|[(d & -> & _)|[-> _]]].
  - done.
  - intros [->|?]%put_file_names; [right; by exists v | by apply Hw0].
  - intros [->|?]%truncate_file_names; [right; by exists v | by apply Hw0].
Qed.

End LoopFacts.

Lemma duplicated_catalog_name_stops_batch_witness :
  scrape_loop example_census no_fault outside
    [mkVar "B01001_001E" "int" (CStr "Total"); mkVar "B01001_001E" "int" (CStr "Total again");
     mkVar "B01001_002E" "int" (CStr "Male")]
    2021 ∅ 0 ["B01001_001E"; "B01001_002E"] (mkWorld [] [] [])
  = (mkWorld [] [] [], Some ValueError).
Proof.
  apply (duplicated_catalog_name_stops_batch example_census no_fault outside
           [mkVar "B01001_001E" "int" (CStr "Total");
            mkVar "B01001_001E" "int" (CStr "Total again");
            mkVar "B01001_002E" "int" (CStr "Male")]
           2021 ∅ 0 "B01001_001E" ["B01001_002E"] (mkWorld [] [] [])).
  - apply not_elem_of_empty.
  - vm_compute. lia.
Defined.

Lemma batch_queries_every_missing_variable_witness :
  ∃ w',
    scrape_loop example_census no_fault outside example_catalog 2021 {["B01001_002E"]} 0
      ["B01001_001E"; "B01001_002E"] (mkWorld [] [] []) = (w', None) ∧
    queried w' = [] ++ filter (λ v, v ∉ ({["B01001_002E"]} : gset string))
                          ["B01001_001E"; "B01001_002E"].
Proof.
  apply (batch_queries_every_missing_variable example_census no_fault outside example_catalog
           2021 {["B01001_002E"]} ["B01001_001E"; "B01001_002E"] 0 (mkWorld [] [] [])).
  apply Forall_cons. split; [right; reflexivity|].
  apply Forall_cons. split; [left; by apply elem_of_singleton | constructor].
Defined.

Lemma queried_is_failed_or_cached_witness :
  ∃ w' oe,
    scrape_loop example_census no_fault outside example_catalog 2021 ∅ 0
      ["B01001_001E"; "B01001_002E"] (mkWorld [] [] []) = (w', oe) ∧
    ∀ q, q ∈ queried w' →
      q ∈ [] ∨
      VariableFailed q ∈ stdout w' ∨
      ∃ d, file_at (cache_name q 2021) (temp_dir w') = Some (Feather d) ∧
           is_record_set d = true.
Proof.
  eexists _, _. split; [vm_compute; reflexivity|].
  eapply (queried_is_failed_or_cached example_census no_fault outside example_catalog 2021 ∅
           ["B01001_001E"; "B01001_002E"] 0 (mkWorld [] [] [])).
  - vm_compute. reflexivity.
  - repeat constructor.
Defined.

Lemma loop_keeps_record_sets_witness :
  ∃ w' oe,
    scrape_loop generous_census full_disk outside example_catalog 2021 ∅ 0
      ["B01001_001E"]
      (mkWorld [("B01001_003E--2021.feather", Feather (record_set ["01"] "Female" 4))] [] [])
    = (w', oe) ∧
    Forall (λ e, is_cached e.2 = true ∨
                 (e.2 = Unreadable ∧
                  ∃ v, v ∈ ["B01001_001E"] ∧ e.1 = cache_name v 2021 ∧
                       VariableFailed v ∈ stdout w')) (temp_dir w').
Proof.
  eexists _, _. split; [vm_compute; reflexivity|].
  eapply (loop_keeps_record_sets generous_census full_disk outside example_catalog 2021 ∅
           ["B01001_001E"] 0
           (mkWorld [("B01001_003E--2021.feather", Feather (record_set ["01"] "Female" 4))]
                    [] [])).
  - vm_compute. reflexivity.
  - repeat constructor.
  - repeat constructor.
Defined.

(** X11: a variable whose file is in the cache directory when the fetch
    phase starts is passed over: the phase issues no query for it. *)
Theorem cached_variable_is_not_queried (acs5_get : string → Z → outcome (list dict))
    (write_fault : string → DataFrame → option fault) (lands : string → option string)
    (acs_vars : list acs_var)
    (var_names : list string) (year : Z) (entries : directory)
    (w : world) (oe : option exn) (var : string) (f : file) :
  fetch_phase acs5_get write_fault lands acs_vars var_names year entries = Ok (w, oe) →
  delimiter_free var = true →
  file_at (cache_name var year) entries = Some f →
  var ∉ queried w.
Proof.
  unfold fetch_phase.
  destruct (get_completed_vars (Some entries) year) as [completed|] eqn:Hscan;
    cbn [obind]; [|done].
  intros [= Hrun] Hfree Hfile Hq.
  apply scrape_loop_frame in Hrun as [Hqs _].
  destruct (Hqs var Hq) as [Hnil|[_ Hnin]]; [by apply elem_of_nil in Hnil|].
  apply Hnin. by eapply scan_finds_file.
Qed.

Lemma cached_variable_is_not_queried_witness :
  ∃ w oe,
    fetch_phase example_census no_fault outside example_catalog
      ["B01001_001E"; "B01001_002E"] 2021
      [("B01001_002E--2021.feather", Feather (record_set ["01"] "Male" 3))] = Ok (w, oe) ∧
    "B01001_002E" ∉ queried w.
Proof.
  eexists _, _. split; [vm_compute; reflexivity|].
  eapply (cached_variable_is_not_queried example_census no_fault outside example_catalog
            ["B01001_001E"; "B01001_002E"] 2021
            [("B01001_002E--2021.feather", Feather (record_set ["01"] "Male" 3))]).
  - vm_compute. reflexivity.
  - reflexivity.
  - reflexivity.
Defined.

(** X12: the cache directory is the checkpoint.  After a fetch phase, with
    identifiers that the file naming can carry and that hold no path
    separator, a second fetch phase over the directory the first one left
    also runs; whatever the remote source, the disk and the catalog then
    do, it issues queries only for variables of the list that have no file
    yet, and changes no file that is there.  A file that a failed write of
    the first phase has left cut short is such a file: its variable is not
    queried again. *)
Theorem second_run_resumes (acs5_get acs5_get' : string → Z → outcome (list dict))
    (write_fault write_fault' : string → DataFrame → option fault)
    (lands lands' : string → option string) (acs_vars acs_vars' : list acs_var)
    (var_names : list string) (year : Z) (entries : directory)
    (w1 : world) (oe1 : option exn) :
  fetch_phase acs5_get write_fault lands acs_vars var_names year entries = Ok (w1, oe1) →
  Forall (λ v, plain v = true) var_names →
  ∃ w2 oe2,
    fetch_phase acs5_get' write_fault' lands' acs_vars' var_names year (temp_dir w1)
      = Ok (w2, oe2) ∧
    (∀ q, q ∈ queried w2 →
       q ∈ var_names ∧ file_at (cache_name q year) (temp_dir w1) = None) ∧
    (∀ name f, file_at name (temp_dir w1) = Some f → file_at name (temp_dir w2) = Some f).
Proof.
  unfold fetch_phase at 1.
  destruct (get_completed_vars (Some entries) year) as [completed|] eqn:Hscan;
    cbn [obind]; [|done].
  intros [= Hrun] Hplain.
  pose proof (get_completed_vars_ok _ _ _ Hscan) as Hall. rewrite Forall_forall in Hall.
  assert (Hslash : Forall (λ v, Py.contains "/" v = false) var_names).
  { eapply Forall_impl; [exact Hplain|]. by intros v [_ ?]%plain_spec. }
  pose proof (loop_file_names _ _ _ _ _ _ _ _ _ _ _ Hrun Hslash) as Hnames.
  cbn [temp_dir] in Hnames.
  destruct (fetch_phase_frame acs5_get' write_fault' lands' acs_vars'
              var_names year (temp_dir w1) Hplain) as (w2 & oe2 & Hrun2 & Hq & Hf).
  - apply Forall_forall. intros e He.
    destruct (Hnames e.1) as [(e0 & -> & He0)%list_elem_of_fmap|(v & Hv & ->)].
    + by apply list_elem_of_fmap_2.
    + by apply Hall.
    + rewrite Forall_forall in Hplain. unfold is_cache_name.
      by rewrite parse_cache_name_cache_name by (by apply plain_spec, Hplain).
  - by exists w2, oe2.
Qed.

Lemma second_run_resumes_witness :
  ∃ w1 oe1 w2 oe2,
    fetch_phase example_census no_fault outside example_catalog
      ["B01001_001E"; "B01001_002E"] 2021 [] = Ok (w1, oe1) ∧
    fetch_phase generous_census full_disk outside example_catalog
      ["B01001_001E"; "B01001_002E"] 2021 (temp_dir w1) = Ok (w2, oe2) ∧
    (∀ q, q ∈ queried w2 →
       q ∈ ["B01001_001E"; "B01001_002E"] ∧
       file_at (cache_name q 2021) (temp_dir w1) = None) ∧
    (∀ name f, file_at name (temp_dir w1) = Some f → file_at name (temp_dir w2) = Some f).
Proof.
  eexists _, _.
  destruct (second_run_resumes example_census generous_census no_fault full_disk
              outside outside example_catalog example_catalog
              ["B01001_001E"; "B01001_002E"] 2021 []
              (scrape_loop example_census no_fault outside example_catalog 2021 ∅ 0
                 ["B01001_001E"; "B01001_002E"] (mkWorld [] [] [])).1
              (scrape_loop example_census no_fault outside example_catalog 2021 ∅ 0
                 ["B01001_001E"; "B01001_002E"] (mkWorld [] [] [])).2)
    as (w2 & oe2 & Hrun & Hq & Hf).
  - vm_compute. reflexivity.
  - repeat constructor.
  - exists w2, oe2. split; [vm_compute; reflexivity|]. split; [exact Hrun|].
    split; [exact Hq | exact Hf].
Defined.

(** * The long merge on record sets *)

(** [d["state"].astype(str) + d[GEOGRAPHY].astype(str)] *)
Definition unique_ids (d : DataFrame) : list cell :=
  match Pd.getitem d "state", Pd.getitem d GEOGRAPHY with
  | Ok st, Ok geo => Pd.str_add st geo
  | _, _ => []
  end.

(** The row of the long table that one row of a record set becomes. *)
Definition long_row (variable_name : string) (r : list cell) : list cell :=
  match r with
  | [st; geo; _; _; value] =>
      [value; CStr (Pd.cell_str st +:+ Pd.cell_str geo); CStr variable_name]
  | _ => []
  end.

Lemma zip_with_map_r {A B C} (f : A → B → C) (g : A → B) (l : list A) :
  zip_with f l (map g l) = map (λ x, f x (g x)) l.
Proof. induction l as [|x l IH]; simpl; [done | by rewrite IH]. Qed.

Lemma zip_with_map_map {A B C D} (f : B → C → D) (g : A → B) (h : A → C) (l : list A) :
  zip_with f (map g l) (map h l) = map (λ x, f (g x) (h x)) l.
Proof. induction l as [|x l IH]; simpl; [done | by rewrite IH]. Qed.

Lemma zip_with_replicate_r {A B C} (f : A → B → C) (v : B) (l : list A) :
  zip_with f l (replicate (length l) v) = map (λ x, f x v) l.
Proof. induction l as [|x l IH]; simpl; [done | by rewrite IH]. Qed.

Lemma map_ext_Forall' {A B} (P : A → Prop) (f g : A → B) (l : list A) :
  Forall P l → (∀ x, P x → f x = g x) → map f l = map g l.
Proof. intros H Hfg. induction H as [|x l Hx _ IH]; simpl; [done|]. by rewrite Hfg, IH. Qed.

Lemma long_table_record_set (variable_name : string) (rws : list (list cell)) :
  Forall (λ r, length r = 5%nat) rws →
  long_table variable_name (mkFrame record_columns rws)
  = Ok (mkFrame ["value"; "unique_id"; "variable"] (map (long_row variable_name) rws)).
Proof.
  intros Hr. unfold long_table.
  change (Pd.getitem (mkFrame record_columns rws) "state")
    with (Ok (map (λ r, default Pd.NaN (Pd.row_get record_columns "state" r)) rws)).
  change (Pd.getitem (mkFrame record_columns rws) GEOGRAPHY)
    with (Ok (map (λ r, default Pd.NaN (Pd.row_get record_columns GEOGRAPHY r)) rws)).
  cbn [obind]. unfold Pd.str_add. rewrite zip_with_map_map.
  change (Pd.setitem (mkFrame record_columns rws) "unique_id" ?ids)
    with (mkFrame (record_columns ++ ["unique_id"]) (zip_with (λ row x, row ++ [x]) rws ids)).
  rewrite zip_with_map_r.
  change (Pd.drop (mkFrame (record_columns ++ ["unique_id"]) ?rr) redundant)
    with (Ok (mkFrame ["value"; "unique_id"]
                (map (Pd.row_filter (λ c, bool_decide (c ∉ redundant))
                        (record_columns ++ ["unique_id"])) rr))).
  cbn [obind]. rewrite map_map.
  change (Pd.setitem_scalar (mkFrame ["value"; "unique_id"] ?rr) "variable" ?tag)
    with (mkFrame ["value"; "unique_id"; "variable"]
            (zip_with (λ row x, row ++ [x]) rr (replicate (length rr) tag))).
  rewrite zip_with_replicate_r, map_map. do 2 f_equal.
  apply (map_ext_Forall' _ _ _ _ Hr).
  intros [|st [|geo [|yr [|de [|v [|]]]]]]; try done.
Qed.

(** The rows one cache file contributes to the long table. *)
Definition long_rows (e : string * file) : list (list cell) :=
  match e.2 with
  | Feather d => map (long_row (variable_of e.1)) (rows d)
  | Unreadable => []
  end.

Definition long_columns : list string := ["value"; "unique_id"; "variable"].

Lemma long_loop_record_sets (entries : directory) (total : list DataFrame)
    (variables : list string) :
  Forall (λ e, is_cached e.2 = true) entries →
  long_loop entries total variables
  = Ok (total ++ map (λ e, mkFrame long_columns (long_rows e)) entries,
        variables ++ map (λ e, variable_of e.1) entries).
Proof.
  intros H. revert total variables.
  induction H as [|[n f] l H _ IH]; intros total variables.
  - simpl. by rewrite !app_nil_r.
  - destruct f as [d|]; [|done]. cbn [snd is_cached] in H.
    apply is_record_set_inv in H as (rws & -> & Hr).
    cbn [long_loop read_feather obind].
    rewrite long_table_record_set by done. cbn [obind].
    rewrite IH. cbn [map fst snd long_rows rows]. by rewrite <- !app_assoc.
Qed.

Lemma flat_map_map {A B C} (f : B → list C) (g : A → B) (l : list A) :
  flat_map f (map g l) = flat_map (λ x, f (g x)) l.
Proof. induction l as [|x l IH]; simpl; [done | by rewrite IH]. Qed.

Lemma map_flat_map {A B C} (f : B → C) (g : A → list B) (l : list A) :
  map f (flat_map g l) = flat_map (λ x, map f (g x)) l.
Proof. induction l as [|x l IH]; simpl; [done | by rewrite map_app, IH]. Qed.

Lemma length_flat_map {A B} (g : A → list B) (l : list A) :
  length (flat_map g l) = sum_list (map (λ x, length (g x)) l).
Proof. induction l as [|x l IH]; simpl; [done | by rewrite length_app, IH]. Qed.

Lemma flat_map_ext_Forall {A B} (P : A → Prop) (f g : A → list B) (l : list A) :
  Forall P l → (∀ x, P x → f x = g x) → flat_map f l = flat_map g l.
Proof. intros H Hfg. induction H as [|x l Hx _ IH]; simpl; [done|]. by rewrite Hfg, IH. Qed.

Lemma unique_ids_record_set (rws : list (list cell)) :
  Forall (λ r, length r = 5%nat) rws →
  unique_ids (mkFrame record_columns rws) = map row_uid rws.
Proof.
  intros Hr. unfold unique_ids.
  change (Pd.getitem (mkFrame record_columns rws) "state")
    with (Ok (map (λ r, default Pd.NaN (Pd.row_get record_columns "state" r)) rws)).
  change (Pd.getitem (mkFrame record_columns rws) GEOGRAPHY)
    with (Ok (map (λ r, default Pd.NaN (Pd.row_get record_columns GEOGRAPHY r)) rws)).
  unfold Pd.str_add. rewrite zip_with_map_map.
  apply (map_ext_Forall' _ _ _ _ Hr).
  intros [|st [|geo [|yr [|de [|val [|]]]]]]; done.
Qed.

Definition entry_rows (e : string * file) : list (list cell) :=
  match e.2 with
  | Feather d => rows d
  | Unreadable => []
  end.

Definition entry_ids (e : string * file) : list cell :=
  match e.2 with
  | Feather d => unique_ids d
  | Unreadable => []
  end.

Definition entry_values (e : string * file) : list cell := map row_value (entry_rows e).

(** The row of the stacked table that a row of a long table becomes when
    the column [value] takes the dtype [t]. *)
Definition cast_value (t : Pd.dtype) (r : list cell) : list cell :=
  match r with
  | v :: r' => Pd.astype t v :: r'
  | [] => []
  end.

(** The dtype the column [value] takes in the long table. *)
Definition long_dtype (entries : directory) : Pd.dtype :=
  Pd.concat_dtype false (map entry_values entries).

Lemma long_rows_length (e : string * file) : length (long_rows e) = nrows e.2.
Proof. destruct e as [n [d|]]; simpl; [|done]. unfold long_rows. simpl. by rewrite length_map. Qed.

Lemma long_row_cells (v : string) (r : list cell) :
  length r = 5%nat → long_row v r = [row_value r; row_uid r; CStr v].
Proof. by destruct r as [|st [|geo [|yr [|de [|val [|]]]]]]. Qed.

Lemma long_rows_cells (e : string * file) :
  is_cached e.2 = true →
  long_rows e = map (λ r, [row_value r; row_uid r; CStr (variable_of e.1)]) (entry_rows e).
Proof.
  destruct e as [n [d|]]; simpl; [|done].
  intros (rws & -> & Hr)%is_record_set_inv. unfold long_rows, entry_rows. cbn [snd fst rows].
  apply (map_ext_Forall' _ _ _ _ Hr). intros r. apply long_row_cells.
Qed.

Lemma entry_ids_record_set (e : string * file) :
  is_cached e.2 = true → entry_ids e = map row_uid (entry_rows e).
Proof.
  destruct e as [n [d|]]; simpl; [|done].
  intros (rws & -> & Hr)%is_record_set_inv. unfold entry_ids, entry_rows. cbn [snd rows].
  by apply unique_ids_record_set.
Qed.

Lemma astype_str (t : Pd.dtype) (s : string) : Pd.astype t (CStr s) = CStr s.
Proof. by destruct t. Qed.

Lemma astype_row_uid (t : Pd.dtype) (r : list cell) : Pd.astype t (row_uid r) = row_uid r.
Proof. destruct t; [done| |done]. by destruct r as [|st [|geo r]]. Qed.

(** The stacking of long tables: the two columns of text stay as they are
    under any dtype, the column [value] is cast. *)
Lemma stack_long_tables (entries : directory) :
  Forall (λ e, is_cached e.2 = true) entries →
  Pd.stack [] 3 (map long_rows entries)
  = flat_map (λ e, map (cast_value (long_dtype entries)) (long_rows e)) entries.
Proof.
  intros Hall. unfold Pd.stack. cbn [seq map nth].
  assert (Hcol : map (Pd.column_at 0) (map long_rows entries) = map entry_values entries).
  { rewrite map_map. apply (map_ext_Forall' _ _ _ _ Hall). intros e He.
    rewrite long_rows_cells by done. unfold Pd.column_at, entry_values.
    rewrite map_map. by apply map_ext. }
  rewrite Hcol. fold (long_dtype entries). rewrite flat_map_map.
  apply (flat_map_ext_Forall _ _ _ _ Hall). intros e He.
  rewrite long_rows_cells by done. rewrite !map_map. apply map_ext. intros r.
  cbn [zip_with cast_value]. by rewrite astype_row_uid, astype_str.
Qed.

(** The long merge of a directory of record sets, in full. *)
Lemma long_merge_record_sets (entries : directory) :
  entries ≠ [] →
  Forall (λ e, is_cached e.2 = true) entries →
  concatenate_variables_long (Some entries)
  = Ok (mkFrame long_columns
          (flat_map (λ e, map (cast_value (long_dtype entries)) (long_rows e)) entries),
        map (λ e, variable_of e.1) entries).
Proof.
  intros Hne Hall. unfold concatenate_variables_long. cbn [os_listdir obind].
  rewrite long_loop_record_sets by done. cbn [obind app].
  destruct entries as [|e l]; [done|].
  unfold Pd.concat. change (map ?F (e :: l)) with (F e :: map F l) at 1.
  cbv iota. cbn [columns].
  assert (forallb (λ g, bool_decide (columns g = long_columns))
            (map (λ e0, mkFrame long_columns (long_rows e0)) (e :: l)) = true) as ->.
  { apply forallb_forall. intros g (x & <- & _)%in_map_iff. by apply bool_decide_eq_true. }
  cbn [obind]. rewrite map_map. cbn [rows].
  change (length long_columns) with 3%nat.
  by rewrite <- (stack_long_tables (e :: l) Hall).
Qed.

(** The three columns of the long table. *)
Lemma long_table_columns (t : Pd.dtype) (entries : directory) :
  Forall (λ e, is_cached e.2 = true) entries →
  let total :=
    mkFrame long_columns (flat_map (λ e, map (cast_value t) (long_rows e)) entries) in
  Pd.getitem total "value" = Ok (map (Pd.astype t) (flat_map entry_values entries)) ∧
  Pd.getitem total "unique_id" = Ok (flat_map entry_ids entries) ∧
  Pd.getitem total "variable"
    = Ok (flat_map (λ e, replicate (nrows e.2) (CStr (variable_of e.1))) entries).
Proof.
  intros Hall total. unfold total.
  change (Pd.getitem (mkFrame long_columns ?rr) "value")
    with (Ok (map (λ r, default Pd.NaN (Pd.row_get long_columns "value" r)) rr)).
  change (Pd.getitem (mkFrame long_columns ?rr) "unique_id")
    with (Ok (map (λ r, default Pd.NaN (Pd.row_get long_columns "unique_id" r)) rr)).
  change (Pd.getitem (mkFrame long_columns ?rr) "variable")
    with (Ok (map (λ r, default Pd.NaN (Pd.row_get long_columns "variable" r)) rr)).
  rewrite !map_flat_map.
  repeat split; f_equal; apply (flat_map_ext_Forall _ _ _ _ Hall); intros e He;
    rewrite long_rows_cells by done; rewrite ?entry_ids_record_set by done;
    unfold entry_values; rewrite !map_map.
  - by apply map_ext.
  - by apply map_ext.
  - destruct e as [n [d|]]; [|done]. unfold entry_rows. cbn [snd fst nrows].
    induction (rows d) as [|r rws IH]; [done|]. cbn [map length replicate]. by rewrite IH.
Qed.

Lemma long_rows_total_length (t : Pd.dtype) (entries : directory) :
  length (flat_map (λ e, map (cast_value t) (long_rows e)) entries)
  = sum_list (map (λ e, nrows e.2) entries).
Proof.
  rewrite length_flat_map. f_equal. apply map_ext. intros e.
  by rewrite length_map, long_rows_length.
Qed.

Lemma map_astype (t : Pd.dtype) (cells : list cell) :
  map (Pd.astype t) cells = cells ∨ map (Pd.astype t) cells = map Pd.to_float64 cells.
Proof. destruct t; cbn [Pd.astype]; rewrite ?map_id; auto. Qed.

(** ** C5 *)

(** C5: for a cache directory that is not empty and holds record sets as
    the cache writer stores them, the long merge returns the tables of the
    files one after the other, in the order of the directory:
    - the table has the three columns [value], [unique_id], [variable], and
      so no column [state], [GEOGRAPHY], [year] or [descr];
    - no row is dropped or merged with another: the number of rows is the
      sum of the numbers of rows of the files;
    - the [variable] of every row is the variable derived from the name of
      the file the row comes from, and its [unique_id] is the one of the
      row in that file;
    - the column [value] holds the values of the files, in order; the
      column has one dtype, so that either every value stands as it is in
      its file, or every value is cast to [float64] (integers stacked with
      floats become floats). *)
Theorem long_merge_is_concatenation (entries : directory) :
  entries ≠ [] →
  Forall (λ e, is_cached e.2 = true) entries →
  ∃ total values,
    concatenate_variables_long (Some entries)
      = Ok (total, map (λ e, variable_of e.1) entries) ∧
    columns total = ["value"; "unique_id"; "variable"] ∧
    (∀ l, l ∈ redundant → l ∉ columns total) ∧
    length (rows total) = sum_list (map (λ e, nrows e.2) entries) ∧
    Pd.getitem total "variable"
      = Ok (flat_map (λ e, replicate (nrows e.2) (CStr (variable_of e.1))) entries) ∧
    Pd.getitem total "unique_id" = Ok (flat_map entry_ids entries) ∧
    Pd.getitem total "value" = Ok values ∧
    (values = flat_map entry_values entries ∨
     values = map Pd.to_float64 (flat_map entry_values entries)).
Proof.
  intros Hne Hall.
  destruct (long_table_columns (long_dtype entries) entries Hall) as (Hval & Hid & Hvar).
  eexists _, _. split; [by apply long_merge_record_sets|].
  split; [done|]. split; [|split; [|split; [|split; [|split]]]].
  - cbn [columns]. intros l Hl Hin. unfold redundant, long_columns in Hl, Hin.
    apply list_elem_of_In in Hl, Hin. cbn [In] in Hl, Hin.
    destruct Hin as [<-|[<-|[<-|[]]]]; destruct Hl as [?|[?|[?|[?|[]]]]]; discriminate.
  - cbn [rows]. apply long_rows_total_length.
  - exact Hvar.
  - exact Hid.
  - exact Hval.
  - apply map_astype.
Qed.

Lemma long_merge_is_concatenation_witness :
  let entries :=
    [("V1--2021.feather", Feather (record_set ["01"; "02"; "03"; "04"; "05"] "total" 5));
     ("V2--2021.feather", Feather (record_set ["01"; "02"; "03"] "male" 7))] in
  ∃ total,
    concatenate_variables_long (Some entries) = Ok (total, ["V1"; "V2"]) ∧
    length (rows total) = 8%nat ∧
    Pd.getitem total "variable"
      = Ok (replicate 5 (CStr "V1") ++ replicate 3 (CStr "V2")) ∧
    Pd.getitem total "value" = Ok (replicate 5 (CInt 5) ++ replicate 3 (CInt 7)).
Proof.
  intros entries.
  destruct (long_merge_is_concatenation entries)
    as (total & values & Hrun & _ & _ & Hlen & Hvar & _ & Hval & Hsame).
  - done.
  - repeat constructor.
  - exists total. split; [exact Hrun|]. split; [exact Hlen|]. split; [exact Hvar|].
    rewrite Hval. f_equal.
    pose proof Hrun as Htotal. vm_compute in Htotal. injection Htotal as <-.
    vm_compute in Hval. by injection Hval as <-.
Defined.

(** * Further properties of the long merge *)

Lemma forallb_perm {A} (f : A → bool) (l l' : list A) :
  l ≡ₚ l' → forallb f l = forallb f l'.
Proof.
  induction 1 as [|x l l' _ IH|x y l|l l' l'' _ IH1 _ IH2]; cbn [forallb].
  - done.
  - by rewrite IH.
  - by destruct (f x), (f y).
  - congruence.
Qed.

Lemma forallb_ext' {A} (f g : A → bool) (l : list A) :
  (∀ x, f x = g x) → forallb f l = forallb g l.
Proof. intros H. induction l as [|x l IH]; cbn [forallb]; [done | by rewrite H, IH]. Qed.

(** The dtype of a stacked column does not depend on the order of the
    frames. *)
Lemma concat_dtype_perm (missing : bool) (pieces pieces' : list (list cell)) :
  pieces ≡ₚ pieces' → Pd.concat_dtype missing pieces = Pd.concat_dtype missing pieces'.
Proof.
  intros Hp. unfold Pd.concat_dtype.
  assert (Hf : filter (λ p, p ≠ []) pieces ≡ₚ filter (λ p, p ≠ []) pieces') by (by rewrite Hp).
  revert Hf. generalize (filter (λ p, p ≠ []) pieces) (filter (λ p, p ≠ []) pieces').
  clear pieces pieces' Hp. intros ps ps' Hp.
  assert (Hts : map Pd.dtype_of ps ≡ₚ map Pd.dtype_of ps') by (by apply fmap_Permutation).
  assert (Hc : Pd.common_type (map Pd.dtype_of ps) = Pd.common_type (map Pd.dtype_of ps')).
  { unfold Pd.common_type. by rewrite !(forallb_perm _ _ _ Hts). }
  assert (Ha : Pd.all_equal (map Pd.dtype_of ps) = Pd.all_equal (map Pd.dtype_of ps')).
  { unfold Pd.all_equal. rewrite (forallb_perm _ _ _ Hts). apply forallb_ext'.
    intros t. apply forallb_perm, Hts. }
  assert (Hn : forallb (forallb Pd.isna) ps = forallb (forallb Pd.isna) ps')
    by (by apply forallb_perm).
  assert (Hpres : Pd.common_type
                    (map Pd.dtype_of (filter (λ p, forallb Pd.isna p = false) ps))
                  = Pd.common_type
                      (map Pd.dtype_of (filter (λ p, forallb Pd.isna p = false) ps'))).
  { unfold Pd.common_type.
    assert (map Pd.dtype_of (filter (λ p, forallb Pd.isna p = false) ps)
            ≡ₚ map Pd.dtype_of (filter (λ p, forallb Pd.isna p = false) ps')) as Hq
      by (apply fmap_Permutation; by rewrite Hp).
    by rewrite !(forallb_perm _ _ _ Hq). }
  rewrite Ha, Hc, Hn. destruct (forallb (forallb Pd.isna) ps'); [by rewrite Hc|].
  by rewrite Hpres.
Qed.

(** X13: the order in which [os.listdir] yields the files only orders the
    long table: listed in another order, the same files give the same
    columns, the same rows up to their order, and the same variables up to
    their order. *)
Theorem long_merge_up_to_listing_order (entries entries' : directory) :
  entries ≡ₚ entries' →
  entries ≠ [] →
  Forall (λ e, is_cached e.2 = true) entries →
  ∃ total total' variables variables',
    concatenate_variables_long (Some entries) = Ok (total, variables) ∧
    concatenate_variables_long (Some entries') = Ok (total', variables') ∧
    columns total = columns total' ∧
    rows total ≡ₚ rows total' ∧
    variables ≡ₚ variables'.
Proof.
  intros Hp Hne Hall.
  assert (entries' ≠ []) as Hne'.
  { intros ->. by apply Permutation_nil_r in Hp. }
  assert (Forall (λ e, is_cached e.2 = true) entries') as Hall' by (by rewrite <- Hp).
  do 4 eexists. split; [by apply long_merge_record_sets|].
  split; [by apply long_merge_record_sets|]. cbn [columns rows].
  split; [done|]. split.
  - assert (long_dtype entries = long_dtype entries') as ->.
    { apply concat_dtype_perm. by apply fmap_Permutation. }
    by apply Permutation_flat_map.
  - by apply fmap_Permutation.
Qed.

Lemma long_merge_up_to_listing_order_witness :
  let e1 := ("V1--2021.feather", Feather (record_set ["01"; "02"] "total" 5)) in
  let e2 := ("V2--2021.feather", Feather (record_set ["02"] "male" 7)) in
  ∃ total total' variables variables',
    concatenate_variables_long (Some [e1; e2]) = Ok (total, variables) ∧
    concatenate_variables_long (Some [e2; e1]) = Ok (total', variables') ∧
    columns total = columns total' ∧
    rows total ≡ₚ rows total' ∧
    variables ≡ₚ variables'.
Proof.
  intros e1 e2. apply (long_merge_up_to_listing_order [e1; e2] [e2; e1]).
  - apply perm_swap.
  - done.
  - repeat constructor.
Defined.

(** Closes a goal whose hypothesis [H] puts a label in a list of labels
    that are all known to differ from it. *)
Ltac label_not_in H :=
  apply list_elem_of_In in H; unfold redundant, GEOGRAPHY in *; cbn [In app] in H;
  intuition (subst; try discriminate; congruence).

Lemma filter_eq_nil (l : string) (cols : list string) :
  l ∉ cols → filter (λ c, c = l) cols = [].
Proof.
  induction cols as [|c cols IH]; [done|]. intros [Hne Hnin]%not_elem_of_cons.
  rewrite filter_cons_False by congruence. by apply IH.
Qed.

Lemma count_absent (l : string) (cols : list string) : l ∉ cols → Pd.count l cols = 0%nat.
Proof. intros H. unfold Pd.count. by rewrite filter_eq_nil. Qed.

Lemma count_NoDup (l : string) (cols : list string) :
  NoDup cols → l ∈ cols → Pd.count l cols = 1%nat.
Proof.
  unfold Pd.count. induction 1 as [|c cols Hc Hnd IH]; [by intros ?%elem_of_nil|].
  intros [->|Hin]%elem_of_cons.
  - rewrite filter_cons_True, filter_eq_nil by done. done.
  - rewrite filter_cons_False by (intros ->; done). by apply IH.
Qed.

(** X14: a file whose frame lacks one of the columns [state], [GEOGRAPHY],
    [year], [descr] stops the long merge at its turn with [KeyError]; here
    it is the first file listed. *)
Theorem long_merge_needs_bookkeeping_columns (n : string) (d : DataFrame)
    (rest : directory) (l : string) :
  NoDup (columns d) →
  l ∈ redundant → l ∉ columns d →
  concatenate_variables_long (Some ((n, Feather d) :: rest)) = Raise KeyError.
Proof.
  intros Hnd Hl Hmiss.
  assert (long_table (variable_of n) d = Raise KeyError) as Ht.
  { unfold long_table, Pd.getitem.
    destruct (decide ("state" ∈ columns d)) as [Hst|Hst];
      [rewrite (count_NoDup _ _ Hnd Hst) | by rewrite (count_absent _ _ Hst)].
    cbn [obind].
    destruct (decide (GEOGRAPHY ∈ columns d)) as [Hg|Hg];
      [rewrite (count_NoDup _ _ Hnd Hg) | by rewrite (count_absent _ _ Hg)].
    cbn [obind]. unfold Pd.drop.
    assert (forallb (λ l0, bool_decide (l0 ∈ columns
              (Pd.setitem d "unique_id"
                 (Pd.str_add
                    (map (λ r, default Pd.NaN (Pd.row_get (columns d) "state" r)) (rows d))
                    (map (λ r, default Pd.NaN (Pd.row_get (columns d) GEOGRAPHY r)) (rows d))))))
              redundant = false) as ->; [|done].
    apply not_true_is_false. intros Hall. rewrite forallb_forall in Hall.
    assert (Hin : l ∈ columns
              (Pd.setitem d "unique_id"
                 (Pd.str_add
                    (map (λ r, default Pd.NaN (Pd.row_get (columns d) "state" r)) (rows d))
                    (map (λ r, default Pd.NaN (Pd.row_get (columns d) GEOGRAPHY r)) (rows d))))).
    { eapply bool_decide_eq_true_1, Hall. by apply list_elem_of_In. }
    unfold Pd.setitem in Hin. destruct (decide _); cbn [columns] in Hin; [done|].
    apply elem_of_app in Hin as [?|Hin]; [done|].
    apply list_elem_of_singleton in Hin as ->. label_not_in Hl. }
  unfold concatenate_variables_long. cbn [os_listdir obind long_loop read_feather].
  by rewrite Ht.
Qed.

Lemma long_merge_needs_bookkeeping_columns_witness :
  concatenate_variables_long
    (Some [("V1--2021.feather",
            Feather (mkFrame ["state"; GEOGRAPHY; "value"] [[CStr "1"; CStr "01"; CInt 5]]));
           ("V2--2021.feather", Feather (record_set ["02"] "male" 7))])
  = Raise KeyError.
Proof.
  apply (long_merge_needs_bookkeeping_columns "V1--2021.feather"
           (mkFrame ["state"; GEOGRAPHY; "value"] [[CStr "1"; CStr "01"; CInt 5]])
           [("V2--2021.feather", Feather (record_set ["02"] "male" 7))] "year");
    compute_done.
Defined.

(** * The wide merge on record sets *)

(** Labels a variable must not bear for its column to stand apart from the
    columns of a record set and from the join key. *)
Definition reserved : list string := ["state"; GEOGRAPHY; "year"; "descr"; "unique_id"].

(** The row of the wide table that one row of a record set becomes, and the
    row of the seed for the first file. *)
Definition wide_row (r : list cell) : list cell := [row_value r; row_uid r].
Definition seed_row (r : list cell) : list cell := [row_uid r; row_value r].

(** The rows of a record set that bear the key [k]. *)
Definition with_key (k : cell) (rws : list (list cell)) : list (list cell) :=
  filter (λ r, row_uid r = k) rws.

(** The dtype the values of a record set take when it is joined to a table
    with rows [trows]: integers become floats as soon as a key of the table
    is not found in the record set. *)
Definition join_dtype (trows rws : list (list cell)) : Pd.dtype :=
  if existsb (λ lr, bool_decide (with_key (hd Pd.NaN lr) rws = [])) trows
     && bool_decide (Pd.dtype_of (map row_value rws) = Pd.int64)
  then Pd.float64 else Pd.object.

(** The cells a left join appends to a row with key [k]: the values of the
    rows of the record set with that key, or one missing value. *)
Definition joined (t : Pd.dtype) (k : cell) (rws : list (list cell)) : list cell :=
  match with_key k rws with
  | [] => [Pd.NaN]
  | ms => map (λ r, Pd.astype t (row_value r)) ms
  end.

Definition left_join (trows rws : list (list cell)) : list (list cell) :=
  flat_map (λ lr, map (λ x, lr ++ [x]) (joined (join_dtype trows rws) (hd Pd.NaN lr) rws))
           trows.

Lemma not_reserved (v : string) :
  v ∉ reserved →
  v ≠ "state" ∧ v ≠ GEOGRAPHY ∧ v ≠ "year" ∧ v ≠ "descr" ∧ v ≠ "unique_id".
Proof.
  intros H. repeat split; intros ->; apply H; apply list_elem_of_In; cbn; tauto.
Qed.

Lemma wide_table_record_set (v : string) (rws : list (list cell)) :
  v ∉ reserved →
  Forall (λ r, length r = 5%nat) rws →
  wide_table v (mkFrame record_columns rws)
  = Ok (mkFrame [v; "unique_id"] (map wide_row rws)).
Proof.
  intros (H1 & H2 & H3 & H4 & H5)%not_reserved Hr. unfold wide_table.
  change (Pd.rename (mkFrame record_columns rws) "value" v)
    with (mkFrame (["state"; GEOGRAPHY; "year"; "descr"] ++ [v]) rws).
  unfold Pd.getitem, Pd.count. cbn [columns rows].
  rewrite !filter_app, !(filter_eq_nil _ [v])
    by (apply not_elem_of_cons; split; [congruence | apply not_elem_of_nil]).
  change (length (filter (λ c, c = "state") ["state"; GEOGRAPHY; "year"; "descr"] ++ []))
    with 1%nat.
  change (length (filter (λ c, c = GEOGRAPHY) ["state"; GEOGRAPHY; "year"; "descr"] ++ []))
    with 1%nat.
  cbn [obind]. unfold Pd.str_add. rewrite zip_with_map_map.
  unfold Pd.setitem. cbn [columns rows].
  rewrite decide_False.
  2:{ intros Hin. label_not_in Hin. }
  rewrite zip_with_map_r. unfold Pd.drop. cbn [columns rows].
  change (forallb _ redundant) with true. cbv iota.
  rewrite <- !app_assoc, !filter_app.
  rewrite (filter_cons_True _ v).
  2:{ intros Hin. label_not_in Hin. }
  change (filter (λ c, c ∉ redundant) ["state"; GEOGRAPHY; "year"; "descr"]) with (@nil string).
  change (filter (λ c, c ∉ redundant) []) with (@nil string).
  change (filter (λ c, c ∉ redundant) ["unique_id"]) with ["unique_id"].
  cbn [app]. rewrite map_map. do 2 f_equal.
  apply (map_ext_Forall' _ _ _ _ Hr).
  intros [|st [|geo [|yr [|de [|val [|]]]]]]; try done. intros _.
  cbn [app Pd.row_filter].
  rewrite (bool_decide_eq_true_2 (v ∉ redundant)) by (intros Hin; label_not_in Hin).
  reflexivity.
Qed.

(** [d[["unique_id", v]]] on the table of the first file. *)
Lemma select_seed (v : string) (rws : list (list cell)) :
  v ≠ "unique_id" →
  Pd.select (mkFrame [v; "unique_id"] (map wide_row rws)) ["unique_id"; v]
  = Ok (mkFrame ["unique_id"; v] (map seed_row rws)).
Proof.
  intros Hv. unfold Pd.select. cbn [columns rows forallb flat_map].
  rewrite !bool_decide_eq_true_2
    by (apply list_elem_of_In; cbn; tauto).
  cbn [andb]. rewrite (filter_cons_False _ v), (filter_cons_True _ v) by done.
  change (filter (λ c, c = "unique_id") ["unique_id"]) with ["unique_id"].
  rewrite (filter_cons_False _ "unique_id") by congruence.
  change (filter (λ c, c = v) []) with (@nil string).
  cbn [app]. rewrite map_map. do 2 f_equal. apply map_ext. intros r.
  unfold wide_row, seed_row. cbn [Pd.row_filter].
  rewrite (bool_decide_eq_false_2 (v = "unique_id")) by done.
  rewrite (bool_decide_eq_true_2 (v = v)) by done.
  rewrite (bool_decide_eq_false_2 ("unique_id" = v)) by congruence.
  reflexivity.
Qed.

Lemma suffix_dups_same (l : list string) : Pd.suffix_dups l l = false.
Proof.
  unfold Pd.suffix_dups. generalize (Pd.duplicated l). intros bs.
  induction bs as [|b bs IH]; [done|]. cbn [zip zip_with existsb fst snd].
  rewrite IH. by destruct b.
Qed.

Lemma map_id_ext {A} (f : A → A) (l : list A) :
  (∀ x, x ∈ l → f x = x) → map f l = l.
Proof.
  induction l as [|x l IH]; intros H; [done|]. cbn [map].
  rewrite H by by left. f_equal. apply IH. intros y Hy. apply H. by right.
Qed.

Lemma filter_map {A B} (P : B → Prop) `{!∀ y, Decision (P y)} (f : A → B) (l : list A) :
  filter P (map f l) = map f (filter (λ x, P (f x)) l).
Proof.
  induction l as [|x l IH]; [done|]. cbn [map].
  destruct (decide (P (f x))) as [Hx|Hx].
  - rewrite !filter_cons_True by done. cbn [map]. by rewrite IH.
  - rewrite !filter_cons_False by done. exact IH.
Qed.

Lemma existsb_ext' {A} (f g : A → bool) (l : list A) :
  (∀ x, f x = g x) → existsb f l = existsb g l.
Proof. intros H. induction l as [|x l IH]; cbn [existsb]; [done | by rewrite H, IH]. Qed.

(** The rows of the table of a record set that a row of the wide table is
    joined to. *)
Lemma matches_record_set (cols : list string) (trows : list (list cell)) (v : string)
    (rws : list (list cell)) (lr : list cell) :
  v ≠ "unique_id" →
  Pd.matches (mkFrame ("unique_id" :: cols) trows)
             (mkFrame [v; "unique_id"] (map wide_row rws)) "unique_id" lr
  = map wide_row (with_key (hd Pd.NaN lr) rws).
Proof.
  intros Hvk. unfold Pd.matches, with_key. cbn [columns rows]. rewrite filter_map.
  f_equal. apply list_filter_iff. intros r. unfold wide_row. cbn [Pd.row_get].
  rewrite decide_False, decide_True by done. cbn [default].
  destruct lr as [|k lr]; [done|]. cbn [Pd.row_get hd]. by rewrite decide_True.
Qed.

(** The rows of a left join of the table of a record set, whatever the
    labels of the result. *)
Lemma merge_left_rows (cols : list string) (trows : list (list cell)) (v : string)
    (rws : list (list cell)) :
  v ≠ "unique_id" →
  let left := mkFrame ("unique_id" :: cols) trows in
  let right := mkFrame [v; "unique_id"] (map wide_row rws) in
  let rest r := Pd.row_filter (λ c, bool_decide (c ≠ "unique_id")) [v; "unique_id"] r in
  flat_map (λ lr,
     match Pd.matches left right "unique_id" lr with
     | [] => [lr ++ replicate 1 Pd.NaN]
     | ms =>
         map (λ rr, lr ++ zip_with Pd.astype
                            (Pd.join_dtypes
                               (existsb (λ lr, bool_decide
                                           (Pd.matches left right "unique_id" lr = [])) trows)
                               1 (map rest (map wide_row rws)))
                            (rest rr)) ms
     end) trows
  = left_join trows rws.
Proof.
  intros Hvk left right rest. unfold left_join.
  assert (Hrest : ∀ r, rest (wide_row r) = [row_value r]).
  { intros r. unfold rest, wide_row. cbn [Pd.row_filter].
    rewrite bool_decide_eq_true_2, bool_decide_eq_false_2 by auto. done. }
  assert (Hts : Pd.join_dtypes
                  (existsb (λ lr, bool_decide
                              (Pd.matches left right "unique_id" lr = [])) trows)
                  1 (map rest (map wide_row rws))
                = [join_dtype trows rws]).
  { unfold Pd.join_dtypes, join_dtype. cbn [seq map].
    assert (existsb (λ lr, bool_decide (Pd.matches left right "unique_id" lr = [])) trows
            = existsb (λ lr, bool_decide (with_key (hd Pd.NaN lr) rws = [])) trows) as ->.
    { apply existsb_ext'. intros lr. unfold left, right.
      rewrite matches_record_set by done.
      destruct (with_key (hd Pd.NaN lr) rws); reflexivity. }
    assert (Pd.column_at 0 (map rest (map wide_row rws)) = map row_value rws) as ->; [|done].
    unfold Pd.column_at. rewrite !map_map. apply map_ext. intros r. by rewrite Hrest. }
  rewrite Hts. apply flat_map_ext. intros lr. unfold left, right.
  rewrite matches_record_set by done. unfold joined.
  destruct (with_key (hd Pd.NaN lr) rws) as [|m ms]; [done|].
  cbn [map]. rewrite Hrest. cbn [zip_with]. f_equal.
  rewrite !map_map. apply map_ext. intros r. by rewrite Hrest.
Qed.

(** One turn of the wide loop after the first: the left join on the key. *)
Lemma merge_left_record_set (vs : list string) (trows : list (list cell))
    (v : string) (rws : list (list cell)) :
  "unique_id" ∉ vs → v ∉ vs → v ≠ "unique_id" →
  Pd.merge_left (mkFrame ("unique_id" :: vs) trows)
                (mkFrame [v; "unique_id"] (map wide_row rws)) "unique_id"
  = Ok (mkFrame ("unique_id" :: vs ++ [v]) (left_join trows rws)).
Proof.
  intros Hkey Hv Hvk. unfold Pd.merge_left, Pd.count. cbn [columns rows].
  rewrite (filter_cons_True _ "unique_id"), (filter_eq_nil _ vs) by done.
  rewrite (filter_cons_False _ v), (filter_cons_True _ "unique_id") by done.
  change (filter (λ c, c = "unique_id") []) with (@nil string). cbn [length].
  rewrite (filter_cons_True _ v), (filter_cons_False _ "unique_id") by auto.
  change (filter (λ c, c ≠ "unique_id") []) with (@nil string).
  rewrite (map_id_ext _ ("unique_id" :: vs)).
  2:{ intros c Hc. rewrite decide_False; [done|].
      intros ->%list_elem_of_singleton. apply elem_of_cons in Hc as [?|?]; done. }
  cbn [map]. rewrite decide_False.
  2:{ intros [?|?]%elem_of_cons; done. }
  rewrite !suffix_dups_same. cbn [orb length].
  do 2 f_equal. by apply (merge_left_rows vs trows v rws).
Qed.

(** *** The loop *)

(** The rows of the wide table once the files [entries] have been joined, in
    their order, to a table with rows [trows]. *)
Fixpoint wide_rows (entries : directory) (trows : list (list cell)) : list (list cell) :=
  match entries with
  | [] => trows
  | e :: entries' => wide_rows entries' (left_join trows (entry_rows e))
  end.

Lemma not_reserved_key (v : string) : v ∉ reserved → v ≠ "unique_id".
Proof. intros H. apply not_reserved in H. tauto. Qed.

Lemma wide_loop_record_sets (entries : directory) (vs : list string)
    (trows : list (list cell)) (variables : list string) :
  Forall (λ e, is_cached e.2 = true) entries →
  "unique_id" ∉ vs →
  NoDup (vs ++ map (λ e, variable_of e.1) entries) →
  Forall (λ e, variable_of e.1 ∉ reserved) entries →
  wide_loop entries (Some (mkFrame ("unique_id" :: vs) trows)) variables
  = Ok (Some (mkFrame ("unique_id" :: vs ++ map (λ e, variable_of e.1) entries)
                      (wide_rows entries trows)),
        variables ++ map (λ e, variable_of e.1) entries).
Proof.
  intros H. revert vs trows variables.
  induction H as [|[n f] l H _ IH]; intros vs trows variables Hkey Hnd Hres.
  - cbn [wide_loop map wide_rows]. by rewrite !app_nil_r.
  - destruct f as [d|]; [|done]. cbn [snd is_cached] in H.
    apply is_record_set_inv in H as (rws & -> & Hr).
    apply Forall_cons in Hres as [Hv Hres]. cbn [fst] in Hv.
    cbn [map fst] in Hnd |- *.
    assert (variable_of n ∉ vs) as Hnin.
    { apply NoDup_app in Hnd as (_ & Hd & _). intros Hin. apply (Hd _ Hin). by left. }
    cbn [wide_loop read_feather obind].
    rewrite wide_table_record_set by done. cbn [obind].
    rewrite merge_left_record_set; [|done|done|by apply not_reserved_key].
    cbn [obind]. rewrite IH; [| |by rewrite <- app_assoc|done].
    + cbn [wide_rows entry_rows snd rows]. by rewrite <- !app_assoc.
    + intros [?|Hin]%elem_of_app; [done|].
      apply list_elem_of_singleton in Hin. by apply not_reserved_key in Hv.
Qed.

Lemma elem_of_flat_map {A B} (f : A → list B) (l : list A) (y : B) :
  y ∈ flat_map f l ↔ ∃ x, x ∈ l ∧ y ∈ f x.
Proof.
  rewrite list_elem_of_In, in_flat_map. split.
  - intros (x & Hx & Hy). exists x. by rewrite !list_elem_of_In.
  - intros (x & Hx & Hy). exists x. by rewrite <- !list_elem_of_In.
Qed.

Lemma left_join_elem (trows rws : list (list cell)) (r : list cell) :
  r ∈ left_join trows rws ↔
  ∃ lr x, lr ∈ trows ∧ x ∈ joined (join_dtype trows rws) (hd Pd.NaN lr) rws ∧ r = lr ++ [x].
Proof.
  unfold left_join. rewrite elem_of_flat_map. split.
  - intros (lr & Hlr & (x & -> & Hx)%list_elem_of_fmap). eauto.
  - intros (lr & x & Hlr & Hx & ->). exists lr. split; [done|].
    apply list_elem_of_fmap. eauto.
Qed.

Lemma joined_inhabited (t : Pd.dtype) (k : cell) (rws : list (list cell)) :
  ∃ x, x ∈ joined t k rws.
Proof.
  unfold joined. destruct (with_key k rws) as [|m ms].
  - exists Pd.NaN. by left.
  - exists (Pd.astype t (row_value m)). by left.
Qed.

(** A key borne by a row of the record set is joined to the value of such a
    row; a key that no row bears is joined to a missing value. *)
Lemma joined_elem (t : Pd.dtype) (k x : cell) (rws : list (list cell)) :
  x ∈ joined t k rws →
  (x = Pd.NaN ∧ k ∉ map row_uid rws) ∨
  ∃ er, er ∈ rws ∧ row_uid er = k ∧ x = Pd.astype t (row_value er).
Proof.
  unfold joined, with_key. destruct (filter (λ r, row_uid r = k) rws) as [|m ms] eqn:Hf.
  - intros ->%list_elem_of_singleton. left. split; [done|].
    intros (er & -> & Her)%list_elem_of_fmap.
    assert (er ∈ filter (λ r, row_uid r = row_uid er) rws) as Hin
      by (by apply list_elem_of_filter).
    rewrite Hf in Hin. by apply elem_of_nil in Hin.
  - intros (er & -> & Her)%list_elem_of_fmap. right.
    rewrite <- Hf in Her. apply list_elem_of_filter in Her as [? ?]. eauto.
Qed.

Lemma joined_missing (t : Pd.dtype) (k : cell) (rws : list (list cell)) :
  k ∉ map row_uid rws → joined t k rws = [Pd.NaN].
Proof.
  intros Hk. unfold joined, with_key.
  destruct (filter (λ r, row_uid r = k) rws) as [|m ms] eqn:Hf; [done|].
  assert (m ∈ filter (λ r, row_uid r = k) rws) as [Hm Hin]%list_elem_of_filter
    by (rewrite Hf; by left).
  exfalso. apply Hk. apply list_elem_of_fmap. eauto.
Qed.

(** The joins only append cells: every row of the result starts with a row
    of the table the joins began with, and every such row is kept. *)
Lemma wide_rows_prefix (entries : directory) (trows : list (list cell)) (r : list cell) :
  r ∈ wide_rows entries trows → ∃ r0 ext, r0 ∈ trows ∧ r = r0 ++ ext.
Proof.
  revert trows. induction entries as [|e l IH]; intros trows Hr; cbn [wide_rows] in Hr.
  - exists r, []. by rewrite app_nil_r.
  - apply IH in Hr as (r1 & ext & (lr & x & Hlr & _ & ->)%left_join_elem & ->).
    exists lr, ([x] ++ ext). by rewrite app_assoc.
Qed.

Lemma wide_rows_extends (entries : directory) (trows : list (list cell)) (r0 : list cell) :
  r0 ∈ trows → ∃ ext, r0 ++ ext ∈ wide_rows entries trows.
Proof.
  revert trows r0. induction entries as [|e l IH]; intros trows r0 Hr; cbn [wide_rows].
  - exists []. by rewrite app_nil_r.
  - destruct (joined_inhabited (join_dtype trows (entry_rows e)) (hd Pd.NaN r0) (entry_rows e))
      as [x Hx].
    destruct (IH (left_join trows (entry_rows e)) (r0 ++ [x])) as [ext Hext].
    { apply left_join_elem. eauto. }
    exists ([x] ++ ext). by rewrite app_assoc.
Qed.

Lemma hd_app_nonempty (r ext : list cell) : r ≠ [] → hd Pd.NaN (r ++ ext) = hd Pd.NaN r.
Proof. by destruct r. Qed.

(** The keys of the wide table are the keys it began with. *)
Lemma wide_rows_keys (entries : directory) (trows : list (list cell)) (k : cell) :
  Forall (λ r, r ≠ []) trows →
  k ∈ map (hd Pd.NaN) (wide_rows entries trows) ↔ k ∈ map (hd Pd.NaN) trows.
Proof.
  intros Hne. rewrite Forall_forall in Hne. rewrite !list_elem_of_fmap. split.
  - intros (r & -> & (r0 & ext & Hr0 & ->)%wide_rows_prefix).
    exists r0. split; [|done]. apply hd_app_nonempty. by apply Hne.
  - intros (r0 & -> & Hr0).
    destruct (wide_rows_extends entries trows r0 Hr0) as [ext Hext].
    exists (r0 ++ ext). split; [|done]. symmetry. apply hd_app_nonempty. by apply Hne.
Qed.

Lemma left_join_keys (trows rws : list (list cell)) (k : cell) :
  Forall (λ r, r ≠ []) trows →
  k ∈ map (hd Pd.NaN) (left_join trows rws) ↔ k ∈ map (hd Pd.NaN) trows.
Proof. apply (wide_rows_keys [("", Feather (mkFrame [] rws))] trows k). Qed.

Lemma left_join_nonempty (trows rws : list (list cell)) :
  Forall (λ r, r ≠ []) (left_join trows rws).
Proof.
  apply Forall_forall. intros r (lr & x & _ & _ & ->)%left_join_elem. by destruct lr.
Qed.

Lemma row_get_app (cols1 cols2 : list string) (l : string) (r1 r2 : list cell) :
  l ∉ cols1 → length r1 = length cols1 →
  Pd.row_get (cols1 ++ cols2) l (r1 ++ r2) = Pd.row_get cols2 l r2.
Proof.
  revert r1. induction cols1 as [|c cols1 IH]; intros [|x r1] Hl Hlen; try done.
  apply not_elem_of_cons in Hl as [Hne Hl]. cbn [app Pd.row_get].
  rewrite decide_False by done. apply IH; [done|]. by injection Hlen.
Qed.

Lemma left_join_length (n : nat) (trows rws : list (list cell)) :
  Forall (λ r, length r = n) trows →
  Forall (λ r, length r = S n) (left_join trows rws).
Proof.
  intros H. rewrite Forall_forall in H. apply Forall_forall.
  intros r (lr & x & Hlr & _ & ->)%left_join_elem.
  rewrite length_app, (H lr Hlr). cbn. lia.
Qed.

(** The dtype of a join depends on the table through its keys only. *)
Lemma join_dtype_keys (trows trows' rws : list (list cell)) :
  (∀ k, k ∈ map (hd Pd.NaN) trows ↔ k ∈ map (hd Pd.NaN) trows') →
  join_dtype trows rws = join_dtype trows' rws.
Proof.
  intros Hk. unfold join_dtype.
  assert (existsb (λ lr, bool_decide (with_key (hd Pd.NaN lr) rws = [])) trows
          = existsb (λ lr, bool_decide (with_key (hd Pd.NaN lr) rws = [])) trows') as ->;
    [|done].
  apply eq_true_iff_eq. rewrite !existsb_exists. split.
  - intros (lr & Hlr%list_elem_of_In & Hm).
    assert (hd Pd.NaN lr ∈ map (hd Pd.NaN) trows') as (lr' & Heq & Hlr')%list_elem_of_fmap
      by (apply Hk; by apply list_elem_of_fmap_2).
    exists lr'. split; [by apply list_elem_of_In | by rewrite <- Heq].
  - intros (lr & Hlr%list_elem_of_In & Hm).
    assert (hd Pd.NaN lr ∈ map (hd Pd.NaN) trows) as (lr' & Heq & Hlr')%list_elem_of_fmap
      by (apply Hk; by apply list_elem_of_fmap_2).
    exists lr'. split; [by apply list_elem_of_In | by rewrite <- Heq].
Qed.

(** The cell of a row under the column of a later variable is one of the
    cells the join of that variable's file gives for the key of the row; the
    join is made with a table that has the keys the loop began with. *)
Lemma wide_rows_cell (entries : directory) (vs : list string)
    (trows : list (list cell)) (e : string * file) (r : list cell) :
  "unique_id" ∉ vs →
  NoDup (vs ++ map (λ e, variable_of e.1) entries) →
  Forall (λ e, variable_of e.1 ∉ reserved) entries →
  Forall (λ r, length r = S (length vs)) trows →
  e ∈ entries →
  r ∈ wide_rows entries trows →
  ∃ x trows',
    Pd.row_get ("unique_id" :: vs ++ map (λ e, variable_of e.1) entries)
      (variable_of e.1) r = Some x ∧
    (∀ k, k ∈ map (hd Pd.NaN) trows' ↔ k ∈ map (hd Pd.NaN) trows) ∧
    x ∈ joined (join_dtype trows' (entry_rows e)) (hd Pd.NaN r) (entry_rows e).
Proof.
  revert vs trows.
  induction entries as [|e0 l IH]; intros vs trows Hkey Hnd Hres Hlen He Hr.
  - by apply elem_of_nil in He.
  - apply Forall_cons in Hres as [Hv Hres]. cbn [map] in Hnd |- *.
    assert (variable_of e0.1 ∉ vs) as Hnin.
    { apply NoDup_app in Hnd as (_ & Hd & _). intros Hin. apply (Hd _ Hin). by left. }
    assert (variable_of e0.1 ≠ "unique_id") as Hvk by (by apply not_reserved_key).
    assert (Forall (λ r, r ≠ []) trows) as Hne.
    { eapply Forall_impl; [exact Hlen|]. by intros [|]. }
    cbn [wide_rows] in Hr.
    apply elem_of_cons in He as [->|He].
    + apply wide_rows_prefix in Hr as (r1 & ext & (lr & x & Hlr & Hx & ->)%left_join_elem & ->).
      rewrite Forall_forall in Hlen. pose proof (Hlen lr Hlr) as Hl.
      assert (lr ≠ []) as Hlr0 by (intros ->; done).
      exists x, trows. rewrite <- app_assoc, hd_app_nonempty by done.
      split; [|split; [done | done]].
      rewrite app_comm_cons, row_get_app; [| |done].
      * cbn [app Pd.row_get]. by rewrite decide_True.
      * by apply not_elem_of_cons.
    + replace (vs ++ variable_of e0.1 :: map (λ e, variable_of e.1) l)
        with ((vs ++ [variable_of e0.1]) ++ map (λ e, variable_of e.1) l)
        by (by rewrite <- app_assoc).
      destruct (IH (vs ++ [variable_of e0.1]) (left_join trows (entry_rows e0)))
        as (x & trows' & Hx & Hk & Hj); try done.
      * intros [?|Hin]%elem_of_app; [done|]. by apply list_elem_of_singleton in Hin.
      * by rewrite <- app_assoc.
      * rewrite length_app, Nat.add_1_r. by apply left_join_length.
      * exists x, trows'. split; [done|]. split; [|done].
        intros k. rewrite Hk. by apply left_join_keys.
Qed.

(** The wide merge of a directory of record sets, in full. *)
Lemma wide_merge_record_sets (n1 : string) (rws : list (list cell)) (rest : directory) :
  Forall (λ r, length r = 5%nat) rws →
  Forall (λ e, is_cached e.2 = true) rest →
  NoDup (variable_of n1 :: map (λ e, variable_of e.1) rest) →
  variable_of n1 ∉ reserved →
  Forall (λ e, variable_of e.1 ∉ reserved) rest →
  concatenate_variables_wide (Some ((n1, Feather (mkFrame record_columns rws)) :: rest))
  = Ok (Some (mkFrame ("unique_id" :: [variable_of n1] ++ map (λ e, variable_of e.1) rest)
                      (wide_rows rest (map seed_row rws))),
        [variable_of n1] ++ map (λ e, variable_of e.1) rest).
Proof.
  intros Hr Hc Hnd Hv1 Hres.
  unfold concatenate_variables_wide. cbn [os_listdir obind wide_loop read_feather].
  rewrite wide_table_record_set by done. cbn [obind].
  rewrite select_seed by (by apply not_reserved_key). cbn [obind].
  rewrite (wide_loop_record_sets rest [variable_of n1]); try done.
  intros Hin%list_elem_of_singleton. by apply not_reserved_key in Hv1.
Qed.

Lemma getitem_key (cols : list string) (trows : list (list cell)) :
  "unique_id" ∉ cols →
  Pd.getitem (mkFrame ("unique_id" :: cols) trows) "unique_id" = Ok (map (hd Pd.NaN) trows).
Proof.
  intros Hk. unfold Pd.getitem, Pd.count. cbn [columns rows].
  rewrite filter_cons_True, filter_eq_nil by done. cbn [length]. f_equal.
  apply map_ext. intros [|k r]; [done|]. cbn [Pd.row_get hd]. by rewrite decide_True.
Qed.

Lemma key_not_variable (v1 : string) (rest : directory) :
  v1 ∉ reserved → Forall (λ e, variable_of e.1 ∉ reserved) rest →
  "unique_id" ∉ [v1] ++ map (λ e, variable_of e.1) rest.
Proof.
  intros Hv1 Hres [Hin|Hin]%elem_of_app.
  - apply list_elem_of_singleton in Hin. by apply not_reserved_key in Hv1.
  - apply list_elem_of_fmap in Hin as (e & He & Hin).
    rewrite Forall_forall in Hres. by apply (not_reserved_key _ (Hres e Hin)).
Qed.

(** The first two cells of a row of the wide table are the key and the
    value of a row of the first file. *)
Lemma wide_rows_seed (entries : directory) (rws : list (list cell)) (r : list cell) :
  r ∈ wide_rows entries (map seed_row rws) →
  ∃ r1 ext, r1 ∈ rws ∧ r = row_uid r1 :: row_value r1 :: ext.
Proof.
  intros (r0 & ext & (r1 & -> & Hr1)%list_elem_of_fmap & ->)%wide_rows_prefix.
  by exists r1, ext.
Qed.

(** ** C3 *)

(** C3: let the cache directory hold record sets as the cache writer stores
    them, for variables that differ from each other and from the labels of a
    record set, and let [(n1, d1)] be the first file listed.  The wide merge
    returns a table
    - with the columns [unique_id], then one per variable in the order of
      the directory, which for the first file alone is the seed
      [(unique_id, first variable)] with one row per row of [d1];
    - whose keys are exactly the [unique_id]s of [d1] (a left join on
      [unique_id] keeps every row of the table it extends and adds none
      with a new key), each row holding under the first variable the value
      of a row of [d1] with its key;
    - where a row holds, in the column of a later variable, a missing value
      when the file of that variable has no row with its key, and otherwise
      the value of such a row of that file, as it is or, when the join has
      made the column one of floats, cast to [float64].
    In the example, [V1] covers [101] and [102] and [V2] covers [102] and
    [103]: the result has the rows [101] and [102], [V2] is missing at
    [101], and [103] is absent; the value 7 of [V2] at [102] stands as
    [7.0], in a column that holds a missing value. *)
Theorem wide_merge_is_left_join_on_first :
  (∀ (n1 : string) (d1 : DataFrame) (rest : directory),
     Forall (λ e, is_cached e.2 = true) ((n1, Feather d1) :: rest) →
     NoDup (map (λ e, variable_of e.1) ((n1, Feather d1) :: rest)) →
     Forall (λ e, variable_of e.1 ∉ reserved) ((n1, Feather d1) :: rest) →
     ∃ total ids,
       concatenate_variables_wide (Some ((n1, Feather d1) :: rest))
         = Ok (Some total, map (λ e, variable_of e.1) ((n1, Feather d1) :: rest)) ∧
       columns total
         = "unique_id" :: map (λ e, variable_of e.1) ((n1, Feather d1) :: rest) ∧
       (rest = [] → rows total = map seed_row (rows d1)) ∧
       Pd.getitem total "unique_id" = Ok ids ∧
       (∀ k, k ∈ ids ↔ k ∈ unique_ids d1) ∧
       (∀ r, r ∈ rows total →
          ∃ r1, r1 ∈ rows d1 ∧
                Pd.row_get (columns total) "unique_id" r = Some (row_uid r1) ∧
                Pd.row_get (columns total) (variable_of n1) r = Some (row_value r1)) ∧
       (∀ e r k,
          e ∈ rest → r ∈ rows total →
          Pd.row_get (columns total) "unique_id" r = Some k →
          ∃ x, Pd.row_get (columns total) (variable_of e.1) r = Some x ∧
               ((x = Pd.NaN ∧ k ∉ entry_ids e) ∨
                (∃ er, er ∈ entry_rows e ∧ row_uid er = k ∧
                       same_value (row_value er) x)))) ∧
  concatenate_variables_wide
    (Some [("V1--2021.feather", Feather (record_set ["01"; "02"] "total" 5));
           ("V2--2021.feather", Feather (record_set ["02"; "03"] "male" 7))])
  = Ok (Some (mkFrame ["unique_id"; "V1"; "V2"]
                [[CStr "101"; CInt 5; Pd.NaN];
                 [CStr "102"; CInt 5; CFloat "7.0"]]),
        ["V1"; "V2"]).
Proof.
  split; [|by vm_compute].
  intros n1 d1 rest Hc Hnd Hres.
  apply Forall_cons in Hc as [Hc1 Hc]. cbn [snd is_cached] in Hc1.
  apply is_record_set_inv in Hc1 as (rws & -> & Hr).
  pose proof Hres as Hres'. apply Forall_cons in Hres' as [Hv1 Hres']. cbn [fst] in Hv1.
  pose proof Hnd as Hnd'. cbn [map fst] in Hnd'.
  set (v1 := variable_of n1) in *.
  set (names := map (λ e, variable_of e.1) rest) in *.
  set (trows := wide_rows rest (map seed_row rws)).
  assert (Hlen : Forall (λ r, length r = 2%nat) (map seed_row rws)).
  { apply Forall_forall. by intros r (x & -> & _)%list_elem_of_fmap. }
  assert (Hkey : "unique_id" ∉ [v1]).
  { intros Hin%list_elem_of_singleton. by apply not_reserved_key in Hv1. }
  assert (Hget : ∀ (cols : list string) (r : list cell),
            default Pd.NaN (Pd.row_get ("unique_id" :: cols) "unique_id" r) = hd Pd.NaN r).
  { intros cols [|k r]; [done|]. cbn [Pd.row_get hd]. by rewrite decide_True. }
  exists (mkFrame ("unique_id" :: [v1] ++ names) trows), (map (hd Pd.NaN) trows).
  split; [|split; [done|split; [|split; [|split; [|split]]]]].
  - by apply wide_merge_record_sets.
  - intros ->. done.
  - apply getitem_key. by apply key_not_variable.
  - intros k. unfold trows. rewrite wide_rows_keys.
    + rewrite unique_ids_record_set by done. rewrite map_map.
      by rewrite (map_ext (λ r, hd Pd.NaN (seed_row r)) row_uid).
    + apply Forall_forall. by intros r (x & -> & _)%list_elem_of_fmap.
  - cbn [columns rows]. intros r (r1 & ext & Hr1 & ->)%wide_rows_seed.
    exists r1. split; [done|]. cbn [app Pd.row_get].
    rewrite decide_True by done. split; [done|].
    rewrite decide_False by (by apply not_eq_sym, not_reserved_key).
    by rewrite decide_True.
  - cbn [columns rows]. intros e r k He Hin Hk.
    destruct (wide_rows_cell rest [v1] (map seed_row rws) e r) as (x & trows' & Hx & _ & Hj);
      try done.
    exists x. split; [exact Hx|].
    assert (hd Pd.NaN r = k) as Hhd.
    { pose proof (Hget ([v1] ++ names) r) as Hg. rewrite Hk in Hg. by cbn in Hg. }
    rewrite Hhd in Hj. rewrite Forall_forall in Hc.
    rewrite entry_ids_record_set by (by apply Hc).
    apply joined_elem in Hj as [?|(er & Her & Hk' & ->)]; [by left|].
    right. exists er. split; [done|]. split; [done|]. apply same_value_astype.
Qed.

Lemma wide_merge_is_left_join_on_first_witness :
  let d1 := record_set ["01"; "02"] "total" 5 in
  let rest := [("V2--2021.feather", Feather (record_set ["02"; "03"] "male" 7))] in
  ∃ total ids,
    concatenate_variables_wide (Some (("V1--2021.feather", Feather d1) :: rest))
      = Ok (Some total, ["V1"; "V2"]) ∧
    columns total = ["unique_id"; "V1"; "V2"] ∧
    Pd.getitem total "unique_id" = Ok ids ∧
    (∀ k, k ∈ ids ↔ k ∈ [CStr "101"; CStr "102"]).
Proof.
  intros d1 rest.
  destruct (proj1 wide_merge_is_left_join_on_first "V1--2021.feather" d1 rest)
    as (total & ids & Hrun & Hcols & _ & Hids & Hkeys & _).
  - repeat constructor.
  - compute_done.
  - compute_done.
  - exists total, ids. split; [exact Hrun|]. split; [exact Hcols|].
    split; [exact Hids | exact Hkeys].
Defined.

(** * Further properties of the wide merge *)

(** A key borne by at most one row of a record set is joined to exactly one
    cell. *)
Lemma joined_unique (t : Pd.dtype) (k : cell) (rws : list (list cell)) :
  NoDup (map row_uid rws) → length (joined t k rws) = 1%nat.
Proof.
  intros Hnd. unfold joined, with_key.
  assert (length (filter (λ r, row_uid r = k) rws) ≤ 1)%nat as Hle.
  { induction rws as [|r rws IH]; [cbn; lia|].
    cbn [map] in Hnd. apply NoDup_cons in Hnd as [Hr Hnd].
    destruct (decide (row_uid r = k)) as [<-|Hne].
    - rewrite filter_cons_True by done.
      assert (filter (λ r0, row_uid r0 = row_uid r) rws = []) as ->; [|cbn; lia].
      destruct (filter _ rws) as [|m ms] eqn:Hf; [done|].
      assert (m ∈ filter (λ r0, row_uid r0 = row_uid r) rws) as [Hm Hin]%list_elem_of_filter
        by (rewrite Hf; by left).
      exfalso. apply Hr. rewrite <- Hm. by apply list_elem_of_fmap_2.
    - rewrite filter_cons_False by done. by apply IH. }
  destruct (filter _ rws) as [|m [|m' ms]]; cbn [length map] in *; [done | done | lia].
Qed.

Lemma left_join_keys_unique (trows rws : list (list cell)) :
  NoDup (map row_uid rws) →
  Forall (λ r, r ≠ []) trows →
  map (hd Pd.NaN) (left_join trows rws) = map (hd Pd.NaN) trows.
Proof.
  intros Hnd. unfold left_join. generalize (join_dtype trows rws). intros t.
  induction 1 as [|lr trows Hlr _ IH]; [done|].
  cbn [flat_map map]. pose proof (joined_unique t (hd Pd.NaN lr) rws Hnd) as Hone.
  destruct (joined t (hd Pd.NaN lr) rws) as [|x [|x' xs]]; cbn [length] in Hone; try lia.
  cbn [map app]. by rewrite IH, hd_app_nonempty.
Qed.

Lemma wide_rows_keys_unique (entries : directory) (trows : list (list cell)) :
  Forall (λ e, NoDup (map row_uid (entry_rows e))) entries →
  Forall (λ r, r ≠ []) trows →
  map (hd Pd.NaN) (wide_rows entries trows) = map (hd Pd.NaN) trows.
Proof.
  intros H. revert trows. induction H as [|e l He _ IH]; intros trows Hne; [done|].
  cbn [wide_rows]. rewrite IH by apply left_join_nonempty.
  by apply left_join_keys_unique.
Qed.

(** X15: when no later file bears a [unique_id] twice, the wide table has
    the rows of the first file, one for one and in their order: its column
    [unique_id] is the list of the [unique_id]s of the first file. *)
Theorem wide_merge_keeps_first_rows (n1 : string) (d1 : DataFrame) (rest : directory) :
  Forall (λ e, is_cached e.2 = true) ((n1, Feather d1) :: rest) →
  NoDup (map (λ e, variable_of e.1) ((n1, Feather d1) :: rest)) →
  Forall (λ e, variable_of e.1 ∉ reserved) ((n1, Feather d1) :: rest) →
  Forall (λ e, NoDup (entry_ids e)) rest →
  ∃ total,
    concatenate_variables_wide (Some ((n1, Feather d1) :: rest))
      = Ok (Some total, map (λ e, variable_of e.1) ((n1, Feather d1) :: rest)) ∧
    Pd.getitem total "unique_id" = Ok (unique_ids d1) ∧
    length (rows total) = length (rows d1).
Proof.
  intros [Hc1 Hc]%Forall_cons Hnd [Hv1 Hres]%Forall_cons Hids.
  cbn [snd is_cached fst] in Hc1, Hv1. cbn [map fst] in Hnd.
  apply is_record_set_inv in Hc1 as (rws & -> & Hr).
  eexists. split; [by apply wide_merge_record_sets|].
  assert (Hkeys : map (hd Pd.NaN) (wide_rows rest (map seed_row rws)) = map row_uid rws).
  { rewrite wide_rows_keys_unique.
    - rewrite map_map. by apply map_ext.
    - apply Forall_forall. intros e He. rewrite Forall_forall in Hids, Hc.
      specialize (Hids e He). specialize (Hc e He).
      destruct e as [n [d|]]; [|constructor]. cbn [snd is_cached] in Hc.
      apply is_record_set_inv in Hc as (rws' & -> & Hr').
      unfold entry_ids in Hids. cbn [snd] in Hids.
      by rewrite unique_ids_record_set in Hids.
    - apply Forall_forall. by intros r (x & -> & _)%list_elem_of_fmap. }
  split.
  - rewrite getitem_key by (by apply key_not_variable).
    by rewrite unique_ids_record_set, Hkeys.
  - cbn [rows]. apply (f_equal length) in Hkeys. by rewrite !length_map in Hkeys.
Qed.

Lemma wide_merge_keeps_first_rows_witness :
  let d1 := record_set ["01"; "02"] "total" 5 in
  let rest := [("V2--2021.feather", Feather (record_set ["02"; "03"] "male" 7))] in
  ∃ total,
    concatenate_variables_wide (Some (("V1--2021.feather", Feather d1) :: rest))
      = Ok (Some total, ["V1"; "V2"]) ∧
    Pd.getitem total "unique_id" = Ok [CStr "101"; CStr "102"] ∧
    length (rows total) = 2%nat.
Proof.
  intros d1 rest.
  apply (wide_merge_keeps_first_rows "V1--2021.feather" d1 rest).
  - repeat constructor.
  - compute_done.
  - compute_done.
  - repeat constructor; compute_done.
Defined.

Lemma with_key_nil (k : cell) (rws : list (list cell)) :
  with_key k rws = [] ↔ k ∉ map row_uid rws.
Proof.
  unfold with_key. split.
  - intros Hf (er & -> & Her)%list_elem_of_fmap.
    assert (er ∈ filter (λ r, row_uid r = row_uid er) rws) as Hin
      by (by apply list_elem_of_filter).
    rewrite Hf in Hin. by apply elem_of_nil in Hin.
  - intros Hk. destruct (filter (λ r, row_uid r = k) rws) as [|m ms] eqn:Hf; [done|].
    assert (m ∈ filter (λ r, row_uid r = k) rws) as [Hm Hin]%list_elem_of_filter
      by (rewrite Hf; by left).
    exfalso. apply Hk. apply list_elem_of_fmap. eauto.
Qed.

(** A join that finds every key of the table leaves the dtypes as they
    are; a join that misses one makes a column of integers one of floats. *)
Lemma join_dtype_covered (trows rws : list (list cell)) :
  (∀ k, k ∈ map (hd Pd.NaN) trows → k ∈ map row_uid rws) →
  join_dtype trows rws = Pd.object.
Proof.
  intros Hcov. unfold join_dtype.
  assert (existsb (λ lr, bool_decide (with_key (hd Pd.NaN lr) rws = [])) trows = false) as ->;
    [|done].
  apply not_true_is_false. intros (lr & Hlr%list_elem_of_In & Hm)%existsb_exists.
  apply bool_decide_eq_true_1, with_key_nil in Hm. apply Hm, Hcov.
  by apply list_elem_of_fmap_2.
Qed.

Lemma join_dtype_missed (trows rws : list (list cell)) (k : cell) :
  k ∈ map (hd Pd.NaN) trows → k ∉ map row_uid rws →
  rws ≠ [] → Forall (λ v, Pd.is_int v = true) (map row_value rws) →
  join_dtype trows rws = Pd.float64.
Proof.
  intros (lr & -> & Hlr)%list_elem_of_fmap Hk Hne Hint. unfold join_dtype.
  assert (existsb (λ lr, bool_decide (with_key (hd Pd.NaN lr) rws = [])) trows = true) as ->.
  { apply existsb_exists. exists lr. split; [by apply list_elem_of_In|].
    by apply bool_decide_eq_true_2, with_key_nil. }
  assert (Pd.dtype_of (map row_value rws) = Pd.int64) as ->; [|done].
  assert (forallb Pd.is_int (map row_value rws) = true) as Hall.
  { apply forallb_forall. intros c Hc%list_elem_of_In.
    rewrite Forall_forall in Hint. by apply Hint. }
  unfold Pd.dtype_of. destruct rws as [|r rws]; [done|].
  cbn [map] in Hall |- *. by rewrite Hall.
Qed.

(** X16: the column of a later variable, by what the join finds.  When
    every [unique_id] of the first file is borne by a row of the file of
    that variable, no missing value is filled in and each cell of the column
    is the value of a row of that file with the [unique_id] of its row, as
    it stands in the file: integers stay integers.  When a [unique_id] of
    the first file is not found and the file holds integers, the column is
    one of floats: each of its cells is the missing value, at a [unique_id]
    the file does not bear, or the value of a row of the file with that
    [unique_id], as the nearest double. *)
Theorem wide_merge_cells_come_from_files (n1 : string) (d1 : DataFrame) (rest : directory) :
  Forall (λ e, is_cached e.2 = true) ((n1, Feather d1) :: rest) →
  NoDup (map (λ e, variable_of e.1) ((n1, Feather d1) :: rest)) →
  Forall (λ e, variable_of e.1 ∉ reserved) ((n1, Feather d1) :: rest) →
  ∃ total,
    concatenate_variables_wide (Some ((n1, Feather d1) :: rest))
      = Ok (Some total, map (λ e, variable_of e.1) ((n1, Feather d1) :: rest)) ∧
    ∀ e, e ∈ rest →
      ((∀ k, k ∈ unique_ids d1 → k ∈ entry_ids e) →
       ∀ r, r ∈ rows total →
         ∃ er, er ∈ entry_rows e ∧
               Pd.row_get (columns total) "unique_id" r = Some (row_uid er) ∧
               Pd.row_get (columns total) (variable_of e.1) r = Some (row_value er)) ∧
      ((∃ k, k ∈ unique_ids d1 ∧ k ∉ entry_ids e) →
       entry_rows e ≠ [] →
       Forall (λ v, Pd.is_int v = true) (entry_values e) →
       ∀ r k, r ∈ rows total →
         Pd.row_get (columns total) "unique_id" r = Some k →
         ∃ x, Pd.row_get (columns total) (variable_of e.1) r = Some x ∧
              ((x = Pd.NaN ∧ k ∉ entry_ids e) ∨
               ∃ er, er ∈ entry_rows e ∧ row_uid er = k ∧
                     x = Pd.to_float64 (row_value er))).
Proof.
  intros [Hc1 Hc]%Forall_cons Hnd [Hv1 Hres]%Forall_cons.
  cbn [snd is_cached fst] in Hc1, Hv1. cbn [map fst] in Hnd.
  apply is_record_set_inv in Hc1 as (rws & -> & Hr).
  eexists. split; [by apply wide_merge_record_sets|].
  cbn [columns rows]. rewrite unique_ids_record_set by done.
  assert (Hseed : map (hd Pd.NaN) (map seed_row rws) = map row_uid rws).
  { rewrite map_map. by apply map_ext. }
  assert (Hcell : ∀ e r, e ∈ rest → r ∈ wide_rows rest (map seed_row rws) →
            Pd.row_get ("unique_id" :: [variable_of n1] ++ map (λ e, variable_of e.1) rest)
              "unique_id" r = Some (hd Pd.NaN r) ∧
            hd Pd.NaN r ∈ map row_uid rws ∧
            ∃ x trows',
              Pd.row_get ("unique_id" :: [variable_of n1] ++ map (λ e, variable_of e.1) rest)
                (variable_of e.1) r = Some x ∧
              (∀ k, k ∈ map (hd Pd.NaN) trows' ↔ k ∈ map row_uid rws) ∧
              x ∈ joined (join_dtype trows' (entry_rows e)) (hd Pd.NaN r) (entry_rows e)).
  { intros e r He Hin. split; [|split].
    - apply wide_rows_seed in Hin as (r1 & ext & _ & ->). cbn [Pd.row_get hd].
      by rewrite decide_True.
    - apply wide_rows_seed in Hin as (r1 & ext & Hr1 & ->). cbn [hd].
      by apply list_elem_of_fmap_2.
    - destruct (wide_rows_cell rest [variable_of n1] (map seed_row rws) e r)
        as (x & trows' & Hx & Hk & Hj); try done.
      + intros Hin'%list_elem_of_singleton. by apply not_reserved_key in Hv1.
      + apply Forall_forall. by intros r0 (x & -> & _)%list_elem_of_fmap.
      + exists x, trows'. split; [done|]. split; [|done]. intros k. by rewrite Hk, Hseed. }
  intros e He. rewrite Forall_forall in Hc.
  rewrite entry_ids_record_set by (by apply Hc). split.
  - intros Hcov r Hin.
    destruct (Hcell e r He Hin) as (Hkey & Hin1 & x & trows' & Hx & Hk & Hj).
    rewrite join_dtype_covered in Hj by (intros k Hk'; by apply Hcov, Hk).
    apply joined_elem in Hj as [[_ Hmiss]|(er & Her & Huid & ->)].
    + destruct Hmiss. by apply Hcov.
    + exists er. split; [done|]. by rewrite Hkey, Huid.
  - intros (k0 & Hk0 & Hmiss0) Hne Hint r k Hin Hkey.
    destruct (Hcell e r He Hin) as (Hkey' & _ & x & trows' & Hx & Hk & Hj).
    rewrite Hkey in Hkey'. injection Hkey' as ->.
    rewrite (join_dtype_missed _ _ k0) in Hj; [|by apply Hk|done|done|done].
    exists x. split; [done|].
    apply joined_elem in Hj as [?|(er & Her & Huid & ->)]; [by left|].
    right. by exists er.
Qed.

Lemma wide_merge_cells_come_from_files_witness :
  let d1 := record_set ["01"; "02"] "total" 5 in
  let rest := [("V2--2021.feather", Feather (record_set ["02"; "03"] "male" 7))] in
  ∃ total,
    concatenate_variables_wide (Some (("V1--2021.feather", Feather d1) :: rest))
      = Ok (Some total, ["V1"; "V2"]) ∧
    ∀ r k, r ∈ rows total →
      Pd.row_get (columns total) "unique_id" r = Some k →
      ∃ x, Pd.row_get (columns total) "V2" r = Some x ∧
           ((x = Pd.NaN ∧ k ∉ [CStr "102"; CStr "103"]) ∨
            ∃ er, er ∈ rows (record_set ["02"; "03"] "male" 7) ∧ row_uid er = k ∧
                  x = Pd.to_float64 (row_value er)).
Proof.
  intros d1 rest.
  destruct (wide_merge_cells_come_from_files "V1--2021.feather" d1 rest)
    as (total & Hrun & Hcells).
  - repeat constructor.
  - compute_done.
  - compute_done.
  - exists total. split; [exact Hrun|].
    apply (proj2 (Hcells ("V2--2021.feather", Feather (record_set ["02"; "03"] "male" 7))
                    ltac:(by left))).
    + exists (CStr "101"). split; compute_done.
    + done.
    + repeat constructor.
Defined.

(** *** The same variable in two files *)

Lemma suffix_x_not_key (v : string) : v +:+ "_x" ≠ "unique_id".
Proof.
  intros H. pose proof (f_equal String.length H) as Hlen.
  rewrite str_app_length in Hlen.
  do 8 (destruct v as [|? v]; [cbn in Hlen, H; try lia; try discriminate H|]).
  cbn in Hlen. lia.
Qed.

(** The left join when the two tables bear the same variable: the columns
    get the suffixes. *)
Lemma merge_left_same_variable (v : string) (trows rws : list (list cell)) :
  v ≠ "unique_id" →
  Pd.merge_left (mkFrame ["unique_id"; v] trows)
                (mkFrame [v; "unique_id"] (map wide_row rws)) "unique_id"
  = Ok (mkFrame ["unique_id"; v +:+ "_x"; v +:+ "_y"] (left_join trows rws)).
Proof.
  intros Hvk. unfold Pd.merge_left, Pd.count. cbn [columns rows].
  rewrite (filter_cons_True _ "unique_id"), (filter_cons_False _ v) by done.
  rewrite (filter_cons_False _ v), (filter_cons_True _ "unique_id") by done.
  change (filter (λ c, c = "unique_id") []) with (@nil string). cbn [length].
  rewrite (filter_cons_True _ v), (filter_cons_False _ "unique_id") by auto.
  change (filter (λ c, c ≠ "unique_id") []) with (@nil string).
  cbn [map]. rewrite (decide_False (P := "unique_id" ∈ [v])).
  2:{ intros ?%list_elem_of_singleton. done. }
  rewrite (decide_True (P := v ∈ [v])) by (by left).
  rewrite (decide_True (P := v ∈ ["unique_id"; v])) by (right; by left).
  unfold Pd.suffix_dups, Pd.duplicated. cbn [Pd.duplicated_go zip zip_with existsb fst snd].
  rewrite (bool_decide_eq_false_2 ("unique_id" ∈ [])) by apply not_elem_of_nil.
  rewrite (bool_decide_eq_false_2 (v ∈ ["unique_id"])).
  2:{ intros ?%list_elem_of_singleton. done. }
  rewrite (bool_decide_eq_false_2 (v +:+ "_x" ∈ ["unique_id"])).
  2:{ intros ?%list_elem_of_singleton. by eapply suffix_x_not_key. }
  rewrite (bool_decide_eq_false_2 (v ∈ [])) by apply not_elem_of_nil.
  rewrite (bool_decide_eq_false_2 (v +:+ "_y" ∈ [])) by apply not_elem_of_nil.
  cbn [andb orb negb length app].
  do 2 f_equal. by apply (merge_left_rows [v] trows v rws).
Qed.

(** X17: the merges take every file of the directory, whatever its year.
    When the directory holds two files of one variable [v], the wide merge
    does not fail and overwrites nothing: the table has the two columns
    [v_x] (the file listed first) and [v_y], the second file joined to the
    first on [unique_id] (a value of the second file as it is, or as a
    float when a [unique_id] of the first file is not found in the second),
    and the manifest names [v] twice. *)
Theorem wide_merge_of_one_variable_twice (n1 n2 : string) (d1 d2 : DataFrame) (v : string) :
  variable_of n1 = v → variable_of n2 = v →
  v ∉ reserved →
  is_record_set d1 = true → is_record_set d2 = true →
  concatenate_variables_wide (Some [(n1, Feather d1); (n2, Feather d2)])
  = Ok (Some (mkFrame ["unique_id"; v +:+ "_x"; v +:+ "_y"]
                      (left_join (map seed_row (rows d1)) (rows d2))),
        [v; v]).
Proof.
  intros Hn1 Hn2 Hv (rws1 & -> & Hr1)%is_record_set_inv (rws2 & -> & Hr2)%is_record_set_inv.
  pose proof (not_reserved_key _ Hv) as Hvk.
  unfold concatenate_variables_wide. cbn [os_listdir obind wide_loop read_feather].
  rewrite Hn1, Hn2. rewrite !wide_table_record_set by done. cbn [obind].
  rewrite select_seed by done. cbn [obind].
  rewrite merge_left_same_variable by done. done.
Qed.

Lemma wide_merge_of_one_variable_twice_witness :
  concatenate_variables_wide
    (Some [("V1--2020.feather", Feather (record_set ["01"; "02"] "total" 5));
           ("V1--2021.feather", Feather (record_set ["02"] "total" 6))])
  = Ok (Some (mkFrame ["unique_id"; "V1_x"; "V1_y"]
                      [[CStr "101"; CInt 5; Pd.NaN]; [CStr "102"; CInt 5; CFloat "6.0"]]),
        ["V1"; "V1"]).
Proof.
  apply (wide_merge_of_one_variable_twice "V1--2020.feather" "V1--2021.feather"
           (record_set ["01"; "02"] "total" 5) (record_set ["02"] "total" 6) "V1").
  - reflexivity.
  - reflexivity.
  - compute_done.
  - reflexivity.
  - reflexivity.
Defined.

(** * The manifest *)

(** When a loop runs to its end it has loaded every file, and has listed the
    variable of each, in the order of the directory. *)
Lemma merge_phase_variables (long : bool) (data_fault manifest_fault : option exn)
    (entries : directory) (final : DataFrame) (manifest : list string) :
  merge_phase long data_fault manifest_fault (Some entries) = Ok (final, manifest) →
  manifest = map (λ e, variable_of e.1) entries ∧
  Forall (λ e, is_readable e.2 = true) entries ∧
  (if long then concatenate_variables_long (Some entries) = Ok (final, manifest)
   else concatenate_variables_wide (Some entries) = Ok (Some final, manifest)).
Proof.
  intros H. unfold merge_phase in H. destruct long.
  - destruct (concatenate_variables_long (Some entries)) as [[total variables]|e] eqn:Hm;
      cbn [obind] in H; [|done].
    destruct data_fault, manifest_fault; try done. injection H as <- <-.
    unfold concatenate_variables_long in Hm. cbn [os_listdir obind] in Hm.
    destruct (long_loop entries [] []) as [[frames vs]|e] eqn:Hl; cbn [obind] in Hm; [|done].
    apply long_loop_variables in Hl as [-> Hall].
    destruct (Pd.concat frames); cbn [obind] in Hm; [|done].
    by injection Hm as <- <-.
  - destruct (concatenate_variables_wide (Some entries)) as [[total variables]|e] eqn:Hm;
      cbn [obind] in H; [|done].
    destruct total as [total|], data_fault, manifest_fault; try done. injection H as <- <-.
    unfold concatenate_variables_wide in Hm. cbn [os_listdir obind] in Hm.
    apply wide_loop_variables in Hm as Hv. destruct Hv as [-> Hall]. done.
Qed.

(** ** C8 *)



(** * From the fetch phase to the merge *)

Lemma variable_of_cache_name (var : string) (year : Z) :
  Py.contains "--" var = false → ends_with_dash var = false →
  variable_of (cache_name var year) = var.
Proof.
  intros Hdd Hend. unfold variable_of, cache_name, Py.split.
  by rewrite split_go_dashes.
Qed.

(** X18: the two phases fit, but for the files a failed write leaves.
    After a fetch phase that starts on an empty cache directory, with
    identifiers that the file naming can carry and that hold no path
    separator: when a write has failed with its file open, the file it left
    stops the long merge; when every file of the directory can be loaded and
    there is one, the long merge returns, with one row per row of the files,
    and every variable of its manifest is a variable of the list the fetch
    phase worked on. *)
Theorem long_merge_after_fetch (acs5_get : string → Z → outcome (list dict))
    (write_fault : string → DataFrame → option fault) (lands : string → option string)
    (acs_vars : list acs_var)
    (var_names : list string) (year : Z) (w : world) (oe : option exn) :
  fetch_phase acs5_get write_fault lands acs_vars var_names year [] = Ok (w, oe) →
  Forall (λ v, plain v = true) var_names →
  temp_dir w ≠ [] →
  (Exists (λ e, is_readable e.2 = false) (temp_dir w) →
   raises (concatenate_variables_long (Some (temp_dir w)))) ∧
  (Forall (λ e, is_readable e.2 = true) (temp_dir w) →
   ∃ total manifest,
     concatenate_variables_long (Some (temp_dir w)) = Ok (total, manifest) ∧
     length (rows total) = sum_list (map (λ e, nrows e.2) (temp_dir w)) ∧
     ∀ v, v ∈ manifest → v ∈ var_names).
Proof.
  unfold fetch_phase. cbn [get_completed_vars os_listdir completed_loop obind].
  intros [= Hrun] Hplain Hne.
  assert (Hslash : Forall (λ v, Py.contains "/" v = false) var_names).
  { eapply Forall_impl; [exact Hplain|]. by intros v [_ ?]%plain_spec. }
  rewrite Forall_forall in Hplain.
  pose proof (scrape_loop_record_sets _ _ _ _ _ _ _ _ _ _ _ Hrun Hslash) as Hall.
  cbn [temp_dir] in Hall. specialize (Hall ltac:(constructor)).
  pose proof (loop_file_names _ _ _ _ _ _ _ _ _ _ _ Hrun Hslash) as Hnames.
  cbn [temp_dir map] in Hnames.
  split.
  - intros Hbad. unfold concatenate_variables_long. cbn [os_listdir obind].
    apply raises_bind. by apply long_loop_unreadable.
  - intros Hread.
    assert (Hc : Forall (λ e, is_cached e.2 = true) (temp_dir w)).
    { apply Forall_forall. intros e He. rewrite Forall_forall in Hall, Hread.
      destruct (Hall e He) as [?|[Hu _]]; [done|].
      specialize (Hread e He). by rewrite Hu in Hread. }
    do 2 eexists. split; [by apply long_merge_record_sets|]. cbn [rows]. split.
    + apply long_rows_total_length.
    + intros v (e & -> & He)%list_elem_of_fmap.
      destruct (Hnames e.1) as [Hnil|(v & Hv & ->)];
        [by apply list_elem_of_fmap_2 | by apply elem_of_nil in Hnil|].
      destruct (proj1 (plain_spec v) (Hplain v Hv)) as [Hfree _].
      destruct (proj1 (delimiter_free_spec v) Hfree) as (Hdd & _ & Hend).
      by rewrite variable_of_cache_name.
Qed.

Lemma long_merge_after_fetch_witness :
  ∃ w oe total manifest,
    fetch_phase example_census no_fault outside example_catalog
      ["B01001_001E"; "B01001_002E"] 2021 [] = Ok (w, oe) ∧
    concatenate_variables_long (Some (temp_dir w)) = Ok (total, manifest) ∧
    length (rows total) = sum_list (map (λ e, nrows e.2) (temp_dir w)) ∧
    ∀ v, v ∈ manifest → v ∈ ["B01001_001E"; "B01001_002E"].
Proof.
  set (run := scrape_loop example_census no_fault outside example_catalog 2021 ∅ 0
                ["B01001_001E"; "B01001_002E"] (mkWorld [] [] [])).
  assert (H1 : fetch_phase example_census no_fault outside example_catalog
                 ["B01001_001E"; "B01001_002E"] 2021 [] = Ok (run.1, run.2))
    by (vm_compute; reflexivity).
  assert (H2 : Forall (λ v, plain v = true) ["B01001_001E"; "B01001_002E"])
    by repeat constructor.
  assert (H3 : temp_dir run.1 ≠ []) by (vm_compute; discriminate).
  destruct (proj2 (long_merge_after_fetch example_census no_fault outside example_catalog
                     ["B01001_001E"; "B01001_002E"] 2021 run.1 run.2 H1 H2 H3))
    as (total & manifest & Hrun & Hlen & Hman).
  - vm_compute. repeat constructor.
  - exists run.1, run.2, total, manifest. split; [exact H1|].
    split; [exact Hrun|]. split; [exact Hlen | exact Hman].
Defined.

(** * Further properties of the scan *)

Lemma completed_dec (entries : directory) :
  Forall (λ e, is_cache_name e.1 = true) entries ∨
  Exists (λ e, is_cache_name e.1 = false) entries.
Proof.
  induction entries as [|e l [IH|IH]].
  - left. constructor.
  - destruct (is_cache_name e.1) eqn:He; [left; by constructor | right; by left].
  - right. by right.
Qed.

(** X1: the result of the scan, a set or the [ValueError], does not depend
    on the order in which [os.listdir] yields the files. *)
Theorem scan_ignores_listing_order (entries entries' : directory) (year : Z) :
  entries ≡ₚ entries' →
  get_completed_vars (Some entries) year = get_completed_vars (Some entries') year.
Proof.
  intros Hp. destruct (completed_dec entries) as [Hall|Hex].
  - destruct (get_completed_vars_spec year entries Hall) as (cs & -> & Hcs).
    destruct (get_completed_vars_spec year entries') as (cs' & -> & Hcs').
    { by rewrite <- Hp. }
    f_equal. apply set_eq. intros v. rewrite Hcs, Hcs'.
    split; intros (e & He & Hparse); exists e; (split; [|done]).
    + by rewrite <- Hp.
    + by rewrite Hp.
  - unfold get_completed_vars. cbn [os_listdir obind].
    rewrite !completed_loop_malformed; [done| |done].
    by rewrite <- Hp.
Qed.

Lemma scan_ignores_listing_order_witness :
  get_completed_vars (Some [("A--2021.feather", Unreadable); ("B--2021.feather", Unreadable)]) 2021
  = get_completed_vars (Some [("B--2021.feather", Unreadable); ("A--2021.feather", Unreadable)]) 2021.
Proof.
  apply (scan_ignores_listing_order
           [("A--2021.feather", Unreadable); ("B--2021.feather", Unreadable)]
           [("B--2021.feather", Unreadable); ("A--2021.feather", Unreadable)] 2021).
  apply perm_swap.
Defined.

Lemma put_file_keeps (name : string) (d : DataFrame) (entries : directory) (e : string * file) :
  e ∈ entries → e.1 ≠ name → e ∈ put_file name d entries.
Proof.
  induction entries as [|[n f] l IH]; cbn [put_file];
    [intros H; by apply elem_of_nil in H|].
  intros [->|He]%elem_of_cons Hne.
  - cbn [fst] in Hne. rewrite decide_False by done. by left.
  - destruct (decide (n = name)) as [->|]; right; [done | by apply IH].
Qed.

(** X2: writing the file of a variable [var] for year [year] adds [var],
    and nothing else, to what the scan returns for [year], and leaves what
    it returns for any other year as it was. *)
Theorem write_adds_one_completed_variable (var : string) (year target : Z)
    (d : DataFrame) (entries : directory) (cs : gset string) :
  delimiter_free var = true →
  get_completed_vars (Some entries) target = Ok cs →
  get_completed_vars (Some (put_file (cache_name var year) d entries)) target
  = Ok (if decide (target = year) then cs ∪ {[var]} else cs).
Proof.
  intros Hfree Hscan.
  pose proof (parse_cache_name_cache_name var year Hfree) as Hparse.
  pose proof (get_completed_vars_ok _ _ _ Hscan) as Hall.
  destruct (get_completed_vars_spec target entries Hall) as (cs0 & Hcs0 & Hin).
  rewrite Hscan in Hcs0. injection Hcs0 as <-.
  destruct (get_completed_vars_spec target (put_file (cache_name var year) d entries))
    as (cs' & -> & Hin').
  { apply Forall_forall. intros e [->|He]%put_file_elem.
    - unfold is_cache_name. cbn [fst]. by rewrite Hparse.
    - rewrite Forall_forall in Hall. by apply Hall. }
  f_equal. apply set_eq. intros v. rewrite Hin'. split.
  - intros (e & [->|He]%put_file_elem & Hp).
    + cbn [fst] in Hp. rewrite Hparse in Hp. injection Hp as <- <-.
      rewrite decide_True by done. apply elem_of_union. right. by apply elem_of_singleton.
    + assert (v ∈ cs) by (apply Hin; eauto).
      destruct (decide (target = year)); [apply elem_of_union; by left | done].
  - intros Hv.
    assert (v ∈ cs ∨ (target = year ∧ v = var)) as [Hv'|[-> ->]].
    { destruct (decide (target = year)) as [->|]; [|by left].
      apply elem_of_union in Hv as [?|Hv]; [by left|].
      apply elem_of_singleton in Hv. by right. }
    + apply Hin in Hv' as (e & He & Hp).
      destruct (decide (e.1 = cache_name var year)) as [Heq|Hne].
      * rewrite Heq, Hparse in Hp. injection Hp as <- <-.
        exists (cache_name var year, Feather d). split; [apply put_file_in | done].
      * exists e. split; [by apply put_file_keeps | done].
    + exists (cache_name var year, Feather d). split; [apply put_file_in | done].
Qed.

Lemma write_adds_one_completed_variable_witness :
  get_completed_vars
    (Some (put_file (cache_name "B01001_001E" 2021) (record_set ["01"] "total" 5)
             [("B01001_002E--2021.feather", Unreadable)])) 2021
  = Ok ({["B01001_002E"]} ∪ {["B01001_001E"]}).
Proof.
  apply (write_adds_one_completed_variable "B01001_001E" 2021 2021
           (record_set ["01"] "total" 5) [("B01001_002E--2021.feather", Unreadable)]
           {["B01001_002E"]}).
  - reflexivity.
  - vm_compute. reflexivity.
Defined.

(** X3: the merges read back from a file name the variable the cache
    writer put into it, whatever the year, as soon as the identifier holds
    no ["--"] and does not end in a dash; a ["."] in it does no harm here. *)
Theorem merge_reads_back_variable (var : string) (year : Z) :
  Py.contains "--" var = false → ends_with_dash var = false →
  variable_of (cache_name var year) = var.
Proof.
  intros Hdd Hend. unfold variable_of, cache_name, Py.split.
  by rewrite split_go_dashes.
Qed.

Lemma merge_reads_back_variable_witness :
  variable_of (cache_name "B01001.001E" 2021) = "B01001.001E".
Proof.
  apply (merge_reads_back_variable "B01001.001E" 2021); reflexivity.
Defined.

(** *** An identifier with a dot *)

Lemma prefix_app_r (sep a b : string) :
  String.prefix sep a = true → String.prefix sep (a +:+ b) = true.
Proof.
  revert a. induction sep as [|c sep IH]; intros a H; [apply prefix_empty|].
  destruct a as [|x a]; [done|]. rewrite str_app_cons, prefix_cons in *.
  destruct (ascii_dec c x); [by apply IH | done].
Qed.

Lemma contains_app_l (sep a b : string) :
  Py.contains sep (a +:+ b) = false → Py.contains sep a = false.
Proof.
  induction a as [|x a IH].
  - cbn [Py.contains]. destruct sep; [|done].
    intros H. destruct b; cbn in H; done.
  - rewrite str_app_cons. cbn [Py.contains]. intros [Hp Hc]%orb_false_iff.
    apply orb_false_iff. split; [|by apply IH].
    destruct (String.prefix sep (String x a)) eqn:Hpre; [|done].
    apply (prefix_app_r _ _ b) in Hpre. rewrite str_app_cons in Hpre. congruence.
Qed.

(** The part of a string before its first ["."] . *)
Lemma first_dot (s : string) :
  Py.contains "." s = true →
  ∃ a b, s = a +:+ String "." b ∧ Py.contains "." a = false.
Proof.
  induction s as [|c s IH]; [done|]. cbn [Py.contains].
  rewrite prefix_cons, prefix_empty.
  destruct (ascii_dec "." c) as [<-|Hne]; cbn [orb].
  - intros _. by exists EmptyString, s.
  - intros (a & b & -> & Ha)%IH. exists (String c a), b. split; [done|].
    cbn [Py.contains]. rewrite prefix_cons, prefix_empty, Ha.
    by destruct (ascii_dec "." c).
Qed.

Lemma dotted_name_does_not_parse (var : string) (year : Z) :
  Py.contains "." var = true → Py.contains "--" var = false →
  is_cache_name (cache_name var year) = false.
Proof.
  intros (a & b & -> & Ha)%first_dot Hdd.
  unfold is_cache_name, parse_cache_name, cache_name, Py.split.
  rewrite str_app_assoc, str_app_cons, split_go_dot by done. cbn [hd].
  change (EmptyString +:+ a) with a.
  rewrite split_go_none; [done|]. by apply contains_app_l in Hdd.
Qed.

(** X4: an identifier with a ["."] and no ["--"] spoils the cache.  Once
    its file is written, every scan of the directory, for any year, raises
    [ValueError]: the name is cut at the dot before the ["--"] is looked
    for. *)
Theorem dotted_variable_breaks_scan (var : string) (year target : Z)
    (d : DataFrame) (entries : directory) :
  Py.contains "." var = true → Py.contains "--" var = false →
  get_completed_vars (Some (put_file (cache_name var year) d entries)) target
  = Raise ValueError.
Proof.
  intros Hdot Hdd. unfold get_completed_vars. cbn [os_listdir obind].
  apply completed_loop_malformed, Exists_exists.
  exists (cache_name var year, Feather d). split; [apply put_file_in|].
  by apply dotted_name_does_not_parse.
Qed.

Lemma dotted_variable_breaks_scan_witness :
  get_completed_vars
    (Some (put_file (cache_name "B01001.001E" 2021) (record_set ["01"] "total" 5)
             [("B01001_002E--2021.feather", Unreadable)])) 2021
  = Raise ValueError.
Proof.
  apply (dotted_variable_breaks_scan "B01001.001E" 2021 2021); reflexivity.
Defined.

